(** * Wolfi backend: the [evaluateAnswer] and [generateExercise] API handlers

    A shallow embedding of the two Next.js API routes of the repository
    ([src/pages/api/evaluateAnswer.ts], [src/pages/api/generateExercise.ts])
    and of the seven handler variants these two files contain, followed by
    the theorems that settle the claims of the specification and by
    further properties of the handlers.

    Layout:
    - [JS]: the JavaScript run-time operations the handlers rely on
      (strings of UTF-16 code units, numbers, JSON values, coercions,
      [JSON.parse]);
    - [Http]: requests, responses, the external services and the monad in
      which a handler runs (trace of external calls, exceptions);
    - [Common] and one module per handler variant;
    - the vocabulary of the statements, then the properties and their
      proofs. *)

From Stdlib Require Import List String Ascii Bool ZArith NArith QArith Qround Lia.
Import ListNotations.

Set Warnings "-register-all".

(* ===================================================================== *)
(** * Part I: the JavaScript run time *)
(* ===================================================================== *)

Module JS.

(** ** Exceptions *)

(** A computation that may throw.  The handlers never inspect the exception
    they catch, so its payload is not modelled. *)
Inductive exc (A : Type) : Type :=
| Ok (a : A)
| Throw.
Arguments Ok {A} a.
Arguments Throw {A}.

Definition exc_bind {A B : Type} (m : exc A) (f : A -> exc B) : exc B :=
  match m with
  | Ok a => f a
  | Throw => Throw
  end.

(** ** Strings

    A JavaScript string is a finite sequence of UTF-16 code units. *)
Definition jsstring : Type := list N.

Fixpoint str_eqb (a b : jsstring) : bool :=
  match a, b with
  | [], [] => true
  | x :: a', y :: b' => N.eqb x y && str_eqb a' b'
  | _, _ => false
  end.

(** Source literals are written as Rocq strings (UTF-8 bytes) and decoded
    into code units. *)
Fixpoint utf16 (s : string) : jsstring :=
  match s with
  | EmptyString => []
  | String c r =>
      let b := N_of_ascii c in
      if (b <? 128)%N then b :: utf16 r
      else if (b <? 224)%N then
        match r with
        | String c2 r2 =>
            ((b - 192) * 64 + (N_of_ascii c2 - 128))%N :: utf16 r2
        | EmptyString => [b]
        end
      else if (b <? 240)%N then
        match r with
        | String c2 (String c3 r3) =>
            ((b - 224) * 4096 + (N_of_ascii c2 - 128) * 64
             + (N_of_ascii c3 - 128))%N :: utf16 r3
        | _ => [b]
        end
      else
        match r with
        | String c2 (String c3 (String c4 r4)) =>
            let cp := ((b - 240) * 262144 + (N_of_ascii c2 - 128) * 4096
                       + (N_of_ascii c3 - 128) * 64
                       + (N_of_ascii c4 - 128))%N in
            let v := (cp - 65536)%N in
            (55296 + v / 1024)%N :: (56320 + v mod 1024)%N :: utf16 r4
        | _ => [b]
        end
  end.

(** JSON texts are full of double quotes; in examples they are written with
    an apostrophe in place of each double quote. *)
Definition json_text (s : string) : jsstring :=
  map (fun c => if (c =? 39)%N then 34%N else c) (utf16 s).

(** [WhiteSpace] and [LineTerminator] of ECMAScript: what [trim] removes and
    what [\s] matches. *)
Definition is_ws (c : N) : bool :=
  ((9 <=? c) && (c <=? 13) || (c =? 32) || (c =? 160) || (c =? 5760)
   || (8192 <=? c) && (c <=? 8202) || (c =? 8232) || (c =? 8233)
   || (c =? 8239) || (c =? 8287) || (c =? 12288) || (c =? 65279))%N.

Definition is_ascii_letter (c : N) : bool :=
  ((65 <=? c) && (c <=? 90) || (97 <=? c) && (c <=? 122))%N.

Definition is_digit (c : N) : bool := ((48 <=? c) && (c <=? 57))%N.

Fixpoint dropWhile (p : N -> bool) (s : jsstring) : jsstring :=
  match s with
  | [] => []
  | c :: r => if p c then dropWhile p r else s
  end.

Fixpoint span (p : N -> bool) (s : jsstring) : jsstring * jsstring :=
  match s with
  | [] => ([], [])
  | c :: r => if p c then let (a, b) := span p r in (c :: a, b) else ([], s)
  end.

Definition trimStart (s : jsstring) : jsstring := dropWhile is_ws s.
Definition trimEnd (s : jsstring) : jsstring := rev (dropWhile is_ws (rev s)).
Definition trim (s : jsstring) : jsstring := trimEnd (trimStart s).

Fixpoint startsWith (s p : jsstring) {struct p} : bool :=
  match p, s with
  | [], _ => true
  | x :: p', y :: s' => N.eqb x y && startsWith s' p'
  | _ :: _, [] => false
  end.

Definition endsWith (s p : jsstring) : bool := startsWith (rev s) (rev p).

(** [s.indexOf(p)]: the first position at which [p] occurs, or -1. *)
Fixpoint indexOf_from (s p : jsstring) (i : Z) : Z :=
  if startsWith s p then i
  else match s with
       | [] => -1
       | _ :: r => indexOf_from r p (i + 1)
       end.

Definition indexOf (s p : jsstring) : Z := indexOf_from s p 0.

(** [s.lastIndexOf(p)]: the last position at which [p] occurs, or -1. *)
Fixpoint lastIndexOf_from (s p : jsstring) (i best : Z) : Z :=
  let best' := if startsWith s p then i else best in
  match s with
  | [] => best'
  | _ :: r => lastIndexOf_from r p (i + 1) best'
  end.

Definition lastIndexOf (s p : jsstring) : Z := lastIndexOf_from s p 0 (-1).

Definition includes (s p : jsstring) : bool := negb (indexOf s p =? -1)%Z.

(** [s.slice(a, b)], with the relative indexing of negative arguments. *)
Definition slice (s : jsstring) (a b : Z) : jsstring :=
  let len := Z.of_nat (List.length s) in
  let from := if (a <? 0)%Z then Z.max (len + a) 0 else Z.min a len in
  let to := if (b <? 0)%Z then Z.max (len + b) 0 else Z.min b len in
  firstn (Z.to_nat (to - from)) (skipn (Z.to_nat from) s).

(** ** Numbers

    A Number is NaN, an infinity, or a finite value, kept here as the exact
    rational it denotes.  Every operation the handlers apply to numbers
    (comparison, [Math.floor], [Math.round], [Math.min], [Math.max]) is
    exact on binary64 values, so no rounding occurs in them; rounding to
    binary64 happens where a number is read from text ([to_binary64]).
    The sign of zero is not kept: no handler output depends on it. *)
Inductive number : Type :=
| NaN
| PInf
| NInf
| Fin (q : Q).

Definition num (z : Z) : number := Fin (inject_Z z).

(** Comparison of two numbers; [None] when one of them is NaN. *)
Definition num_compare (a b : number) : option comparison :=
  match a, b with
  | NaN, _ | _, NaN => None
  | Fin x, Fin y => Some (x ?= y)%Q
  | PInf, PInf | NInf, NInf => Some Eq
  | NInf, _ | _, PInf => Some Lt
  | PInf, _ | _, NInf => Some Gt
  end.

(** [a < b], [a > b], [a <= b], [a >= b], [a === b] on numbers. *)
Definition num_lt (a b : number) : bool :=
  match num_compare a b with Some Lt => true | _ => false end.
Definition num_gt (a b : number) : bool := num_lt b a.
Definition num_le (a b : number) : bool :=
  match num_compare a b with Some Lt | Some Eq => true | _ => false end.
Definition num_ge (a b : number) : bool := num_le b a.
Definition num_eq (a b : number) : bool :=
  match num_compare a b with Some Eq => true | _ => false end.

Definition Number_isNaN_num (a : number) : bool :=
  match a with NaN => true | _ => false end.

Definition Number_isFinite_num (a : number) : bool :=
  match a with Fin _ => true | _ => false end.

Definition Math_floor_num (a : number) : number :=
  match a with
  | Fin q => num (Qfloor q)
  | _ => a
  end.

(** [Math.round]: the closest integer, ties towards plus infinity. *)
Definition Math_round (a : number) : number :=
  match a with
  | Fin q => num (Qfloor (q + (1 # 2)))
  | _ => a
  end.

Definition Math_min (a b : number) : number :=
  match num_compare a b with
  | None => NaN
  | Some Lt => a
  | Some _ => b
  end.

Definition Math_max (a b : number) : number :=
  match num_compare a b with
  | None => NaN
  | Some Gt => a
  | Some _ => b
  end.

(** *** Reading a number from text

    [to_binary64 neg n d] is the binary64 value nearest to the rational
    [n/d] (ties to even), or an infinity when that value overflows. *)
Definition round_half_even (n d : Z) : Z :=
  let q := (n / d)%Z in
  let r := (n mod d)%Z in
  match (2 * r ?= d)%Z with
  | Lt => q
  | Gt => (q + 1)%Z
  | Eq => if Z.even q then q else (q + 1)%Z
  end.

(** The integer part of the binary logarithm of [n/d]. *)
Definition ilog2_ratio (n d : positive) : Z :=
  let k := (Z.log2 (Zpos n) - Z.log2 (Zpos d))%Z in
  let above :=
    if (0 <=? k)%Z then (Zpos d * 2 ^ k <=? Zpos n)%Z
    else (Zpos d <=? Zpos n * 2 ^ (- k))%Z in
  if above then k else (k - 1)%Z.

Definition to_binary64 (neg : bool) (n d : positive) : number :=
  let e := Z.max (ilog2_ratio n d - 52) (-1074) in
  let m :=
    if (0 <=? e)%Z then round_half_even (Zpos n) (Zpos d * 2 ^ e)
    else round_half_even (Zpos n * 2 ^ (- e)) (Zpos d) in
  if ((971 <? e) || (e =? 971) && (2 ^ 53 <=? m))%Z then
    (if neg then NInf else PInf)
  else
    let q :=
      if (0 <=? e)%Z then inject_Z (m * 2 ^ e)
      else Qred (Qmake m (Z.to_pos (2 ^ (- e)))) in
    Fin (if neg then Qopp q else q).

Fixpoint digits_value_from (base : Z) (digit : N -> Z) (ds : jsstring)
                           (acc : Z) : Z :=
  match ds with
  | [] => acc
  | d :: r => digits_value_from base digit r (acc * base + digit d)%Z
  end.

Definition decimal_digit (c : N) : Z := Z.of_N (c - 48).

Definition digits_value (ds : jsstring) : Z :=
  digits_value_from 10 decimal_digit ds 0.

(** The number denoted by the decimal [m * 10^e], where [m] is written with
    [ndigits] digits.  Decimals far outside the binary64 range (above
    [10^310], or below [10^-330]) are settled without computing the power of
    ten. *)
Definition decimal_to_number (neg : bool) (ndigits : Z) (m e : Z) : number :=
  match m with
  | Zpos p =>
      if (310 <? e)%Z then (if neg then NInf else PInf)
      else if (e + ndigits <? -330)%Z then num 0
      else if (0 <=? e)%Z then to_binary64 neg (p * Z.to_pos (10 ^ e)) 1
      else to_binary64 neg p (Z.to_pos (10 ^ (- e)))
  | _ => num 0
  end.

(** [ExponentPart] followed by the end of the text, or the end of the text. *)
Definition parse_exponent (s : jsstring) : option Z :=
  match s with
  | [] => Some 0%Z
  | c :: r =>
      if ((c =? 101) || (c =? 69))%N then
        let '(sgn, r') :=
          match r with
          | x :: r' =>
              if (x =? 43)%N then (1%Z, r')
              else if (x =? 45)%N then ((-1)%Z, r')
              else (1%Z, r)
          | [] => (1%Z, r)
          end in
        let '(ds, rest) := span is_digit r' in
        match ds, rest with
        | _ :: _, [] => Some (sgn * digits_value ds)%Z
        | _, _ => None
        end
      else None
  end.

(** [StrUnsignedDecimalLiteral] other than [Infinity]: digits, an optional
    fraction and an optional exponent. *)
Definition parse_unsigned_decimal (neg : bool) (s : jsstring) : number :=
  let '(ip, r1) := span is_digit s in
  let '(fp, r2) :=
    match r1 with
    | c :: r => if (c =? 46)%N then span is_digit r else ([], r1)
    | [] => ([], r1)
    end in
  match ip ++ fp with
  | [] => NaN
  | ds =>
      match parse_exponent r2 with
      | Some e =>
          decimal_to_number neg (Z.of_nat (List.length ds))
            (digits_value ds) (e - Z.of_nat (List.length fp))
      | None => NaN
      end
  end.

Definition hex_digit (c : N) : option Z :=
  if is_digit c then Some (Z.of_N (c - 48))
  else if ((97 <=? c) && (c <=? 102))%N then Some (Z.of_N (c - 87))
  else if ((65 <=? c) && (c <=? 70))%N then Some (Z.of_N (c - 55))
  else None.

(** [NonDecimalIntegerLiteral] after its two-character prefix. *)
Fixpoint parse_radix (base : Z) (s : jsstring) (acc : Z) : option Z :=
  match s with
  | [] => Some acc
  | c :: r =>
      match hex_digit c with
      | Some d => if (d <? base)%Z then parse_radix base r (acc * base + d)%Z
                  else None
      | None => None
      end
  end.

Definition radix_to_number (base : Z) (s : jsstring) : number :=
  match s with
  | [] => NaN
  | _ =>
      match parse_radix base s 0 with
      | Some (Zpos p) => to_binary64 false p 1
      | Some _ => num 0
      | None => NaN
      end
  end.

(** [StringToNumber]: the value of [Number(s)] for a string [s]. *)
Definition StringToNumber (s : jsstring) : number :=
  match trim s with
  | [] => num 0
  | c :: r =>
      let t := c :: r in
      if startsWith t (utf16 "0x") || startsWith t (utf16 "0X")
      then radix_to_number 16 (skipn 2 t)
      else if startsWith t (utf16 "0o") || startsWith t (utf16 "0O")
      then radix_to_number 8 (skipn 2 t)
      else if startsWith t (utf16 "0b") || startsWith t (utf16 "0B")
      then radix_to_number 2 (skipn 2 t)
      else
        let '(neg, u) :=
          if (c =? 43)%N then (false, r)
          else if (c =? 45)%N then (true, r)
          else (false, t) in
        if str_eqb u (utf16 "Infinity") then (if neg then NInf else PInf)
        else parse_unsigned_decimal neg u
  end.

(** ** Values

    The values a handler meets at run time: what [JSON.parse] and the body
    parser produce, and [undefined] for a property that is absent.  The
    TypeScript annotations of the source are erased at run time, so a request
    field may hold any of these. *)
Inductive value : Type :=
| VUndefined
| VNull
| VBool (b : bool)
| VNum (n : number)
| VStr (s : jsstring)
| VArr (elems : list value)
| VObj (fields : list (jsstring * value)).

(** The own property [k] of an object given by its members in source order:
    [JSON.parse] keeps the last of several members with the same name. *)
Fixpoint own_property (k : jsstring) (fields : list (jsstring * value))
  : option value :=
  match fields with
  | [] => None
  | (k', v) :: r =>
      match own_property k r with
      | Some v' => Some v'
      | None => if str_eqb k k' then Some v else None
      end
  end.

Definition has_own (k : jsstring) (fields : list (jsstring * value)) : bool :=
  match own_property k fields with
  | Some _ => true
  | None => false
  end.

(** [v.k], for a name [k] that no built-in prototype defines (every name the
    handlers read is such a name): a TypeError on [undefined] and [null], the
    own property of an object, [undefined] otherwise. *)
Definition get (v : value) (k : string) : exc value :=
  match v with
  | VUndefined | VNull => Throw
  | VObj fields =>
      match own_property (utf16 k) fields with
      | Some x => Ok x
      | None => Ok VUndefined
      end
  | _ => Ok VUndefined
  end.

(** [v?.k] *)
Definition get_optional (v : value) (k : string) : exc value :=
  match v with
  | VUndefined | VNull => Ok VUndefined
  | _ => get v k
  end.

Definition truthy (v : value) : bool :=
  match v with
  | VUndefined | VNull => false
  | VBool b => b
  | VNum n => negb (Number_isNaN_num n || num_eq n (num 0))
  | VStr s => match s with [] => false | _ => true end
  | VArr _ | VObj _ => true
  end.

(** [a || b] on values *)
Definition or_else (a b : value) : value := if truthy a then a else b.

Inductive jstype : Type :=
| TUndefined | TObject | TBoolean | TNumber | TString.

Definition typeof (v : value) : jstype :=
  match v with
  | VUndefined => TUndefined
  | VNull | VArr _ | VObj _ => TObject
  | VBool _ => TBoolean
  | VNum _ => TNumber
  | VStr _ => TString
  end.

(** [a === b].  The handlers only compare against a string or number
    literal, for which two objects are never equal. *)
Definition strict_eq (a b : value) : bool :=
  match a, b with
  | VUndefined, VUndefined | VNull, VNull => true
  | VBool x, VBool y => Bool.eqb x y
  | VNum x, VNum y => num_eq x y
  | VStr x, VStr y => str_eqb x y
  | _, _ => false
  end.

(** [arr.includes(v)] for an array literal of strings *)
Definition includes_str (arr : list string) (v : value) : bool :=
  existsb (fun a => strict_eq v (VStr (utf16 a))) arr.

(** *** Coercions

    Values that come from JSON hold no functions.  An object with an own
    member [toString] therefore shadows [Object.prototype.toString] with
    something that cannot be called, and converting it to a primitive is a
    TypeError; any other object converts to the string [[object Object]].
    An array converts through [join], which converts each element other than
    [null] and [undefined]. *)
Fixpoint ToString_throws (v : value) : bool :=
  match v with
  | VObj fields => has_own (utf16 "toString") fields
  | VArr elems => existsb ToString_throws elems
  | _ => false
  end.

(** [v.toString()] as a method call: there is none on [null] and
    [undefined]. *)
Definition toString_call_throws (v : value) : bool :=
  match v with
  | VUndefined | VNull => true
  | _ => ToString_throws v
  end.

(** [ToNumber].  For an array this is [StringToNumber] of its [join(",")]:
    zero for the empty array, NaN for two elements or more (the text holds a
    comma), and for a single element the number of that element's text:
    empty for [null] and [undefined], [true], [false] or [[object Object]]
    for a boolean or an object, and the shortest text that reads back as the
    same number for a number. *)
Fixpoint ToNumber (v : value) : exc number :=
  match v with
  | VUndefined => Ok NaN
  | VNull => Ok (num 0)
  | VBool b => Ok (num (if b then 1 else 0))
  | VNum n => Ok n
  | VStr s => Ok (StringToNumber s)
  | VObj fields =>
      if has_own (utf16 "toString") fields then Throw else Ok NaN
  | VArr elems =>
      if existsb ToString_throws elems then Throw
      else match elems with
           | [] => Ok (num 0)
           | [e] =>
               match e with
               | VUndefined | VNull => Ok (num 0)
               | VBool _ | VObj _ => Ok NaN
               | _ => ToNumber e
               end
           | _ => Ok NaN
           end
  end.

Definition Number_isNaN (v : value) : bool :=
  match v with
  | VNum n => Number_isNaN_num n
  | _ => false
  end.

Definition Number_isFinite (v : value) : bool :=
  match v with
  | VNum n => Number_isFinite_num n
  | _ => false
  end.

Definition Math_floor (v : value) : exc number :=
  exc_bind (ToNumber v) (fun n => Ok (Math_floor_num n)).

(** [v < n] and [v > n] against a number literal *)
Definition lt_num (v : value) (n : number) : exc bool :=
  exc_bind (ToNumber v) (fun x => Ok (num_lt x n)).
Definition gt_num (v : value) (n : number) : exc bool :=
  exc_bind (ToNumber v) (fun x => Ok (num_gt x n)).

(** ** [JSON.parse] *)

Definition is_json_ws (c : N) : bool :=
  ((c =? 32) || (c =? 9) || (c =? 10) || (c =? 13))%N.

Definition skip_ws (s : jsstring) : jsstring := dropWhile is_json_ws s.

Definition simple_escape (c : N) : option N :=
  if (c =? 34)%N then Some 34%N
  else if (c =? 92)%N then Some 92%N
  else if (c =? 47)%N then Some 47%N
  else if (c =? 98)%N then Some 8%N
  else if (c =? 102)%N then Some 12%N
  else if (c =? 110)%N then Some 10%N
  else if (c =? 114)%N then Some 13%N
  else if (c =? 116)%N then Some 9%N
  else None.

Definition hex4 (a b c d : N) : option N :=
  match hex_digit a, hex_digit b, hex_digit c, hex_digit d with
  | Some x, Some y, Some z, Some w =>
      Some (Z.to_N (((x * 16 + y) * 16 + z) * 16 + w))
  | _, _, _, _ => None
  end.

(** The characters of a string literal after its opening quote, up to the
    closing quote; [acc] holds what was read, last character first. *)
Fixpoint parse_chars (s acc : jsstring) : option (jsstring * jsstring) :=
  match s with
  | [] => None
  | c :: r =>
      if (c =? 34)%N then Some (rev acc, r)
      else if (c =? 92)%N then
        match r with
        | [] => None
        | e :: r' =>
            if (e =? 117)%N then
              match r' with
              | h1 :: h2 :: h3 :: h4 :: r'' =>
                  match hex4 h1 h2 h3 h4 with
                  | Some u => parse_chars r'' (u :: acc)
                  | None => None
                  end
              | _ => None
              end
            else
              match simple_escape e with
              | Some u => parse_chars r' (u :: acc)
              | None => None
              end
        end
      else if (c <? 32)%N then None
      else parse_chars r (c :: acc)
  end.

(** A JSON number: an optional minus, an integer part without a leading
    zero, an optional fraction and an optional exponent. *)
Definition parse_json_number (s : jsstring) : option (number * jsstring) :=
  let '(neg, s1) :=
    match s with
    | c :: r => if (c =? 45)%N then (true, r) else (false, s)
    | [] => (false, s)
    end in
  let '(ip, r1) := span is_digit s1 in
  let int_ok :=
    match ip with
    | [] => false
    | [_] => true
    | d :: _ => negb (d =? 48)%N
    end in
  let frac :=
    match r1 with
    | c :: r =>
        if (c =? 46)%N then
          let '(fp, r2) := span is_digit r in
          match fp with [] => None | _ => Some (fp, r2) end
        else Some ([], r1)
    | [] => Some ([], r1)
    end in
  match int_ok, frac with
  | true, Some (fp, r2) =>
      let expo :=
        match r2 with
        | c :: r =>
            if ((c =? 101) || (c =? 69))%N then
              let '(sgn, r') :=
                match r with
                | x :: r' =>
                    if (x =? 43)%N then (1%Z, r')
                    else if (x =? 45)%N then ((-1)%Z, r')
                    else (1%Z, r)
                | [] => (1%Z, r)
                end in
              let '(ds, r3) := span is_digit r' in
              match ds with
              | [] => None
              | _ => Some ((sgn * digits_value ds)%Z, r3)
              end
            else Some (0%Z, r2)
        | [] => Some (0%Z, r2)
        end in
      match expo with
      | Some (e, r3) =>
          Some (decimal_to_number neg (Z.of_nat (List.length (ip ++ fp)))
                  (digits_value (ip ++ fp)) (e - Z.of_nat (List.length fp)),
                r3)
      | None => None
      end
  | _, _ => None
  end.

(** A keyword [true], [false] or [null] at the head of the text *)
Definition parse_keyword (s : jsstring) : option (value * jsstring) :=
  if startsWith s (utf16 "true") then Some (VBool true, skipn 4 s)
  else if startsWith s (utf16 "false") then Some (VBool false, skipn 5 s)
  else if startsWith s (utf16 "null") then Some (VNull, skipn 4 s)
  else None.

(** The value at the head of the text and the text after it.  Every call
    reads at least one character before the next call, so a fuel above the
    length of the text is never used up. *)
Fixpoint parse_value (fuel : nat) (s : jsstring) : option (value * jsstring) :=
  match fuel with
  | O => None
  | S fuel' =>
      match skip_ws s with
      | [] => None
      | c :: r =>
          if (c =? 123)%N then
            match skip_ws r with
            | [] => None
            | c' :: r' =>
                if (c' =? 125)%N then Some (VObj [], r')
                else parse_members fuel' r []
            end
          else if (c =? 91)%N then
            match skip_ws r with
            | [] => None
            | c' :: r' =>
                if (c' =? 93)%N then Some (VArr [], r')
                else parse_elements fuel' r []
            end
          else if (c =? 34)%N then
            match parse_chars r [] with
            | Some (str, r') => Some (VStr str, r')
            | None => None
            end
          else if (c =? 45)%N || is_digit c then
            match parse_json_number (c :: r) with
            | Some (n, r') => Some (VNum n, r')
            | None => None
            end
          else parse_keyword (c :: r)
      end
  end

with parse_members (fuel : nat) (s : jsstring) (acc : list (jsstring * value))
  : option (value * jsstring) :=
  match fuel with
  | O => None
  | S fuel' =>
      match skip_ws s with
      | [] => None
      | q :: r =>
          if (q =? 34)%N then
            match parse_chars r [] with
            | None => None
            | Some (k, r1) =>
                match skip_ws r1 with
                | [] => None
                | colon :: r2 =>
                    if (colon =? 58)%N then
                      match parse_value fuel' r2 with
                      | None => None
                      | Some (v, r3) =>
                          match skip_ws r3 with
                          | [] => None
                          | sep :: r4 =>
                              if (sep =? 44)%N
                              then parse_members fuel' r4 (acc ++ [(k, v)])
                              else if (sep =? 125)%N
                              then Some (VObj (acc ++ [(k, v)]), r4)
                              else None
                          end
                      end
                    else None
                end
            end
          else None
      end
  end

with parse_elements (fuel : nat) (s : jsstring) (acc : list value)
  : option (value * jsstring) :=
  match fuel with
  | O => None
  | S fuel' =>
      match parse_value fuel' s with
      | None => None
      | Some (v, r1) =>
          match skip_ws r1 with
          | [] => None
          | sep :: r2 =>
              if (sep =? 44)%N then parse_elements fuel' r2 (acc ++ [v])
              else if (sep =? 93)%N then Some (VArr (acc ++ [v]), r2)
              else None
          end
      end
  end.

(** [JSON.parse(text)]: [None] stands for the SyntaxError it throws. *)
Definition JSON_parse (text : jsstring) : option value :=
  match parse_value (S (List.length text)) text with
  | Some (v, rest) =>
      match skip_ws rest with
      | [] => Some v
      | _ => None
      end
  | None => None
  end.

End JS.

(* ===================================================================== *)
(** * Part II: requests, responses and the world around a handler *)
(* ===================================================================== *)

Module Http.
Import JS.

(** ** The payloads of the two routes *)

(** [type EvaluationResult] *)
Record EvaluationResult : Type := {
  result : jsstring;
  score : number;
  feedbackSummary : jsstring
}.

(** [type ExerciseDefinition] *)
Record ExerciseDefinition : Type := {
  statement : jsstring;
  exerciseType : jsstring
}.

Inductive Payload : Type :=
| ErrorBody (error : jsstring)
| Evaluation (e : EvaluationResult)
| Exercise (d : ExerciseDefinition).

(** What [res.setHeader(..)] and [res.status(..).json(..)] send. *)
Record Response : Type := {
  status : Z;
  headers : list (jsstring * jsstring);
  payload : Payload
}.

Definition respond (code : Z) (p : Payload) : Response :=
  {| status := code; headers := []; payload := p |}.

Definition respond_with (hs : list (jsstring * jsstring)) (code : Z)
                        (p : Payload) : Response :=
  {| status := code; headers := hs; payload := p |}.

(** [req.method] and [req.body]; the body is whatever the body parser of the
    framework produced. *)
Record Request : Type := {
  method : jsstring;
  body : value
}.

(** ** The external services

    A handler awaits each external call once, one after the other, so the
    world is given by the outcome of each call.  The reply of a completion
    service is not determined by the prompt it is sent: it is a component of
    the world, and the prompt text is modelled only where building it can
    throw. *)

(** [fetch(url)]: the promise rejects, or resolves to a response with its
    [ok] flag and the outcome of [arrayBuffer()] ([None] when that rejects). *)
Inductive fetch_outcome : Type :=
| FetchRejected
| FetchResponse (ok : bool) (bytes : option (list N)).

(** The Gemini clients: the call (or [response.text()]) throws, or gives the
    text of the reply. *)
Inductive gemini_reply : Type :=
| GeminiRejected
| GeminiText (text : jsstring).

(** [openai.chat.completions.create]: the call rejects; the reply has no
    first choice or no message in it; or the message has a [content], which
    may be [null] ([None]). *)
Inductive openai_reply : Type :=
| OpenAIRejected
| OpenAINoMessage
| OpenAIContent (content : option jsstring).

(** The query [fetchSubtopicContext] sends to the [subtopics] table. *)
Inductive subtopic_query : Type :=
| ById (subtopicId : value)
| ByName (subtopicName : value)
| Unfiltered.

(** [query.maybeSingle()]: rejects, or resolves to [{ data, error }]. *)
Inductive supabase_reply : Type :=
| SupabaseRejected
| SupabaseResult (data error : value).

(** The world of one request.  [toLowerCase] is
    [String.prototype.toLowerCase]: its Unicode case mapping belongs to the
    run time and is left open. *)
Record World : Type := {
  GEMINI_API_KEY : option jsstring;
  OPENAI_API_KEY : option jsstring;
  fetch : jsstring -> fetch_outcome;
  gemini : gemini_reply;
  openai : openai_reply;
  supabase : subtopic_query -> supabase_reply;
  toLowerCase : jsstring -> jsstring
}.

(** [!process.env.KEY] *)
Definition env_missing (k : option jsstring) : bool :=
  match k with
  | None | Some [] => true
  | Some (_ :: _) => false
  end.

(** ** The handler monad

    A handler run yields the external calls it made, in order, and either the
    response it sent or an exception that left the handler uncaught (which
    the framework turns into a 500). *)
Inductive event : Type :=
| FetchImage (url : jsstring)
| CallCompletion
| QuerySubtopics (q : subtopic_query).

Definition M (A : Type) : Type := (list event * exc A)%type.

Definition ret {A : Type} (a : A) : M A := ([], Ok a).

Definition throw {A : Type} : M A := ([], Throw).

Definition lift {A : Type} (e : exc A) : M A := ([], e).

Definition emit (e : event) : M unit := ([e], Ok tt).

Definition bind {A B : Type} (m : M A) (k : A -> M B) : M B :=
  match m with
  | (t, Ok a) => let (t', r) := k a in (t ++ t', r)
  | (t, Throw) => (t, Throw)
  end.

(** [try { x = m } catch { h }; k x] where [h] leaves the handler *)
Definition try_bind {A B : Type} (m : M A) (k : A -> M B) (h : M B) : M B :=
  match m with
  | (t, Ok a) => let (t', r) := k a in (t ++ t', r)
  | (t, Throw) => let (t', r) := h in (t ++ t', r)
  end.

(** [try { m } catch { h }] *)
Definition try_catch {A : Type} (m : M A) (h : M A) : M A :=
  try_bind m ret h.

(** [if (c) throw ...] *)
Definition throw_if (c : bool) : M unit := if c then throw else ret tt.

Declare Scope handler_scope.
Delimit Scope handler_scope with handler.
Notation "x <- m ;; k" := (bind m (fun x => k))
  (at level 61, m at next level, right associativity) : handler_scope.
Notation "m ;;; k" := (bind m (fun _ => k))
  (at level 61, right associativity) : handler_scope.

(** [const { k = d } = body]: the default applies to [undefined] only. *)
Definition get_default (v : value) (k : string) (d : value) : exc value :=
  exc_bind (get v k)
    (fun x => match x with VUndefined => Ok d | _ => Ok x end).

End Http.

(* ===================================================================== *)
(** * Part III: the helpers the variants share

    Each source document carries its own copy of these functions; the copies
    of one function are identical unless a variant module below says
    otherwise. *)
(* ===================================================================== *)

Module Common.
Import JS Http.
Local Open Scope string_scope.

(** [sanitizeExerciseIndex], evaluateAnswer.ts lines 38-43, 298-303, 496-501,
    723-728 and generateExercise.ts lines 31-36, 290-295.  The call sites
    pass [body.exerciseIndex], which holds any value at run time. *)
Definition sanitizeExerciseIndex (index : value) : exc number :=
  if negb (truthy index) || Number_isNaN index then Ok (num 1)
  else
    exc_bind (lt_num index (num 1)) (fun below =>
    if below then Ok (num 1)
    else
      exc_bind (gt_num index (num 3)) (fun above =>
      if above then Ok (num 3)
      else Math_floor index)).

(** [ALLOWED_RESULTS], evaluateAnswer.ts lines 12, 272, 470 *)
Definition ALLOWED_RESULTS : list string := ["correct"; "partial"; "incorrect"].

(** [getFallbackEvaluation], evaluateAnswer.ts lines 14-36, 274-296, 472-494.
    The parameter defaults to 1 when it is not given. *)
Definition getFallbackEvaluation (exerciseIndex : option number)
  : EvaluationResult :=
  let exerciseIndex :=
    match exerciseIndex with Some i => i | None => num 1 end in
  if num_eq exerciseIndex (num 1) then
    {| result := utf16 "correct";
       score := num 100;
       feedbackSummary := utf16 "Bom trabalho! Acertaste este exercício." |}
  else if num_eq exerciseIndex (num 2) then
    {| result := utf16 "partial";
       score := num 60;
       feedbackSummary :=
         utf16 "Quase lá. Vale a pena rever alguns passos deste tipo de exercício." |}
  else
    {| result := utf16 "incorrect";
       score := num 20;
       feedbackSummary :=
         utf16 "A tua resolução ainda precisa de reforço neste tipo de exercício." |}.

(** The four literals of [type ExerciseType] ([allowedTypes] in the
    handlers). *)
Definition allowedTypes : list string :=
  ["basic_procedural"; "mixed_rules"; "applied_word_problem"; "exam_multi_step"].

Definition LF : string := String (ascii_of_nat 10) EmptyString.

(** [localFallback], evaluateAnswer.ts lines 758-780 and generateExercise.ts
    lines 38-60, 297-319 *)
Definition localFallback (exerciseIndex : number) : ExerciseDefinition :=
  if num_eq exerciseIndex (num 1) then
    {| statement :=
         utf16 ("Considera a função f(x) = 2x³ - 5x² + 3x - 1." ++ LF
                ++ "Calcula f'(x).");
       exerciseType := utf16 "basic_procedural" |}
  else if num_eq exerciseIndex (num 2) then
    {| statement :=
         utf16 ("Seja g(x) = (3x² + 1)·e^{2x}." ++ LF
                ++ "Calcula g'(x) usando as regras do produto e, se necessário, da cadeia.");
       exerciseType := utf16 "mixed_rules" |}
  else
    {| statement :=
         utf16 ("Numa prova de Matemática, a função h(x) = (4x - 3)·ln(x) modela uma certa grandeza."
                ++ LF ++ "Calcula h'(x).");
       exerciseType := utf16 "applied_word_problem" |}.

(** [!v || typeof v !== "string" || !v.trim()]: the text of a usable string
    field, [None] when the test rejects it. *)
Definition required_text (v : value) : option jsstring :=
  if negb (truthy v) then None
  else match v with
       | VStr s => match trim s with [] => None | _ => Some s end
       | _ => None
       end.

(** [typeof v === "string" && v.trim().length > 0] *)
Definition nonblank_string (v : value) : option jsstring :=
  match v with
  | VStr s => if (0 <? Z.of_nat (List.length (trim s)))%Z then Some s else None
  | _ => None
  end.

End Common.

(* ===================================================================== *)
(** * Part IV: the three variants of [evaluateAnswer] *)
(* ===================================================================== *)

(** ** What the three variants have in common *)

Module EvaluateAnswer.
Import JS Http Common.
Local Open Scope string_scope.
Local Open Scope handler_scope.

(** [res.status(200).json(getFallbackEvaluation(exerciseIndex))] *)
Definition fallback (exerciseIndex : number) : Response :=
  respond 200 (Evaluation (getFallbackEvaluation (Some exerciseIndex))).

(** The fields of a request that passed the checks at the head of the
    handler. *)
Record checked : Type := {
  exerciseIndex : number;
  c_statement : jsstring;
  imageUrl : jsstring;
  subtopicName : value;
  difficulty : value;
  userAnswer : value
}.

(** The head of the handler, up to [trimmedAnswer] (evaluateAnswer.ts lines
    49-86, 309-346, 507-544): the response sent on an early return, or the
    checked fields.  [key] is the credential the variant reads from
    [process.env].  The [try] around [body = req.body] guards a plain
    property read and never catches. *)
Definition read_request (key : option jsstring) (req : Request)
  : M (Response + checked) :=
  if negb (str_eqb (method req) (utf16 "POST")) then
    ret (inl (respond 405 (ErrorBody (utf16 "Method not allowed"))))
  else
    let body := body req in
    statement <- lift (get body "statement") ;;
    userAnswer <- lift (get_default body "userAnswer" (VStr [])) ;;
    imageUrl <- lift (get body "imageUrl") ;;
    subtopicName <-
      lift (get_default body "subtopicName" (VStr (utf16 "Derivadas"))) ;;
    difficulty <- lift (get_default body "difficulty" (VStr (utf16 "medium"))) ;;
    index <- lift (get body "exerciseIndex") ;;
    exerciseIndex <- lift (sanitizeExerciseIndex index) ;;
    match required_text statement with
    | None => ret (inl (fallback exerciseIndex))
    | Some statement =>
        match required_text imageUrl with
        | None => ret (inl (fallback exerciseIndex))
        | Some imageUrl =>
            if env_missing key then ret (inl (fallback exerciseIndex))
            else
              (* const trimmedAnswer = userAnswer.toString().trim() *)
              throw_if (toString_call_throws userAnswer) ;;;
              ret (inr {| exerciseIndex := exerciseIndex;
                          c_statement := statement;
                          imageUrl := imageUrl;
                          subtopicName := subtopicName;
                          difficulty := difficulty;
                          userAnswer := userAnswer |})
        end
    end.

(** The body of the [try] that downloads the image (lines 92-105, 350-358,
    550-564): the bytes of the image, or an exception.  The content type of
    the response only selects the MIME type sent along with the image. *)
Definition download (w : World) (url : jsstring) : M (list N) :=
  emit (FetchImage url) ;;;
  match fetch w url with
  | FetchRejected => throw
  | FetchResponse ok bytes =>
      if negb ok then throw
      else match bytes with
           | None => throw
           | Some b => ret b
           end
  end.

(** The template literal [userPrompt] converts [subtopicName] and
    [difficulty] to strings; the other parts are a number and strings. *)
Definition build_prompts (c : checked) : M unit :=
  throw_if (ToString_throws (subtopicName c)) ;;;
  throw_if (ToString_throws (difficulty c)).

(** The validation both Gemini variants apply to the parsed reply
    (lines 229-251 and 667-690). *)
Definition validate_rounding (exerciseIndex : number) (parsed : value)
  : exc Response :=
  exc_bind (get parsed "result") (fun resultLabel =>
  exc_bind (get parsed "score") (fun rawScore =>
  exc_bind (ToNumber rawScore) (fun scoreRaw =>
  exc_bind (get parsed "feedbackSummary") (fun feedback =>
  if includes_str ALLOWED_RESULTS resultLabel
     && Number_isFinite_num scoreRaw
  then
    match resultLabel, nonblank_string feedback with
    | VStr label, Some text =>
        let score := Math_max (num 0) (Math_min (num 100) (Math_round scoreRaw)) in
        Ok (respond 200 (Evaluation {| result := label;
                                       score := score;
                                       feedbackSummary := trim text |}))
    | _, _ => Ok (fallback exerciseIndex)
    end
  else Ok (fallback exerciseIndex))))).

End EvaluateAnswer.

(** ** The variant on [@google/generative-ai] (evaluateAnswer.ts, lines 1-256) *)

Module EvaluateGemini.
Import JS Http Common EvaluateAnswer.
Local Open Scope string_scope.
Local Open Scope handler_scope.

(** [jsonText.replace(/^```[a-zA-Z]*\s*/, "")] *)
Definition replace_opening_fence (s : jsstring) : jsstring :=
  if startsWith s (utf16 "```")
  then dropWhile is_ws (dropWhile is_ascii_letter (skipn 3 s))
  else s.

(** [jsonText.replace(/```$/, "")] *)
Definition replace_closing_fence (s : jsstring) : jsstring :=
  if endsWith s (utf16 "```")
  then firstn (List.length s - 3) s
  else s.

(** Lines 199-215: the text handed to [JSON.parse]. *)
Definition clean (text : jsstring) : jsstring :=
  let jsonText := trim text in
  let jsonText :=
    if startsWith jsonText (utf16 "```")
    then trim (replace_closing_fence (replace_opening_fence jsonText))
    else jsonText in
  let firstBrace := indexOf jsonText (utf16 "{") in
  let lastBrace := lastIndexOf jsonText (utf16 "}") in
  if negb (firstBrace =? -1)%Z && negb (lastBrace =? -1)%Z
     && (firstBrace <? lastBrace)%Z
  then slice jsonText firstBrace (lastBrace + 1)
  else jsonText.

(** Lines 193-251: from the text of the reply to the response; an exception
    here is caught by the [catch] of line 252. *)
Definition read_reply (exerciseIndex : number) (text : jsstring)
  : exc Response :=
  match text with
  | [] => Ok (fallback exerciseIndex)
  | _ =>
      match JSON_parse (clean text) with
      | None => Ok (fallback exerciseIndex)
      | Some parsed => validate_rounding exerciseIndex parsed
      end
  end.

Definition handler (w : World) (req : Request) : M Response :=
  r <- read_request (GEMINI_API_KEY w) req ;;
  match r with
  | inl response => ret response
  | inr c =>
      try_bind (download w (imageUrl c))
        (fun bytes =>
           (* if (!base64Image): the base64 text of no bytes is empty *)
           match bytes with
           | [] => ret (fallback (exerciseIndex c))
           | _ =>
               build_prompts c ;;;
               try_catch
                 (emit CallCompletion ;;;
                  match gemini w with
                  | GeminiRejected => throw
                  | GeminiText text => lift (read_reply (exerciseIndex c) text)
                  end)
                 (ret (fallback (exerciseIndex c)))
           end)
        (ret (fallback (exerciseIndex c)))
  end.

End EvaluateGemini.

(** ** The variant on [openai] (evaluateAnswer.ts, lines 257-458) *)

Module EvaluateOpenAI.
Import JS Http Common EvaluateAnswer.
Local Open Scope string_scope.
Local Open Scope handler_scope.

(** Lines 434-453: the validation of the parsed reply. *)
Definition validate_strict (exerciseIndex : number) (parsed : value)
  : exc Response :=
  exc_bind (get parsed "result") (fun resultLabel =>
  exc_bind (get parsed "score") (fun rawScore =>
  exc_bind (get parsed "feedbackSummary") (fun feedback =>
  match resultLabel, rawScore, feedback with
  | VStr label, VNum n, VStr text =>
      if includes_str ALLOWED_RESULTS resultLabel
         && Number_isFinite rawScore
         && num_ge n (num 0)
         && num_le n (num 100)
         && (0 <? Z.of_nat (List.length text))%Z
      then Ok (respond 200 (Evaluation {| result := label;
                                          score := n;
                                          feedbackSummary := text |}))
      else Ok (fallback exerciseIndex)
  | _, _, _ => Ok (fallback exerciseIndex)
  end))).

(** Lines 420-453 *)
Definition read_reply (exerciseIndex : number) (content : option jsstring)
  : exc Response :=
  match content with
  | None | Some [] => Ok (fallback exerciseIndex)
  | Some text =>
      match JSON_parse text with
      | None => Ok (fallback exerciseIndex)
      | Some parsed => validate_strict exerciseIndex parsed
      end
  end.

Definition handler (w : World) (req : Request) : M Response :=
  r <- read_request (OPENAI_API_KEY w) req ;;
  match r with
  | inl response => ret response
  | inr c =>
      try_bind (download w (imageUrl c))
        (fun bytes =>
           build_prompts c ;;;
           try_catch
             (emit CallCompletion ;;;
              match openai w with
              | OpenAIRejected => throw
              | OpenAINoMessage => lift (read_reply (exerciseIndex c) None)
              | OpenAIContent content =>
                  lift (read_reply (exerciseIndex c) content)
              end)
             (ret (fallback (exerciseIndex c))))
        (ret (fallback (exerciseIndex c)))
  end.

End EvaluateOpenAI.

(** ** The variant on [@google/genai] (evaluateAnswer.ts, lines 459-695) *)

Module EvaluateGenAI.
Import JS Http Common EvaluateAnswer.
Local Open Scope string_scope.
Local Open Scope handler_scope.

(** [response.text()], line 650.  A response of [@google/genai] exposes its
    text as an accessor property, [text], whose value is a string or
    [undefined]; it has no method of that name (the response of
    [@google/generative-ai], the library of the first variant, has one).
    Calling the value of the property is a TypeError, whatever the reply
    holds. *)
Definition response_text (reply : jsstring) : M jsstring := throw.

(** Lines 651-690: the text is parsed as it is. *)
Definition read_reply (exerciseIndex : number) (text : jsstring)
  : exc Response :=
  match text with
  | [] => Ok (fallback exerciseIndex)
  | _ =>
      match JSON_parse text with
      | None => Ok (fallback exerciseIndex)
      | Some parsed => validate_rounding exerciseIndex parsed
      end
  end.

Definition handler (w : World) (req : Request) : M Response :=
  r <- read_request (GEMINI_API_KEY w) req ;;
  match r with
  | inl response => ret response
  | inr c =>
      try_bind (download w (imageUrl c))
        (fun bytes =>
           build_prompts c ;;;
           try_catch
             (emit CallCompletion ;;;
              match gemini w with
              | GeminiRejected => throw
              | GeminiText reply =>
                  text <- response_text reply ;;
                  lift (read_reply (exerciseIndex c) text)
              end)
             (ret (fallback (exerciseIndex c))))
        (ret (fallback (exerciseIndex c)))
  end.

End EvaluateGenAI.

(** ** The MIME type sent with the image (evaluateAnswer.ts, lines 90-102
       and 548-561)

    Both Gemini variants pass the image as [inlineData] with a MIME type
    read from the response to [fetch].  The type goes to the completion
    service only; no response of the handler depends on it. *)

Module EvaluateImage.
Import JS.
Local Open Scope string_scope.

(** [s.split(sep)[0]] for a separator of one code unit: the text before its
    first occurrence, the whole text when there is none *)
Definition first_segment (sep : N) (s : jsstring) : jsstring :=
  fst (span (fun c => negb (c =? sep)%N) s).

(** [mimeType] after lines 98-102: [contentType] is what
    [imgResp.headers.get("content-type")] returned, [None] for [null];
    59 is the semicolon. *)
Definition mimeType (contentType : option jsstring) : jsstring :=
  let contentTypeHeader :=
    match contentType with
    | Some (c :: r) => c :: r
    | Some [] | None => utf16 "image/jpeg"
    end in
  if startsWith contentTypeHeader (utf16 "image/")
  then first_segment 59 contentTypeHeader
  else utf16 "image/jpeg".

End EvaluateImage.

(* ===================================================================== *)
(** * Part V: the four variants of [generateExercise] *)
(* ===================================================================== *)

Module GenerateExercise.
Import JS Http Common.
Local Open Scope string_scope.
Local Open Scope handler_scope.

(** The response to a method other than POST, the same in the four
    variants. *)
Definition method_not_allowed : Response :=
  respond_with [(utf16 "Allow", utf16 "POST")] 405
    (ErrorBody (utf16 "Method Not Allowed")).

Definition is_post (req : Request) : bool :=
  str_eqb (method req) (utf16 "POST").

(** [res.status(200).json(d)] *)
Definition exercise (d : ExerciseDefinition) : Response :=
  respond 200 (Exercise d).

(** [subtopicName?.trim() || fallbackName]: calling [trim] on anything but a
    string is a TypeError. *)
Definition trimmed_or (subtopicName : value) (fallbackName : string)
  : exc jsstring :=
  match subtopicName with
  | VUndefined | VNull => Ok (utf16 fallbackName)
  | VStr s => match trim s with
              | [] => Ok (utf16 fallbackName)
              | t => Ok t
              end
  | _ => Throw
  end.

(** [completion.choices[0]?.message?.content || "{}"] *)
Definition raw_content (reply : openai_reply) : M jsstring :=
  match reply with
  | OpenAIRejected => throw
  | OpenAINoMessage | OpenAIContent None | OpenAIContent (Some []) =>
      ret (utf16 "{}")
  | OpenAIContent (Some text) => ret text
  end.

(** [typeof parsed.statement === "string" && parsed.statement.trim().length > 0
     ? parsed.statement.trim() : fallback.statement] *)
Definition repaired_statement (parsed : value) (fallback : ExerciseDefinition)
  : exc jsstring :=
  exc_bind (get parsed "statement") (fun s =>
  match nonblank_string s with
  | Some text => Ok (trim text)
  | None => Ok (statement fallback)
  end).

End GenerateExercise.

(** ** The variant with the subtopic store (generateExercise.ts, lines 1-262) *)

Module GenerateContext.
Import JS Http Common GenerateExercise.
Local Open Scope string_scope.
Local Open Scope handler_scope.

(** [pickExerciseType], lines 62-89 *)
Definition pickExerciseType (w : World) (subtopicName difficulty : value)
                            (exerciseIndex : number) : exc jsstring :=
  match or_else subtopicName (VStr []) with
  | VStr name =>
      let sub := toLowerCase w name in
      if includes sub (utf16 "resolução de problemas")
         || includes sub (utf16 "modelação")
      then Ok (if num_eq exerciseIndex (num 3)
               then utf16 "exam_multi_step"
               else utf16 "applied_word_problem")
      else if strict_eq difficulty (VStr (utf16 "easy"))
      then Ok (utf16 "basic_procedural")
      else if strict_eq difficulty (VStr (utf16 "hard"))
      then Ok (if num_eq exerciseIndex (num 3)
               then utf16 "exam_multi_step"
               else utf16 "mixed_rules")
      else if num_eq exerciseIndex (num 1) then Ok (utf16 "basic_procedural")
      else if num_eq exerciseIndex (num 2) then Ok (utf16 "mixed_rules")
      else Ok (utf16 "applied_word_problem")
  | _ => Throw
  end.

(** The record [fetchSubtopicContext] returns when the store has a row. *)
Record context : Type := {
  subtopicName : value;
  aiNotes : value;
  topicName : value;
  topicYear : value;
  topicCode : value
}.

(** [fetchSubtopicContext], lines 93-134 *)
Definition fetchSubtopicContext (w : World) (body : value)
  : M (option context) :=
  subtopicId <- lift (get body "subtopicId") ;;
  subtopicName <- lift (get body "subtopicName") ;;
  let query :=
    if truthy subtopicId then ById subtopicId
    else if truthy subtopicName then ByName subtopicName
    else Unfiltered in
  emit (QuerySubtopics query) ;;;
  match supabase w query with
  | SupabaseRejected => throw
  | SupabaseResult data error =>
      if truthy error then ret None
      else if negb (truthy data) then ret None
      else
        name <- lift (get data "name") ;;
        notes <- lift (get data "ai_notes") ;;
        topic <- lift (get data "topic") ;;
        tname <- lift (get_optional topic "name") ;;
        tyear <- lift (get_optional topic "year") ;;
        tcode <- lift (get_optional topic "official_code") ;;
        ret (Some {| subtopicName := name;
                     aiNotes := or_else notes (VStr []);
                     topicName := or_else tname VNull;
                     topicYear := or_else tyear VNull;
                     topicCode := or_else tcode VNull |})
  end.

(** [ctx?.field] *)
Definition ctx_field (ctx : option context) (field : context -> value) : value :=
  match ctx with
  | Some c => field c
  | None => VUndefined
  end.

(** Lines 225-256: from the reply to the response. *)
Definition read_reply (fallback : ExerciseDefinition) (hint raw : jsstring)
  : exc Response :=
  match JSON_parse raw with
  | None => Ok (exercise fallback)
  | Some parsed =>
      exc_bind (repaired_statement parsed fallback) (fun statement =>
      exc_bind (get parsed "exerciseType") (fun parsedType =>
      let finalExerciseType :=
        match parsedType with
        | VStr t => if includes_str allowedTypes parsedType then t else hint
        | _ => hint
        end in
      Ok (exercise {| statement := statement;
                      exerciseType := finalExerciseType |})))
  end.

(** Lines 148-213 of the [try]: everything before the completion call.
    It yields the sanitized index and the type hint. *)
Definition prepare (w : World) (body : value) : M (number * jsstring) :=
  index <- lift (get body "exerciseIndex") ;;
  safeIndex <- lift (sanitizeExerciseIndex index) ;;
  d <- lift (get body "difficulty") ;;
  let difficulty := or_else d (VStr (utf16 "medium")) in
  ctx <- fetchSubtopicContext w body ;;
  bodyName <- lift (get body "subtopicName") ;;
  let subtopicLabel :=
    or_else (or_else (ctx_field ctx subtopicName) bodyName)
            (VStr (utf16 "Subtema de derivadas")) in
  let aiNotes := or_else (ctx_field ctx aiNotes) (VStr []) in
  let topicLabel :=
    or_else (ctx_field ctx topicName) (VStr (utf16 "Matemática A")) in
  (* yearLabel interpolates ctx.topicYear when it is truthy *)
  throw_if (truthy (ctx_field ctx topicYear)
            && ToString_throws (ctx_field ctx topicYear)) ;;;
  let officialCode :=
    or_else (ctx_field ctx topicCode) (VStr (utf16 "FRVR")) in
  exerciseType <- lift (pickExerciseType w subtopicLabel difficulty safeIndex) ;;
  (* systemPrompt interpolates officialCode, yearLabel, topicLabel,
     subtopicLabel and aiNotes *)
  throw_if (ToString_throws officialCode) ;;;
  throw_if (ToString_throws topicLabel) ;;;
  throw_if (ToString_throws subtopicLabel) ;;;
  throw_if (ToString_throws aiNotes) ;;;
  ret (safeIndex, exerciseType).

(** The body of the [try], lines 148-256 *)
Definition attempt (w : World) (req : Request) : M Response :=
  p <- prepare w (body req) ;;
  emit CallCompletion ;;;
  raw <- raw_content (openai w) ;;
  lift (read_reply (localFallback (fst p)) (snd p) raw).

Definition handler (w : World) (req : Request) : M Response :=
  if negb (is_post req) then ret method_not_allowed
  else try_catch (attempt w req) (ret (exercise (localFallback (num 1)))).

End GenerateContext.

(** ** The variant with [chooseExerciseTypeHint] (generateExercise.ts,
       lines 263-481) *)

Module GenerateHint.
Import JS Http Common GenerateExercise.
Local Open Scope string_scope.
Local Open Scope handler_scope.

(** [chooseExerciseTypeHint], lines 322-340 *)
Definition chooseExerciseTypeHint (exerciseIndex : number) (difficulty : value)
  : jsstring :=
  if num_eq exerciseIndex (num 1) then utf16 "basic_procedural"
  else if num_eq exerciseIndex (num 2) then utf16 "mixed_rules"
  else if strict_eq difficulty (VStr (utf16 "hard")) then utf16 "exam_multi_step"
  else utf16 "applied_word_problem".

(** Lines 446-476 *)
Definition read_reply (fallback : ExerciseDefinition) (typeHint raw : jsstring)
  : exc Response :=
  match JSON_parse raw with
  | None => Ok (exercise fallback)
  | Some parsed =>
      exc_bind (repaired_statement parsed fallback) (fun statement =>
      exc_bind (get parsed "exerciseType") (fun parsedType =>
      let finalType :=
        match parsedType with
        | VStr t =>
            if truthy parsedType && includes_str allowedTypes parsedType
            then t else typeHint
        | _ => typeHint
        end in
      Ok (exercise {| statement := statement; exerciseType := finalType |})))
  end.

(** Lines 354-434 of the [try]: everything before the completion call.
    It yields the sanitized index and the type hint. *)
Definition prepare (body : value) : M (number * jsstring) :=
  subtopicName <- lift (get body "subtopicName") ;;
  difficulty <- lift (get body "difficulty") ;;
  exerciseIndex <- lift (get body "exerciseIndex") ;;
  safeIndex <- lift (sanitizeExerciseIndex exerciseIndex) ;;
  let diff :=
    if strict_eq difficulty (VStr (utf16 "easy"))
       || strict_eq difficulty (VStr (utf16 "hard"))
    then difficulty else VStr (utf16 "medium") in
  sub <- lift (trimmed_or subtopicName "Derivadas") ;;
  ret (safeIndex, chooseExerciseTypeHint safeIndex diff).

(** The body of the [try], lines 354-476 *)
Definition attempt (w : World) (req : Request) : M Response :=
  p <- prepare (body req) ;;
  emit CallCompletion ;;;
  raw <- raw_content (openai w) ;;
  lift (read_reply (localFallback (fst p)) (snd p) raw).

Definition handler (w : World) (req : Request) : M Response :=
  if negb (is_post req) then ret method_not_allowed
  else try_catch (attempt w req) (ret (exercise (localFallback (num 1)))).

End GenerateHint.

(** ** The variant with the plain [pickExerciseType] (evaluateAnswer.ts,
       lines 696-894) *)

Module GeneratePick.
Import JS Http Common GenerateExercise.
Local Open Scope string_scope.
Local Open Scope handler_scope.

(** [pickExerciseType], lines 730-755; the handler passes the trimmed
    subtopic name, a string. *)
Definition pickExerciseType (w : World) (subtopicName : jsstring)
                            (difficulty : value) (exerciseIndex : number)
  : jsstring :=
  let sub := toLowerCase w subtopicName in
  if includes sub (utf16 "problema") || includes sub (utf16 "aplicado")
  then utf16 "applied_word_problem"
  else if strict_eq difficulty (VStr (utf16 "easy"))
  then utf16 "basic_procedural"
  else if strict_eq difficulty (VStr (utf16 "hard"))
  then (if num_eq exerciseIndex (num 3)
        then utf16 "exam_multi_step"
        else utf16 "mixed_rules")
  else if num_eq exerciseIndex (num 1) then utf16 "basic_procedural"
  else utf16 "mixed_rules".

(** Lines 794-845 of the [try]: everything before the completion call.
    It yields the sanitized index and the type hint. *)
Definition prepare (w : World) (body : value) : M (number * jsstring) :=
  subtopicName <- lift (get body "subtopicName") ;;
  difficulty <- lift (get body "difficulty") ;;
  exerciseIndex <- lift (get body "exerciseIndex") ;;
  safeIndex <- lift (sanitizeExerciseIndex exerciseIndex) ;;
  let diff := or_else difficulty (VStr (utf16 "medium")) in
  sub <- lift (trimmed_or subtopicName "Derivadas") ;;
  ret (safeIndex, pickExerciseType w sub diff safeIndex).

(** The body of the [try], lines 794-888; lines 857-888 are lines 225-256
    of generateExercise.ts. *)
Definition attempt (w : World) (req : Request) : M Response :=
  p <- prepare w (body req) ;;
  emit CallCompletion ;;;
  raw <- raw_content (openai w) ;;
  lift (GenerateContext.read_reply (localFallback (fst p)) (snd p) raw).

Definition handler (w : World) (req : Request) : M Response :=
  if negb (is_post req) then ret method_not_allowed
  else try_catch (attempt w req) (ret (exercise (localFallback (num 1)))).

End GeneratePick.

(** ** The variant that validates the index (evaluateAnswer.ts,
       lines 895-1016) *)

Module GenerateStrict.
Import JS Http Common GenerateExercise.
Local Open Scope string_scope.
Local Open Scope handler_scope.

(** [localFallback], lines 920-944: the texts of this variant *)
Definition localFallback (exerciseIndex : number) : ExerciseDefinition :=
  if num_eq exerciseIndex (num 1) then
    {| statement :=
         utf16 ("1) Considere a função f(x) = 3x² - 5x + 2." ++ LF
                ++ "Calcula f'(x).");
       exerciseType := utf16 "basic_procedural" |}
  else if num_eq exerciseIndex (num 2) then
    {| statement :=
         utf16 ("2) Considere g(x) = (2x + 1) · e^{x²}." ++ LF
                ++ "Usa regras do produto e da cadeia para calcular g'(x).");
       exerciseType := utf16 "mixed_rules" |}
  else
    {| statement :=
         utf16 ("3) Num exercício de exame, a função h modela o lucro diário:"
                ++ LF
                ++ "h(x) = (4x - 3) · e^{0.5x}, onde x é o número de unidades produzidas."
                ++ LF
                ++ "Determina h'(x) e interpreta o seu significado.");
       exerciseType := utf16 "applied_word_problem" |}.

(** The test of lines 959-963:
    [typeof exerciseIndex !== "number" || exerciseIndex < 1 || exerciseIndex > 3] *)
Definition index_rejected (exerciseIndex : value) : bool :=
  match exerciseIndex with
  | VNum n => num_lt n (num 1) || num_gt n (num 3)
  | _ => true
  end.

(** [completion.choices[0].message.content || "{}"]: a TypeError when there
    is no first choice or no message. *)
Definition raw_content_unguarded (reply : openai_reply) : M jsstring :=
  match reply with
  | OpenAIRejected | OpenAINoMessage => throw
  | OpenAIContent None | OpenAIContent (Some []) => ret (utf16 "{}")
  | OpenAIContent (Some text) => ret text
  end.

(** Lines 989-1010; [JSON.parse] is not guarded here, its SyntaxError goes
    to the [catch] of the handler. *)
Definition read_reply (exerciseIndex : number) (raw : jsstring) : exc Response :=
  match JSON_parse raw with
  | None => Throw
  | Some parsed =>
      let fallback := localFallback exerciseIndex in
      exc_bind (get parsed "statement") (fun s =>
      let statement :=
        match nonblank_string s with
        | Some text => text
        | None => statement fallback
        end in
      exc_bind (get parsed "exerciseType") (fun parsedType =>
      let exerciseType :=
        match parsedType with
        | VStr t =>
            if truthy parsedType && includes_str allowedTypes parsedType
            then t else exerciseType fallback
        | _ => exerciseType fallback
        end in
      Ok (exercise {| statement := statement; exerciseType := exerciseType |})))
  end.

Definition bad_request : Response :=
  respond 400 (ErrorBody (utf16 "exerciseIndex must be 1, 2 or 3")).

(** Lines 956-977 of the [try]: everything before the completion call: the
    response of an early return, or the index that passed the test. *)
Definition prepare (body : value) : M (Response + number) :=
  subtopicName <- lift (get body "subtopicName") ;;
  difficulty <- lift (get body "difficulty") ;;
  exerciseIndex <- lift (get body "exerciseIndex") ;;
  if index_rejected exerciseIndex then ret (inl bad_request)
  else
    match exerciseIndex with
    | VNum n =>
        (* systemPrompt interpolates subtopicName and difficulty *)
        throw_if (ToString_throws subtopicName) ;;;
        throw_if (ToString_throws difficulty) ;;;
        ret (inr n)
    | _ => ret (inl bad_request)
    end.

(** The body of the [try], lines 956-1010 *)
Definition attempt (w : World) (req : Request) : M Response :=
  p <- prepare (body req) ;;
  match p with
  | inl response => ret response
  | inr exerciseIndex =>
      emit CallCompletion ;;;
      raw <- raw_content_unguarded (openai w) ;;
      lift (read_reply exerciseIndex raw)
  end.

Definition handler (w : World) (req : Request) : M Response :=
  if negb (is_post req) then ret method_not_allowed
  else try_catch (attempt w req) (ret (exercise (localFallback (num 1)))).

End GenerateStrict.

(* ===================================================================== *)
(** * Part VI: the vocabulary of the statements *)
(* ===================================================================== *)

Import JS Http Common GenerateExercise EvaluateAnswer.
Local Open Scope list_scope.

(** ** Sample requests and worlds *)

Module Sample.

(** [toLowerCase] on a text of Basic Latin and Latin-1 characters *)
Definition lower_latin1 (s : jsstring) : jsstring :=
  map (fun c =>
         if ((65 <=? c) && (c <=? 90)
             || (192 <=? c) && (c <=? 222) && negb (c =? 215))%N
         then (c + 32)%N else c) s.

(** A world in which both credentials are set, every image is fetched (two
    bytes), the subtopic store has no row, and the completion services
    reply as given. *)
Definition world (g : gemini_reply) (o : openai_reply) : World :=
  {| GEMINI_API_KEY := Some (utf16 "key");
     OPENAI_API_KEY := Some (utf16 "key");
     fetch := fun _ => FetchResponse true (Some [255%N; 216%N]);
     gemini := g;
     openai := o;
     supabase := fun _ => SupabaseResult VNull VNull;
     toLowerCase := lower_latin1 |}.

(** A POST request whose body is the given JSON text *)
Definition post (text : string) : Request :=
  {| method := utf16 "POST";
     body := match JSON_parse (json_text text) with
             | Some v => v
             | None => VUndefined
             end |}.

End Sample.

(** ** Well-formed payloads *)

(** One of the four literals of [ExerciseType] *)
Definition allowed_type (t : jsstring) : Prop := In t (map utf16 allowedTypes).

(** One of the three literals of [PracticeResult] *)
Definition allowed_result (t : jsstring) : Prop := In t (map utf16 ALLOWED_RESULTS).

(** Status 200 with an exercise: a statement that is not empty and a type
    among the four. *)
Definition well_formed_exercise (r : Response) : Prop :=
  status r = 200%Z
  /\ exists d, payload r = Exercise d
               /\ statement d <> [] /\ allowed_type (exerciseType d).

Definition generate_response (r : Response) : Prop :=
  r = method_not_allowed \/ well_formed_exercise r.

(** Status 200 with an evaluation: a result among the three, a finite score
    inside [0,100] and a feedback that is not empty. *)
Definition well_formed_evaluation (r : Response) : Prop :=
  status r = 200%Z
  /\ exists e, payload r = Evaluation e
               /\ allowed_result (result e)
               /\ (exists q, score e = Fin q /\ (0 <= q)%Q /\ (q <= 100)%Q)
               /\ feedbackSummary e <> [].

Definition evaluate_response (r : Response) : Prop :=
  r = respond 405 (ErrorBody (utf16 "Method not allowed"))
  \/ well_formed_evaluation r.

(** ** Runs of evaluateAnswer *)

(** A field that is missing, not a string, or blank *)
Definition unusable (v : value) : Prop :=
  match v with
  | VStr s => trim s = []
  | _ => True
  end.

(** The request passed the checks at the head of the handler, the image was
    downloaded and the prompts were built. *)
Definition ready (key : option jsstring) (w : World) (req : Request)
                 (c : checked) (bytes : list N) : Prop :=
  read_request key req = ([], Ok (inr c))
  /\ download w (imageUrl c) = ([FetchImage (imageUrl c)], Ok bytes)
  /\ build_prompts c = ([], Ok tt).

(** The external calls of a run that reaches the completion service *)
Definition calls (c : checked) : list event :=
  [FetchImage (imageUrl c); CallCompletion].

(** What the [try] around the completion call sends: the response of its
    body, or the fallback when the body throws. *)
Definition or_fallback (c : checked) (r : exc Response) : Response :=
  match r with
  | Ok response => response
  | Throw => fallback (exerciseIndex c)
  end.

(** The integer nearest to [q], ties upwards, brought into [0,100] *)
Definition clamp_score (q : Q) : Z := Z.max 0 (Z.min 100 (Qfloor (q + (1 # 2)))).



(** A request to evaluateAnswer that passes the checks, and its fields *)
Module SampleEvaluation.

Definition request : Request :=
  Sample.post
    "{'statement':'Deriva f(x) = x^2.','imageUrl':'https://host/a.jpg','exerciseIndex':2}".

Definition fields : checked :=
  {| exerciseIndex := num 2;
     c_statement := utf16 "Deriva f(x) = x^2.";
     imageUrl := utf16 "https://host/a.jpg";
     subtopicName := VStr (utf16 "Derivadas");
     difficulty := VStr (utf16 "medium");
     userAnswer := VStr [] |}.

Definition image : list N := [255%N; 216%N].

End SampleEvaluation.

(** ** Runs of generateExercise *)

(** The shape the three clamping variants of generateExercise share:
    [prepare], the completion call and [read_reply], all inside one [try]
    whose [catch] answers with the fallback of index 1. *)
Definition clamping_attempt
    (prep : M (number * jsstring))
    (reader : ExerciseDefinition -> jsstring -> jsstring -> exc Response)
    (reply : openai_reply) : M Response :=
  bind prep (fun p =>
  bind (emit CallCompletion) (fun _ =>
  bind (raw_content reply) (fun raw =>
  lift (reader (localFallback (fst p)) (snd p) raw)))).

Definition clamping_run
    (prep : M (number * jsstring))
    (reader : ExerciseDefinition -> jsstring -> jsstring -> exc Response)
    (reply : openai_reply) : M Response :=
  try_catch (clamping_attempt prep reader reply)
            (ret (exercise (localFallback (num 1)))).


(** ** Code fences *)

(** [object] in a code fence: three backquotes, a tag, white space, the
    object, white space, three backquotes *)
Definition fence (tag ws1 object ws2 : jsstring) : jsstring :=
  (utf16 "```" ++ tag ++ ws1 ++ object ++ ws2 ++ utf16 "```")%list.

(** A text that opens with a brace and closes with one *)
Definition braces (inner : jsstring) : jsstring :=
  (utf16 "{" ++ inner ++ utf16 "}")%list.

(** Lines 211-215 on their own *)
Definition between_braces (jsonText : jsstring) : jsstring :=
  let firstBrace := indexOf jsonText (utf16 "{") in
  let lastBrace := lastIndexOf jsonText (utf16 "}") in
  if negb (firstBrace =? -1)%Z && negb (lastBrace =? -1)%Z
     && (firstBrace <? lastBrace)%Z
  then slice jsonText firstBrace (lastBrace + 1)
  else jsonText.

(** The world [w] with another reply of the Gemini service *)
Definition with_gemini (w : World) (g : gemini_reply) : World :=
  {| GEMINI_API_KEY := GEMINI_API_KEY w;
     OPENAI_API_KEY := OPENAI_API_KEY w;
     fetch := fetch w;
     gemini := g;
     openai := openai w;
     supabase := supabase w;
     toLowerCase := toLowerCase w |}.

(** ** Runs of evaluateAnswer, step by step *)

(** The answer of evaluateAnswer to a method other than POST *)
Definition method_refused : Response :=
  respond 405 (ErrorBody (utf16 "Method not allowed")).

(** The head of the handler let the request through, with the fields [c]. *)
Definition accepted (key : option jsstring) (req : Request) (c : checked) : Prop :=
  read_request key req = ([], Ok (inr c)).

(** What is sent when the image cannot be had: one call, the fetch, and the
    fallback record of the sanitized index *)
Definition failed_download (c : checked) : M Response :=
  ([FetchImage (imageUrl c)], Ok (fallback (exerciseIndex c))).

(** What a handler does once it holds the image.  The template literals of
    the prompts are evaluated outside every [try]: when one of them throws,
    the run ends there.  Otherwise the completion service is called and the
    outcome [answer] of the [try] around that call is sent, or the fallback
    record when it threw. *)
Definition after_download (c : checked) (answer : exc Response) : M Response :=
  if ToString_throws (subtopicName c) || ToString_throws (difficulty c)
  then ([FetchImage (imageUrl c)], Throw)
  else (calls c, Ok (or_fallback c answer)).

(** The body of the [try] around a Gemini call, [read] being what the
    variant does with the text of the reply *)
Definition gemini_answer (w : World) (read : jsstring -> exc Response)
  : exc Response :=
  match gemini w with
  | GeminiRejected => Throw
  | GeminiText text => read text
  end.

(** The body of the [try] around the OpenAI call *)
Definition openai_answer (w : World) (read : option jsstring -> exc Response)
  : exc Response :=
  match openai w with
  | OpenAIRejected => Throw
  | OpenAINoMessage => read None
  | OpenAIContent content => read content
  end.

(** The external calls a run of evaluateAnswer may make: none; or the fetch
    of the image named by the request; or that fetch and then one call of
    the completion service. *)
Definition evaluate_trace (req : Request) (t : list event) : Prop :=
  t = []
  \/ exists url, get (body req) "imageUrl" = Ok (VStr url)
                 /\ (t = [FetchImage url] \/ t = [FetchImage url; CallCompletion]).

(** An evaluation as the two Gemini variants send it: a result among the
    three, a score that is an integer from 0 to 100, a feedback that is
    not empty and has no white space at either end. *)
Definition integer_graded (e : EvaluationResult) : Prop :=
  allowed_result (result e)
  /\ (exists z, score e = num z /\ (0 <= z <= 100)%Z)
  /\ feedbackSummary e <> []
  /\ trim (feedbackSummary e) = feedbackSummary e.

(** The world [w] with another outcome of [fetch] *)
Definition with_fetch (w : World) (f : jsstring -> fetch_outcome) : World :=
  {| GEMINI_API_KEY := GEMINI_API_KEY w;
     OPENAI_API_KEY := OPENAI_API_KEY w;
     fetch := f;
     gemini := gemini w;
     openai := openai w;
     supabase := supabase w;
     toLowerCase := toLowerCase w |}.

(** ** Runs of generateExercise, step by step *)

(** The external calls of the variants without a store: none, or one call
    of the completion service *)
Definition generate_calls (t : list event) : Prop :=
  t = [] \/ t = [CallCompletion].

(** The external calls of the variant with the subtopic store: none; or one
    query of the store; or that query and then one call of the completion
    service. *)
Definition context_calls (t : list event) : Prop :=
  t = []
  \/ exists q, t = [QuerySubtopics q] \/ t = [QuerySubtopics q; CallCompletion].

(** Status 200 with an exercise whose statement is not empty and has no
    white space at either end *)
Definition trimmed_exercise (r : Response) : Prop :=
  exists d, r = exercise d
            /\ statement d <> [] /\ trim (statement d) = statement d.


(** A value that is neither a string nor [null] nor [undefined] *)
Definition not_a_text (v : value) : Prop :=
  match v with
  | VBool _ | VNum _ | VArr _ | VObj _ => True
  | VUndefined | VNull | VStr _ => False
  end.

(** The world [w] with another subtopic store *)
Definition with_supabase (w : World) (s : subtopic_query -> supabase_reply)
  : World :=
  {| GEMINI_API_KEY := GEMINI_API_KEY w;
     OPENAI_API_KEY := OPENAI_API_KEY w;
     fetch := fetch w;
     gemini := gemini w;
     openai := openai w;
     supabase := s;
     toLowerCase := toLowerCase w |}.

(** The query [fetchSubtopicContext] builds (lines 112-117) from the
    [subtopicId] and the [subtopicName] of the body *)
Definition query_of (subtopicId subtopicName : value) : subtopic_query :=
  if truthy subtopicId then ById subtopicId
  else if truthy subtopicName then ByName subtopicName
  else Unfiltered.

(** The fields of the body that evaluateAnswer converts to a number
    ([exerciseIndex]) or to a string ([userAnswer.toString()], the template
    literal of the user prompt) *)
Definition converted_fields : list string :=
  ["exerciseIndex"; "userAnswer"; "subtopicName"; "difficulty"]%string.

(** ** Texts *)

(** The text [s] holds no code unit [c]. *)
Definition lacks (c : N) (s : jsstring) : bool :=
  forallb (fun x => negb (x =? c)%N) s.

(* ===================================================================== *)
(** * Part VII: the properties of the handlers *)
(* ===================================================================== *)

(** ** Numbers *)

Lemma Qcompare_inject_Z (a b : Z) : (inject_Z a ?= inject_Z b)%Q = (a ?= b)%Z.
Proof. unfold Qcompare; simpl. now rewrite !Z.mul_1_r. Qed.

Lemma num_eq_num (a b : Z) : num_eq (num a) (num b) = (a =? b)%Z.
Proof.
  unfold num_eq, num, num_compare. rewrite Qcompare_inject_Z.
  now rewrite Z.eqb_compare.
Qed.

Lemma num_lt_Fin (x y : Q) : num_lt (Fin x) (Fin y) = true <-> (x < y)%Q.
Proof.
  unfold num_lt, num_compare. rewrite Qlt_alt.
  destruct (x ?= y)%Q; split; congruence.
Qed.

Lemma num_lt_Fin_false (x y : Q) : num_lt (Fin x) (Fin y) = false <-> (y <= x)%Q.
Proof.
  rewrite <- Bool.not_true_iff_false, num_lt_Fin. split.
  - apply Qnot_lt_le.
  - apply Qle_not_lt.
Qed.

Lemma num_eq_sym (a b : number) : num_eq a b = num_eq b a.
Proof.
  destruct a, b; try reflexivity.
  unfold num_eq, num_compare.
  destruct (q ?= q0)%Q eqn:E.
  - now rewrite (proj1 (Qeq_alt q0 q) (Qeq_sym _ _ (proj2 (Qeq_alt q q0) E))).
  - now rewrite (proj1 (Qgt_alt q0 q) (proj2 (Qlt_alt q q0) E)).
  - now rewrite (proj1 (Qlt_alt q0 q) (proj2 (Qgt_alt q q0) E)).
Qed.

Lemma num_eq_trans (a b c : number) :
  num_eq a b = true -> num_eq b c = num_eq a c.
Proof.
  destruct a, b; try discriminate; destruct c; try reflexivity.
  unfold num_eq, num_compare. intros H.
  destruct (q ?= q0)%Q eqn:E; try discriminate.
  now rewrite (Qcompare_comp _ _ (proj2 (Qeq_alt q q0) E) q1 q1 (Qeq_refl q1)).
Qed.

(** C1 (error handling, not met by the code).  The claim: whatever the
    request, a POST to either handler is answered with status 200 and a
    well-formed payload.  The evaluateAnswer handlers break it: the
    destructuring of [body] (line 61) and [userAnswer.toString()] (line 86)
    stand outside every [try], so a body that is [null], or a [userAnswer]
    that is [null], makes the handler throw before it sends anything, in all
    three variants, whatever the services would have replied. *)
Theorem evaluate_handler_lets_exceptions_escape :
  (let req := Sample.post
     "{'statement':'Deriva f(x) = x^2.','imageUrl':'https://host/a.jpg','userAnswer':null}" in
   forall g o,
     EvaluateGemini.handler (Sample.world g o) req = ([], Throw)
     /\ EvaluateOpenAI.handler (Sample.world g o) req = ([], Throw)
     /\ EvaluateGenAI.handler (Sample.world g o) req = ([], Throw))
  /\ (let req := {| method := utf16 "POST"; body := VNull |} in
      forall w,
        EvaluateGemini.handler w req = ([], Throw)
        /\ EvaluateOpenAI.handler w req = ([], Throw)
        /\ EvaluateGenAI.handler w req = ([], Throw)).
Proof.
  split.
  - intros req g o. repeat split; vm_compute; reflexivity.
  - intros req w. repeat split; reflexivity.
Qed.

(** C3 (functional correctness), as amended.  The comparisons of the
    sanitizer read its argument as a number ([ToNumber]: a number as it is,
    [null] as 0, a boolean as 0 or 1, a text as the number it denotes).  For
    every input that is falsy (missing, [null], [false], 0, NaN, the empty
    text), or that converts to a number and that number is not NaN, the
    sanitizer returns, and returns an integer among 1, 2 and 3: 1 for a
    falsy input and for a number below 1, 3 for a number above 3, and
    otherwise the number rounded down.  The statement covers no other
    input. *)
Theorem sanitize_lands_on_1_2_3 (v : value) (n : number) :
  ToNumber v = Ok n ->
  truthy v = false \/ Number_isNaN_num n = false ->
  exists z,
    (1 <= z <= 3)%Z
    /\ sanitizeExerciseIndex v = Ok (num z)
    /\ (truthy v = false -> z = 1%Z)
    /\ (num_lt n (num 1) = true -> z = 1%Z)
    /\ (truthy v = true -> num_gt n (num 3) = true -> z = 3%Z)
    /\ (forall q, truthy v = true -> n = Fin q ->
                  (1 <= q)%Q -> (q <= 3)%Q -> z = Qfloor q).
Proof.
  intros Hn H. unfold sanitizeExerciseIndex.
  destruct (truthy v) eqn:T; cbn [negb orb].
  2:{ exists 1%Z. repeat split; try lia; try reflexivity; try discriminate. }
  destruct H as [H|H]; [discriminate|].
  assert (Number_isNaN v = false) as ->.
  { destruct v; try reflexivity. cbn in Hn. injection Hn as ->. exact H. }
  unfold lt_num, gt_num, Math_floor. rewrite Hn. cbn [exc_bind].
  destruct n as [ | | |q]; try discriminate H.
  - exists 3%Z. repeat split; try lia; try reflexivity; try discriminate.
  - exists 1%Z. repeat split; try lia; try reflexivity; try discriminate.
  - destruct (num_lt (Fin q) (num 1)) eqn:E1.
    { exists 1%Z. repeat split; try lia; try reflexivity; try discriminate.
      - intros _ G. unfold num_gt in G. apply num_lt_Fin in G.
        apply (num_lt_Fin q 1) in E1. exfalso.
        apply (Qlt_irrefl q). apply Qlt_trans with 1%Q; [exact E1|].
        apply Qlt_trans with 3%Q; [reflexivity|exact G].
      - intros q' _ [= <-] L _. apply (num_lt_Fin q 1) in E1.
        exfalso. apply (Qlt_irrefl q). now apply Qlt_le_trans with 1%Q. }
    unfold num_gt. destruct (num_lt (num 3) (Fin q)) eqn:E3.
    { exists 3%Z. repeat split; try lia; try reflexivity; try discriminate.
      intros q' _ [= <-] _ L. apply (num_lt_Fin 3 q) in E3.
      exfalso. apply (Qlt_irrefl q). now apply Qle_lt_trans with 3%Q. }
    exists (Qfloor q).
    apply (num_lt_Fin_false q 1) in E1. apply (num_lt_Fin_false 3 q) in E3.
    pose proof (Qfloor_resp_le _ _ E1) as F1.
    pose proof (Qfloor_resp_le _ _ E3) as F3.
    change (Qfloor 1) with 1%Z in F1. change (Qfloor 3) with 3%Z in F3.
    repeat split; try lia; try reflexivity; try discriminate.
    now intros q' _ [= <-] _ _.
Qed.

(** An instance of C3 as amended: 2.5 is rounded down, the text "3.5" is
    brought down to 3, a missing index becomes 1. *)
Lemma sanitize_witness :
  sanitizeExerciseIndex (VNum (Fin (5 # 2))) = Ok (num 2)
  /\ sanitizeExerciseIndex (VStr (utf16 "3.5")) = Ok (num 3)
  /\ sanitizeExerciseIndex VUndefined = Ok (num 1).
Proof.
  assert (N1 : ToNumber (VNum (Fin (5 # 2))) = Ok (Fin (5 # 2))) by reflexivity.
  assert (N2 : ToNumber (VStr (utf16 "3.5")) = Ok (Fin (7 # 2)))
    by (vm_compute; reflexivity).
  assert (N3 : ToNumber VUndefined = Ok NaN) by reflexivity.
  destruct (sanitize_lands_on_1_2_3 _ _ N1 (or_intror eq_refl))
    as (z1 & _ & E1 & _ & _ & _ & F1).
  destruct (sanitize_lands_on_1_2_3 _ _ N2 (or_intror eq_refl))
    as (z2 & _ & E2 & _ & _ & G2 & _).
  destruct (sanitize_lands_on_1_2_3 _ _ N3 (or_introl eq_refl))
    as (z3 & _ & E3 & T3 & _).
  assert (L1 : (1 <= 5 # 2)%Q) by (vm_compute; discriminate).
  assert (L2 : (5 # 2 <= 3)%Q) by (vm_compute; discriminate).
  rewrite (F1 (5 # 2) eq_refl eq_refl L1 L2) in E1.
  rewrite (G2 eq_refl eq_refl) in E2.
  rewrite (T3 eq_refl) in E3.
  split; [exact E1|]. split; [exact E2|exact E3].
Defined.

(** C3, refuted as stated: an input that is not a number need not come
    out as 1, and the sanitizer can fail.  [Number.isNaN] does not coerce
    its argument, so a text that denotes no number passes the guard of line
    39, fails both comparisons and leaves [Math.floor] as NaN; so does an
    object; and an object of the request body with a member [toString]
    (a number here, which cannot be called) makes the first comparison
    throw a TypeError. *)
Lemma sanitize_yields_NaN_on_text :
  sanitizeExerciseIndex (VStr (utf16 "abc")) = Ok NaN
  /\ sanitizeExerciseIndex (VObj []) = Ok NaN
  /\ (forall z, sanitizeExerciseIndex (VStr (utf16 "abc")) <> Ok (num z))
  /\ sanitizeExerciseIndex (VObj [(utf16 "toString", VNum (num 1))]) = Throw.
Proof.
  split; [|split; [|split]].
  - vm_compute. reflexivity.
  - vm_compute. reflexivity.
  - intros z E. vm_compute in E. discriminate E.
  - vm_compute. reflexivity.
Qed.

(** C2 (functional correctness).  The fallback record is a function of the
    index alone: an index equal to 1 gives the record of index 1 (correct,
    100; basic_procedural), an index equal to 2 that of index 2 (partial,
    60; mixed_rules), any other number that of index 3 (incorrect, 20;
    applied_word_problem); equal indices give identical records.  This holds
    for [getFallbackEvaluation] and for both tables of [localFallback]. *)
Theorem fallback_is_a_function_of_the_index (i : number) :
  (num_eq i (num 1) = true ->
     getFallbackEvaluation (Some i) = getFallbackEvaluation (Some (num 1))
     /\ localFallback i = localFallback (num 1)
     /\ GenerateStrict.localFallback i = GenerateStrict.localFallback (num 1))
  /\ (num_eq i (num 2) = true ->
     getFallbackEvaluation (Some i) = getFallbackEvaluation (Some (num 2))
     /\ localFallback i = localFallback (num 2)
     /\ GenerateStrict.localFallback i = GenerateStrict.localFallback (num 2))
  /\ (num_eq i (num 1) = false -> num_eq i (num 2) = false ->
     getFallbackEvaluation (Some i) = getFallbackEvaluation (Some (num 3))
     /\ localFallback i = localFallback (num 3)
     /\ GenerateStrict.localFallback i = GenerateStrict.localFallback (num 3))
  /\ (forall j, num_eq i j = true ->
     getFallbackEvaluation (Some i) = getFallbackEvaluation (Some j)
     /\ localFallback i = localFallback j
     /\ GenerateStrict.localFallback i = GenerateStrict.localFallback j)
  /\ (let e k := getFallbackEvaluation (Some (num k)) in
      (result (e 1%Z), score (e 1%Z)) = (utf16 "correct", num 100)
      /\ (result (e 2%Z), score (e 2%Z)) = (utf16 "partial", num 60)
      /\ (result (e 3%Z), score (e 3%Z)) = (utf16 "incorrect", num 20)
      /\ getFallbackEvaluation None = e 1%Z)
  /\ (let types (f : number -> ExerciseDefinition) :=
        map (fun k => exerciseType (f (num k))) [1%Z; 2%Z; 3%Z] in
      let expected :=
        map utf16 ["basic_procedural"; "mixed_rules"; "applied_word_problem"]%string in
      types localFallback = expected
      /\ types GenerateStrict.localFallback = expected).
Proof.
  assert (E12 : num_eq i (num 1) = true -> num_eq i (num 2) = false).
  { intros H. rewrite num_eq_sym in H. rewrite (num_eq_trans _ _ (num 2) H).
    reflexivity. }
  split; [|split; [|split; [|split; [|split]]]].
  - unfold getFallbackEvaluation, localFallback, GenerateStrict.localFallback.
    intros H. now rewrite H.
  - unfold getFallbackEvaluation, localFallback, GenerateStrict.localFallback.
    intros H. rewrite H. destruct (num_eq i (num 1)) eqn:E1; [|easy].
    now rewrite (E12 eq_refl) in H.
  - unfold getFallbackEvaluation, localFallback, GenerateStrict.localFallback.
    intros H1 H2. now rewrite H1, H2.
  - unfold getFallbackEvaluation, localFallback, GenerateStrict.localFallback.
    intros j H. now rewrite !(num_eq_trans _ _ _ H).
  - intros e. repeat split; vm_compute; reflexivity.
  - intros types expected. split; vm_compute; reflexivity.
Qed.

(** An instance of C2: 6/2 is index 3, 4/2 is index 2, NaN is neither 1
    nor 2. *)
Lemma fallback_by_index_witness :
  getFallbackEvaluation (Some (Fin (6 # 2))) = getFallbackEvaluation (Some (num 3))
  /\ getFallbackEvaluation (Some (Fin (4 # 2))) = getFallbackEvaluation (Some (num 2))
  /\ getFallbackEvaluation (Some NaN) = getFallbackEvaluation (Some (num 3)).
Proof.
  destruct (fallback_is_a_function_of_the_index (Fin (6 # 2))) as (_ & _ & _ & H & _).
  destruct (fallback_is_a_function_of_the_index (Fin (4 # 2))) as (_ & K & _).
  destruct (fallback_is_a_function_of_the_index NaN) as (_ & _ & L & _).
  split; [exact (proj1 (H (num 3) eq_refl))|].
  split; [exact (proj1 (K eq_refl))|exact (proj1 (L eq_refl eq_refl))].
Defined.

Arguments includes_str : simpl never.
Arguments utf16 : simpl never.
Arguments trim : simpl never.
Arguments JSON_parse : simpl never.
Arguments sanitizeExerciseIndex : simpl never.
Arguments get : simpl never.
Arguments Math_max : simpl never.
Arguments Math_min : simpl never.
Arguments Math_round : simpl never.
Arguments nonblank_string : simpl never.
Arguments required_text : simpl never.
Arguments ToNumber : simpl never.
Arguments localFallback : simpl never.
Arguments GenerateStrict.localFallback : simpl never.
Arguments getFallbackEvaluation : simpl never.

(** ** Tactics for runs of the handler monad *)

Ltac run :=
  unfold try_catch, throw_if in *;
  unfold bind, try_bind, lift, ret, throw, emit in *;
  cbn beta iota zeta in *.

Ltac break_goal :=
  match goal with
  | |- context [match ?x with _ => _ end] =>
      lazymatch x with
      | context [match _ with _ => _ end] => fail
      | _ => destruct x eqn:?
      end
  end.

Ltac break_in H :=
  match type of H with
  | context [match ?x with _ => _ end] =>
      lazymatch x with
      | context [match _ with _ => _ end] => fail
      | _ => destruct x eqn:?
      end
  end.

Ltac crunch H :=
  repeat first [ discriminate H
               | progress cbn beta iota zeta in H
               | break_in H ].

(** ** Strings *)

Lemma str_eqb_eq (a b : jsstring) : str_eqb a b = true <-> a = b.
Proof.
  revert b. induction a as [|x a IH]; destruct b as [|y b]; simpl;
    try (split; congruence).
  rewrite Bool.andb_true_iff, N.eqb_eq, IH. split.
  - now intros [-> ->].
  - intros E. now inversion E.
Qed.

Lemma includes_str_In (arr : list string) (t : jsstring) :
  includes_str arr (VStr t) = true <-> In t (map utf16 arr).
Proof.
  unfold includes_str. rewrite existsb_exists. split.
  - intros (a & Ha & E). simpl in E. apply str_eqb_eq in E. subst.
    now apply in_map.
  - intros H. apply in_map_iff in H as (a & <- & Ha). exists a. split; [easy|].
    simpl. now apply str_eqb_eq.
Qed.

Lemma includes_str_is_string (arr : list string) (v : value) :
  includes_str arr v = true -> exists t, v = VStr t.
Proof.
  unfold includes_str. rewrite existsb_exists. intros (a & _ & E).
  destruct v; try discriminate. now eexists.
Qed.

(** ** The type hints *)

Lemma chooseExerciseTypeHint_allowed i d :
  allowed_type (GenerateHint.chooseExerciseTypeHint i d).
Proof.
  unfold GenerateHint.chooseExerciseTypeHint, allowed_type.
  repeat break_goal; apply in_map; simpl; tauto.
Qed.

Lemma pickExerciseType_allowed w s d i :
  allowed_type (GeneratePick.pickExerciseType w s d i).
Proof.
  unfold GeneratePick.pickExerciseType, allowed_type.
  repeat break_goal; apply in_map; simpl; tauto.
Qed.

Lemma pickExerciseType_context_allowed w s d i h :
  GenerateContext.pickExerciseType w s d i = Ok h -> allowed_type h.
Proof.
  unfold GenerateContext.pickExerciseType, allowed_type.
  repeat break_goal; intros [= <-]; apply in_map; simpl; tauto.
Qed.

Lemma localFallback_allowed i : allowed_type (exerciseType (localFallback i)).
Proof.
  unfold localFallback, allowed_type.
  repeat break_goal; cbn [exerciseType]; apply in_map; simpl; tauto.
Qed.

Lemma localFallback_strict_allowed i :
  allowed_type (exerciseType (GenerateStrict.localFallback i)).
Proof.
  unfold GenerateStrict.localFallback, allowed_type.
  repeat break_goal; cbn [exerciseType]; apply in_map; simpl; tauto.
Qed.

(** ** The generateExercise handlers *)

Lemma nonblank_string_Some v text :
  nonblank_string v = Some text -> v = VStr text /\ trim text <> [].
Proof.
  unfold nonblank_string. destruct v; try discriminate.
  destruct (trim s) eqn:E; simpl; intros [= <-]; split; try easy.
  now rewrite E.
Qed.

Lemma trim_nonempty s : trim s <> [] -> s <> [].
Proof. intros H ->. now apply H. Qed.

Lemma localFallback_statement i : statement (localFallback i) <> [].
Proof. unfold localFallback. repeat break_goal; cbv; discriminate. Qed.

Lemma localFallback_strict_statement i :
  statement (GenerateStrict.localFallback i) <> [].
Proof. unfold GenerateStrict.localFallback. repeat break_goal; cbv; discriminate. Qed.

Lemma fallback_exercise_well_formed i : well_formed_exercise (exercise (localFallback i)).
Proof.
  split; [reflexivity|]. eexists. split; [reflexivity|].
  split; [apply localFallback_statement | apply localFallback_allowed].
Qed.

Lemma fallback_strict_well_formed i :
  well_formed_exercise (exercise (GenerateStrict.localFallback i)).
Proof.
  split; [reflexivity|]. eexists. split; [reflexivity|].
  split; [apply localFallback_strict_statement | apply localFallback_strict_allowed].
Qed.

Lemma repaired_statement_nonempty parsed fb s :
  statement fb <> [] -> repaired_statement parsed fb = Ok s -> s <> [].
Proof.
  unfold repaired_statement, exc_bind. intros Hfb.
  destruct (get parsed "statement"); [|discriminate].
  destruct (nonblank_string a) eqn:E; intros [= <-]; [|easy].
  now apply nonblank_string_Some in E.
Qed.

Lemma read_reply_context_well_formed i hint raw r :
  allowed_type hint ->
  GenerateContext.read_reply (localFallback i) hint raw = Ok r ->
  well_formed_exercise r.
Proof.
  intros Hh. unfold GenerateContext.read_reply, exc_bind.
  destruct (JSON_parse raw) as [parsed|].
  2:{ intros [= <-]. apply fallback_exercise_well_formed. }
  destruct (repaired_statement parsed _) as [s|] eqn:Es; [|discriminate].
  apply repaired_statement_nonempty in Es; [|apply localFallback_statement].
  destruct (get parsed "exerciseType") as [ty|]; [|discriminate].
  intros [= <-]. split; [reflexivity|]. eexists. split; [reflexivity|].
  split; [exact Es|]. simpl.
  destruct ty; try exact Hh.
  destruct (includes_str allowedTypes (VStr s0)) eqn:E; [|exact Hh].
  now apply includes_str_In in E.
Qed.

Lemma read_reply_hint_well_formed i hint raw r :
  allowed_type hint ->
  GenerateHint.read_reply (localFallback i) hint raw = Ok r ->
  well_formed_exercise r.
Proof.
  intros Hh. unfold GenerateHint.read_reply, exc_bind.
  destruct (JSON_parse raw) as [parsed|].
  2:{ intros [= <-]. apply fallback_exercise_well_formed. }
  destruct (repaired_statement parsed _) as [s|] eqn:Es; [|discriminate].
  apply repaired_statement_nonempty in Es; [|apply localFallback_statement].
  destruct (get parsed "exerciseType") as [ty|]; [|discriminate].
  intros [= <-]. split; [reflexivity|]. eexists. split; [reflexivity|].
  split; [exact Es|]. simpl.
  destruct ty; try exact Hh.
  destruct (truthy (VStr s0) && includes_str allowedTypes (VStr s0)) eqn:E; [|exact Hh].
  apply andb_prop in E as [_ E]. now apply includes_str_In in E.
Qed.

Lemma read_reply_strict_well_formed n raw r :
  GenerateStrict.read_reply n raw = Ok r -> well_formed_exercise r.
Proof.
  unfold GenerateStrict.read_reply, exc_bind.
  destruct (JSON_parse raw) as [parsed|]; [|discriminate].
  destruct (get parsed "statement") as [s|]; [|discriminate].
  destruct (get parsed "exerciseType") as [ty|]; [|discriminate].
  intros [= <-]. split; [reflexivity|]. eexists. split; [reflexivity|].
  simpl. split.
  - destruct (nonblank_string s) eqn:E.
    + apply nonblank_string_Some in E as [_ E]. now apply trim_nonempty.
    + apply localFallback_strict_statement.
  - destruct ty; try apply localFallback_strict_allowed.
    destruct (truthy (VStr s0) && includes_str allowedTypes (VStr s0)) eqn:E;
      [|apply localFallback_strict_allowed].
    apply andb_prop in E as [_ E]. now apply includes_str_In in E.
Qed.

(** *** What [prepare] yields *)

Lemma prepare_hint_allowed body t i h :
  GenerateHint.prepare body = (t, Ok (i, h)) -> t = [] /\ allowed_type h.
Proof.
  intros H. unfold GenerateHint.prepare in H. run. crunch H.
  all: inversion H; subst.
  all: split; [reflexivity | apply chooseExerciseTypeHint_allowed].
Qed.

Lemma prepare_pick_allowed w body t i h :
  GeneratePick.prepare w body = (t, Ok (i, h)) -> t = [] /\ allowed_type h.
Proof.
  intros H. unfold GeneratePick.prepare in H. run. crunch H.
  all: inversion H; subst.
  all: split; [reflexivity | apply pickExerciseType_allowed].
Qed.

Lemma prepare_context_allowed w body t i h :
  GenerateContext.prepare w body = (t, Ok (i, h)) -> allowed_type h.
Proof.
  intros H. unfold GenerateContext.prepare, GenerateContext.fetchSubtopicContext in H.
  run. crunch H.
  all: inversion H; subst.
  all: eapply pickExerciseType_context_allowed; eassumption.
Qed.

Lemma raw_content_cases reply :
  raw_content reply = ([], Throw) \/ exists raw, raw_content reply = ([], Ok raw).
Proof.
  destruct reply as [ | |[[|c s]|]]; unfold raw_content, ret, throw; eauto.
Qed.

(** *** The shape the three clamping variants share *)
Section Clamping.

Variable prep : M (number * jsstring).
Variable reader : ExerciseDefinition -> jsstring -> jsstring -> exc Response.
Variable reply : openai_reply.

Lemma clamping_caught t :
  clamping_attempt prep reader reply = (t, Throw) ->
  clamping_run prep reader reply = (t, Ok (exercise (localFallback (num 1)))).
Proof.
  unfold clamping_run. intros ->. run. now rewrite ?app_nil_r.
Qed.

Lemma clamping_rejected :
  reply = OpenAIRejected ->
  exists t, clamping_attempt prep reader reply = (t, Throw).
Proof.
  intros E. unfold clamping_attempt. rewrite E. unfold raw_content.
  destruct prep as [t [p|]]; run; cbn; eauto.
Qed.

Lemma clamping_reads t i h raw :
  prep = (t, Ok (i, h)) ->
  raw_content reply = ([], Ok raw) ->
  clamping_run prep reader reply =
    ((t ++ [CallCompletion])%list,
     Ok match reader (localFallback i) h raw with
        | Ok r => r
        | Throw => exercise (localFallback (num 1))
        end).
Proof.
  intros P E. unfold clamping_run, clamping_attempt. rewrite P. run.
  rewrite E. cbn. destruct (reader _ _ _); cbn; now rewrite ?app_nil_r.
Qed.

Hypothesis prep_allowed :
  forall t i h, prep = (t, Ok (i, h)) -> allowed_type h.
Hypothesis reader_well_formed :
  forall i h raw r, allowed_type h ->
    reader (localFallback i) h raw = Ok r -> well_formed_exercise r.

Lemma clamping_total :
  exists t r, clamping_run prep reader reply = (t, Ok r) /\ well_formed_exercise r.
Proof.
  unfold clamping_run, clamping_attempt.
  destruct prep as [t [[i h]|]] eqn:P.
  2:{ run. do 2 eexists. split; [reflexivity|]. apply fallback_exercise_well_formed. }
  pose proof (prep_allowed _ _ _ eq_refl) as A.
  destruct (raw_content_cases reply) as [E|[raw E]]; run; rewrite E; cbn.
  { do 2 eexists. split; [reflexivity|]. apply fallback_exercise_well_formed. }
  destruct (reader (localFallback i) h raw) eqn:R; cbn.
  - do 2 eexists. split; [reflexivity|]. eapply reader_well_formed; eassumption.
  - do 2 eexists. split; [reflexivity|]. apply fallback_exercise_well_formed.
Qed.

End Clamping.

Lemma handler_context_shape w req :
  is_post req = true ->
  GenerateContext.handler w req
  = clamping_run (GenerateContext.prepare w (body req))
                 GenerateContext.read_reply (openai w).
Proof. intros H. unfold GenerateContext.handler. now rewrite H. Qed.

Lemma handler_hint_shape w req :
  is_post req = true ->
  GenerateHint.handler w req
  = clamping_run (GenerateHint.prepare (body req))
                 GenerateHint.read_reply (openai w).
Proof. intros H. unfold GenerateHint.handler. now rewrite H. Qed.

Lemma handler_pick_shape w req :
  is_post req = true ->
  GeneratePick.handler w req
  = clamping_run (GeneratePick.prepare w (body req))
                 GenerateContext.read_reply (openai w).
Proof. intros H. unfold GeneratePick.handler. now rewrite H. Qed.

Lemma handler_context_total w req :
  exists t r, GenerateContext.handler w req = (t, Ok r) /\ generate_response r.
Proof.
  destruct (is_post req) eqn:P.
  - rewrite handler_context_shape by easy.
    destruct (clamping_total (GenerateContext.prepare w (body req))
                GenerateContext.read_reply (openai w)) as (t & r & E & H).
    + intros ? ? ?. apply prepare_context_allowed.
    + intros ? ? ? ?. apply read_reply_context_well_formed.
    + exists t, r. split; [easy|now right].
  - unfold GenerateContext.handler. rewrite P. do 2 eexists.
    split; [reflexivity|now left].
Qed.

Lemma handler_hint_total w req :
  exists t r, GenerateHint.handler w req = (t, Ok r) /\ generate_response r.
Proof.
  destruct (is_post req) eqn:P.
  - rewrite handler_hint_shape by easy.
    destruct (clamping_total (GenerateHint.prepare (body req))
                GenerateHint.read_reply (openai w)) as (t & r & E & H).
    + intros ? ? ? H. now apply prepare_hint_allowed in H.
    + intros ? ? ? ?. apply read_reply_hint_well_formed.
    + exists t, r. split; [easy|now right].
  - unfold GenerateHint.handler. rewrite P. do 2 eexists.
    split; [reflexivity|now left].
Qed.

Lemma handler_pick_total w req :
  exists t r, GeneratePick.handler w req = (t, Ok r) /\ generate_response r.
Proof.
  destruct (is_post req) eqn:P.
  - rewrite handler_pick_shape by easy.
    destruct (clamping_total (GeneratePick.prepare w (body req))
                GenerateContext.read_reply (openai w)) as (t & r & E & H).
    + intros ? ? ? H. now apply prepare_pick_allowed in H.
    + intros ? ? ? ?. apply read_reply_context_well_formed.
    + exists t, r. split; [easy|now right].
  - unfold GeneratePick.handler. rewrite P. do 2 eexists.
    split; [reflexivity|now left].
Qed.

(** *** The validating variant *)

Lemma prepare_strict_cases body :
  (exists t, GenerateStrict.prepare body = (t, Throw))
  \/ GenerateStrict.prepare body = ([], Ok (inl GenerateStrict.bad_request))
  \/ exists n, GenerateStrict.prepare body = ([], Ok (inr n))
               /\ get body "exerciseIndex" = Ok (VNum n)
               /\ GenerateStrict.index_rejected (VNum n) = false.
Proof.
  unfold GenerateStrict.prepare. run.
  destruct (get body "subtopicName") as [sn|]; cbn; [|eauto].
  destruct (get body "difficulty") as [df|]; cbn; [|eauto].
  destruct (get body "exerciseIndex") as [ix|]; cbn; [|eauto].
  destruct (GenerateStrict.index_rejected ix) eqn:R; cbn; [eauto|].
  destruct ix; try discriminate R.
  destruct (ToString_throws sn); cbn; [eauto|].
  destruct (ToString_throws df); cbn; [eauto|].
  right. right. eauto.
Qed.

Lemma handler_strict_total w req :
  exists t r, GenerateStrict.handler w req = (t, Ok r)
              /\ (generate_response r \/ r = GenerateStrict.bad_request).
Proof.
  unfold GenerateStrict.handler.
  destruct (is_post req); cbn [negb].
  2:{ do 2 eexists. split; [reflexivity|]. left. now left. }
  unfold GenerateStrict.attempt.
  destruct (prepare_strict_cases (body req)) as [[t E]|[E|(n & E & _)]];
    rewrite E; run.
  - do 2 eexists. split; [reflexivity|]. left. right.
    apply fallback_strict_well_formed.
  - do 2 eexists. split; [reflexivity|]. now right.
  - destruct (openai w) as [ | |[[|c s]|]]; cbn.
    1,2: do 2 eexists; (split; [reflexivity|]); left; right;
         apply fallback_strict_well_formed.
    all: match goal with
         | |- context [GenerateStrict.read_reply ?n ?raw] =>
             destruct (GenerateStrict.read_reply n raw) eqn:R
         end; cbn; do 2 eexists; (split; [reflexivity|]); left; right;
         [eapply read_reply_strict_well_formed; eassumption
         | apply fallback_strict_well_formed].
Qed.

Lemma get_defined v k x k' : get v k = Ok x -> exists y, get v k' = Ok y.
Proof.
  unfold get. destruct v; try discriminate; intros _; eauto.
  destruct (own_property (utf16 k') fields); eauto.
Qed.








Lemma strict_reads w req n raw :
  is_post req = true ->
  GenerateStrict.prepare (body req) = ([], Ok (inr n)) ->
  GenerateStrict.raw_content_unguarded (openai w) = ([], Ok raw) ->
  GenerateStrict.handler w req =
    ([CallCompletion],
     Ok match GenerateStrict.read_reply n raw with
        | Ok r => r
        | Throw => exercise (GenerateStrict.localFallback (num 1))
        end).
Proof.
  intros P E R. unfold GenerateStrict.handler, GenerateStrict.attempt.
  rewrite P, E. run. rewrite R. cbn.
  destruct (GenerateStrict.read_reply n raw); reflexivity.
Qed.

Lemma strict_accepts w req n :
  is_post req = true ->
  GenerateStrict.prepare (body req) = ([], Ok (inr n)) ->
  exists r, GenerateStrict.handler w req = ([CallCompletion], Ok r)
            /\ well_formed_exercise r.
Proof.
  intros P E. unfold GenerateStrict.handler, GenerateStrict.attempt.
  rewrite P, E. run.
  destruct (openai w) as [ | |[[|c s]|]]; cbn.
  1,2: eexists; (split; [reflexivity|]); apply fallback_strict_well_formed.
  all: match goal with
       | |- context [GenerateStrict.read_reply ?n ?raw] =>
           destruct (GenerateStrict.read_reply n raw) eqn:R
       end; cbn; eexists; (split; [reflexivity|]);
       [eapply read_reply_strict_well_formed; eassumption
       | apply fallback_strict_well_formed].
Qed.

(** A request the test of lines 959-963 rejects is answered with 400 and the
    completion service is not called. *)
Lemma strict_rejects w req sn df ix :
  is_post req = true ->
  get (body req) "subtopicName" = Ok sn ->
  get (body req) "difficulty" = Ok df ->
  get (body req) "exerciseIndex" = Ok ix ->
  GenerateStrict.index_rejected ix = true ->
  GenerateStrict.handler w req = ([], Ok GenerateStrict.bad_request).
Proof.
  intros P S D I R. unfold GenerateStrict.handler, GenerateStrict.attempt,
    GenerateStrict.prepare.
  rewrite P. run. rewrite S, D, I. cbn. now rewrite R.
Qed.

(** C9 (error handling, not met by the code).  The claim: in the variant
    that validates the index, every index that is not an integer in [1,3],
    a fractional one included, is answered with 400 and no completion call.
    The test of lines 959-963 only checks the type and the bounds, so 2.5
    passes it, the completion service is called and the answer is a 200,
    although the error text of line 966 reads "must be 1, 2 or 3". *)
Theorem fractional_index_reaches_the_completion_service (w : World) :
  let req := Sample.post "{'subtopicName':'Derivadas','exerciseIndex':2.5}" in
  GenerateStrict.index_rejected (VNum (Fin (5 # 2))) = false
  /\ exists r, GenerateStrict.handler w req = ([CallCompletion], Ok r)
               /\ status r = 200%Z.
Proof.
  intros req. split; [reflexivity|].
  destruct (strict_accepts w req (Fin (5 # 2))) as (r & E & H & _).
  - reflexivity.
  - vm_compute. reflexivity.
  - eauto.
Qed.

Lemma strict_caught w req t :
  is_post req = true ->
  GenerateStrict.attempt w req = (t, Throw) ->
  GenerateStrict.handler w req
  = (t, Ok (exercise (GenerateStrict.localFallback (num 1)))).
Proof.
  intros P E. unfold GenerateStrict.handler. rewrite P, E. run.
  now rewrite ?app_nil_r.
Qed.

Lemma strict_rejected_call w req n :
  is_post req = true ->
  openai w = OpenAIRejected ->
  get (body req) "exerciseIndex" = Ok (VNum n) ->
  GenerateStrict.index_rejected (VNum n) = false ->
  exists t, GenerateStrict.attempt w req = (t, Throw).
Proof.
  intros P E G R. unfold GenerateStrict.attempt.
  destruct (prepare_strict_cases (body req)) as [[t H]|[H|(m & H & _)]].
  - rewrite H. run. eauto.
  - exfalso. unfold GenerateStrict.prepare in H. run. rewrite G in H.
    crunch H. rewrite R in *. discriminate.
  - rewrite H, E. run. cbn. eauto.
Qed.

(** C10 (error handling).  In every generateExercise variant an exception
    that reaches the [catch] of the handler is answered with the fallback
    record of index 1, a basic_procedural exercise, whatever the index of
    the request: so is every POST request whose completion call fails
    (in the validating variant, once the index passed the test), also one
    with index 3, whose own fallback record is a different one. *)
Theorem outer_catch_answers_with_the_index_1_fallback (w : World) (req : Request) :
  is_post req = true ->
  (forall t,
     (GenerateContext.attempt w req = (t, Throw) ->
      GenerateContext.handler w req = (t, Ok (exercise (localFallback (num 1)))))
     /\ (GenerateHint.attempt w req = (t, Throw) ->
      GenerateHint.handler w req = (t, Ok (exercise (localFallback (num 1)))))
     /\ (GeneratePick.attempt w req = (t, Throw) ->
      GeneratePick.handler w req = (t, Ok (exercise (localFallback (num 1)))))
     /\ (GenerateStrict.attempt w req = (t, Throw) ->
      GenerateStrict.handler w req
      = (t, Ok (exercise (GenerateStrict.localFallback (num 1))))))
  /\ (openai w = OpenAIRejected ->
      (exists t, GenerateContext.handler w req
                 = (t, Ok (exercise (localFallback (num 1)))))
      /\ (exists t, GenerateHint.handler w req
                    = (t, Ok (exercise (localFallback (num 1)))))
      /\ (exists t, GeneratePick.handler w req
                    = (t, Ok (exercise (localFallback (num 1)))))
      /\ (forall n,
            get (body req) "exerciseIndex" = Ok (VNum n) ->
            GenerateStrict.index_rejected (VNum n) = false ->
            exists t, GenerateStrict.handler w req
                      = (t, Ok (exercise (GenerateStrict.localFallback (num 1))))))
  /\ exerciseType (localFallback (num 1)) = utf16 "basic_procedural"
  /\ exerciseType (GenerateStrict.localFallback (num 1)) = utf16 "basic_procedural"
  /\ localFallback (num 1) <> localFallback (num 3)
  /\ GenerateStrict.localFallback (num 1) <> GenerateStrict.localFallback (num 3).
Proof.
  intros P. split; [|split; [|repeat split]].
  - intros t. repeat split; intros E.
    + rewrite handler_context_shape by easy. now apply clamping_caught.
    + rewrite handler_hint_shape by easy. now apply clamping_caught.
    + rewrite handler_pick_shape by easy. now apply clamping_caught.
    + now apply strict_caught.
  - intros E. repeat split.
    + destruct (clamping_rejected (GenerateContext.prepare w (body req))
                  GenerateContext.read_reply (openai w) E) as [t H].
      exists t. rewrite handler_context_shape by easy. now apply clamping_caught.
    + destruct (clamping_rejected (GenerateHint.prepare (body req))
                  GenerateHint.read_reply (openai w) E) as [t H].
      exists t. rewrite handler_hint_shape by easy. now apply clamping_caught.
    + destruct (clamping_rejected (GeneratePick.prepare w (body req))
                  GenerateContext.read_reply (openai w) E) as [t H].
      exists t. rewrite handler_pick_shape by easy. now apply clamping_caught.
    + intros n G R.
      destruct (strict_rejected_call w req n P E G R) as [t H].
      exists t. now apply strict_caught.
  - intros E. apply (f_equal exerciseType) in E. vm_compute in E. discriminate.
  - intros E. apply (f_equal exerciseType) in E. vm_compute in E. discriminate.
Qed.

(** An instance of C10: index 3, the completion call fails. *)
Lemma outer_catch_witness :
  let w := Sample.world GeminiRejected OpenAIRejected in
  let req := Sample.post "{'subtopicName':'Derivadas','difficulty':'hard','exerciseIndex':3}" in
  let first := exercise (localFallback (num 1)) in
  GenerateContext.handler w req
  = ([QuerySubtopics (ByName (VStr (utf16 "Derivadas"))); CallCompletion], Ok first)
  /\ GenerateHint.handler w req = ([CallCompletion], Ok first)
  /\ GeneratePick.handler w req = ([CallCompletion], Ok first)
  /\ GenerateStrict.handler w req
     = ([CallCompletion], Ok (exercise (GenerateStrict.localFallback (num 1))))
  /\ (exists t, GenerateStrict.handler w req
                = (t, Ok (exercise (GenerateStrict.localFallback (num 1))))).
Proof.
  intros w req first.
  assert (P : is_post req = true) by reflexivity.
  destruct (outer_catch_answers_with_the_index_1_fallback w req P)
    as (C & R & _).
  assert (A1 : GenerateContext.attempt w req
               = ([QuerySubtopics (ByName (VStr (utf16 "Derivadas"))); CallCompletion],
                  Throw)) by (vm_compute; reflexivity).
  assert (A2 : GenerateHint.attempt w req = ([CallCompletion], Throw))
    by (vm_compute; reflexivity).
  assert (A3 : GeneratePick.attempt w req = ([CallCompletion], Throw))
    by (vm_compute; reflexivity).
  assert (A4 : GenerateStrict.attempt w req = ([CallCompletion], Throw))
    by (vm_compute; reflexivity).
  split; [exact (proj1 (C _) A1)|].
  split; [exact (proj1 (proj2 (C _)) A2)|].
  split; [exact (proj1 (proj2 (proj2 (C _))) A3)|].
  split; [exact (proj2 (proj2 (proj2 (C _))) A4)|].
  assert (E : openai w = OpenAIRejected) by reflexivity.
  assert (G : get (body req) "exerciseIndex" = Ok (VNum (num 3)))
    by (vm_compute; reflexivity).
  assert (I : GenerateStrict.index_rejected (VNum (num 3)) = false)
    by reflexivity.
  exact (proj2 (proj2 (proj2 (R E))) (num 3) G I).
Defined.



(** ** The evaluateAnswer handlers *)

Lemma str_eqb_refl a : str_eqb a a = true.
Proof. now apply str_eqb_eq. Qed.

Lemma required_text_unusable v : required_text v = None <-> unusable v.
Proof.
  unfold required_text, unusable. destruct v; simpl; try tauto.
  - destruct b; simpl; tauto.
  - destruct (negb _); tauto.
  - destruct s; simpl; [tauto|]. destruct (trim (n :: s)); split; congruence.
Qed.

Lemma get_default_defined v k x k' d :
  get v k = Ok x -> exists y, get_default v k' d = Ok y.
Proof.
  intros H. destruct (get_defined _ _ _ k' H) as [y E].
  unfold get_default. rewrite E. cbn. destruct y; eauto.
Qed.

Lemma read_request_unusable key req st img ix idx :
  method req = utf16 "POST" ->
  get (body req) "statement" = Ok st ->
  get (body req) "imageUrl" = Ok img ->
  get (body req) "exerciseIndex" = Ok ix ->
  sanitizeExerciseIndex ix = Ok idx ->
  unusable st \/ unusable img \/ env_missing key = true ->
  read_request key req = ([], Ok (inl (fallback idx))).
Proof.
  intros Hm Hs Hi Hx Hz H. unfold read_request.
  rewrite Hm, str_eqb_refl. cbn [negb]. run. rewrite Hs.
  destruct (get_default_defined _ _ _ "userAnswer" (VStr []) Hs) as [ua ->].
  rewrite Hi.
  destruct (get_default_defined _ _ _ "subtopicName" (VStr (utf16 "Derivadas")) Hs)
    as [sn ->].
  destruct (get_default_defined _ _ _ "difficulty" (VStr (utf16 "medium")) Hs)
    as [df ->].
  rewrite Hx, Hz. cbn.
  destruct (required_text st) eqn:Es; [|reflexivity].
  destruct (required_text img) eqn:Ei; [|reflexivity].
  destruct H as [H|[H|H]].
  - apply required_text_unusable in H. congruence.
  - apply required_text_unusable in H. congruence.
  - now rewrite H.
Qed.

(** Where the handler gets as far as the checks of lines 71-84, that is,
    where the fields of the body can be read and the sanitizer returns on
    the index: a POST to evaluateAnswer whose statement or image URL is
    missing, not a string or blank, or for which the credential is absent,
    is answered at once with status 200 and the fallback record of the
    sanitized index.  The trace of external calls is empty, so neither the
    image fetch nor the completion service was reached.  All three
    variants. *)
Theorem unusable_request_falls_back_before_any_call
        (w : World) (req : Request) (st img ix : value) (idx : number) :
  method req = utf16 "POST" ->
  get (body req) "statement" = Ok st ->
  get (body req) "imageUrl" = Ok img ->
  get (body req) "exerciseIndex" = Ok ix ->
  sanitizeExerciseIndex ix = Ok idx ->
  (unusable st \/ unusable img \/ env_missing (GEMINI_API_KEY w) = true ->
   EvaluateGemini.handler w req = ([], Ok (fallback idx))
   /\ EvaluateGenAI.handler w req = ([], Ok (fallback idx)))
  /\ (unusable st \/ unusable img \/ env_missing (OPENAI_API_KEY w) = true ->
      EvaluateOpenAI.handler w req = ([], Ok (fallback idx))).
Proof.
  intros Hm Hs Hi Hx Hz. split; intros H.
  - pose proof (read_request_unusable (GEMINI_API_KEY w) req _ _ _ _ Hm Hs Hi Hx Hz H) as E.
    unfold EvaluateGemini.handler, EvaluateGenAI.handler. rewrite E. now run.
  - pose proof (read_request_unusable (OPENAI_API_KEY w) req _ _ _ _ Hm Hs Hi Hx Hz H) as E.
    unfold EvaluateOpenAI.handler. rewrite E. now run.
Qed.

(** An instance: a request without image URL. *)
Lemma unusable_request_witness :
  let w := Sample.world GeminiRejected OpenAIRejected in
  let req := Sample.post "{'statement':'Deriva f(x) = x^2.','exerciseIndex':2}" in
  EvaluateGemini.handler w req = ([], Ok (fallback (num 2)))
  /\ EvaluateGenAI.handler w req = ([], Ok (fallback (num 2)))
  /\ EvaluateOpenAI.handler w req = ([], Ok (fallback (num 2))).
Proof.
  intros w req.
  assert (Hm : method req = utf16 "POST") by reflexivity.
  assert (Hs : get (body req) "statement" = Ok (VStr (utf16 "Deriva f(x) = x^2.")))
    by (vm_compute; reflexivity).
  assert (Hi : get (body req) "imageUrl" = Ok VUndefined)
    by (vm_compute; reflexivity).
  assert (Hx : get (body req) "exerciseIndex" = Ok (VNum (num 2)))
    by (vm_compute; reflexivity).
  assert (Hz : sanitizeExerciseIndex (VNum (num 2)) = Ok (num 2))
    by (vm_compute; reflexivity).
  destruct (unusable_request_falls_back_before_any_call w req _ _ _ _ Hm Hs Hi Hx Hz)
    as [H1 H2].
  assert (U : unusable VUndefined) by exact I.
  destruct (H1 (or_intror (or_introl U))) as [A B].
  split; [exact A|]. split; [exact B|].
  exact (H2 (or_intror (or_introl U))).
Defined.

(** C7 (error handling, not met by the code).  The claim: every POST to
    evaluateAnswer whose statement or image URL is missing, or whose
    credential is absent, is answered at once with status 200 and the
    fallback record of the sanitized index.  The handler reads the fields of
    the body (lines 61-67) and sanitizes the index (line 69) before the
    checks of lines 71-84, and outside every [try]: on a POST without
    statement and image URL whose [exerciseIndex] is an object with a member
    [toString], the comparison inside the sanitizer throws, and on a POST
    whose body is [null] the destructuring throws.  In both cases the run
    ends in an uncaught exception with no response sent, in all three
    variants, whatever the credentials. *)
Theorem unusable_request_can_end_in_an_exception :
  (let req := Sample.post "{'exerciseIndex':{'toString':1}}" in
   get (body req) "statement" = Ok VUndefined
   /\ get (body req) "imageUrl" = Ok VUndefined
   /\ get (body req) "exerciseIndex" = Ok (VObj [(utf16 "toString", VNum (num 1))])
   /\ sanitizeExerciseIndex (VObj [(utf16 "toString", VNum (num 1))]) = Throw
   /\ forall w,
        EvaluateGemini.handler w req = ([], Throw)
        /\ EvaluateOpenAI.handler w req = ([], Throw)
        /\ EvaluateGenAI.handler w req = ([], Throw))
  /\ (let req := {| method := utf16 "POST"; body := VNull |} in
      get (body req) "statement" = Throw
      /\ forall w,
           EvaluateGemini.handler w req = ([], Throw)
           /\ EvaluateOpenAI.handler w req = ([], Throw)
           /\ EvaluateGenAI.handler w req = ([], Throw)).
Proof.
  split.
  - intros req. repeat split; vm_compute; reflexivity.
  - intros req. repeat split; reflexivity.
Qed.

(** *** From a checked request to the reply *)

Lemma gemini_reads w req c bytes text :
  ready (GEMINI_API_KEY w) w req c bytes ->
  bytes <> [] ->
  gemini w = GeminiText text ->
  EvaluateGemini.handler w req
  = (calls c, Ok (or_fallback c (EvaluateGemini.read_reply (exerciseIndex c) text))).
Proof.
  intros (R & D & B) Hb G. unfold EvaluateGemini.handler.
  rewrite R. unfold bind at 1. cbn beta iota zeta. rewrite D.
  unfold try_bind at 1. cbn beta iota zeta.
  destruct bytes as [|b bs]; [easy|]. rewrite B, G. run.
  unfold calls, or_fallback.
  destruct (EvaluateGemini.read_reply (exerciseIndex c) text); reflexivity.
Qed.


Lemma openai_reads w req c bytes content :
  ready (OPENAI_API_KEY w) w req c bytes ->
  openai w = OpenAIContent content ->
  EvaluateOpenAI.handler w req
  = (calls c, Ok (or_fallback c (EvaluateOpenAI.read_reply (exerciseIndex c) content))).
Proof.
  intros (R & D & B) G. unfold EvaluateOpenAI.handler.
  rewrite R. unfold bind at 1. cbn beta iota zeta. rewrite D.
  unfold try_bind at 1. cbn beta iota zeta. rewrite B, G. run.
  unfold calls, or_fallback.
  destruct (EvaluateOpenAI.read_reply (exerciseIndex c) content); reflexivity.
Qed.

(** *** Rounding and clamping *)

Lemma num_compare_num a b : num_compare (num a) (num b) = Some (a ?= b)%Z.
Proof. unfold num_compare, num. now rewrite Qcompare_inject_Z. Qed.

Lemma clamp_round q :
  Math_max (num 0) (Math_min (num 100) (Math_round (Fin q))) = num (clamp_score q).
Proof.
  unfold clamp_score, Math_round. set (z := Qfloor (q + (1 # 2))).
  unfold Math_min. rewrite num_compare_num.
  destruct (Z.compare_spec 100 z) as [E|E|E]; unfold Math_max;
    rewrite num_compare_num.
  - subst z. rewrite <- E. reflexivity.
  - rewrite Z.min_l by lia. reflexivity.
  - rewrite Z.min_r by lia.
    destruct (Z.compare_spec 0 z) as [E'|E'|E'].
    + now rewrite <- E'.
    + now rewrite Z.max_r by lia.
    + now rewrite Z.max_l by lia.
Qed.

Lemma clamp_score_range q : (0 <= clamp_score q <= 100)%Z.
Proof. unfold clamp_score. lia. Qed.

Lemma nonblank_string_text fb :
  trim fb <> [] -> nonblank_string (VStr fb) = Some fb.
Proof.
  unfold nonblank_string. destruct (trim fb); [easy|reflexivity].
Qed.


Lemma validate_rounding_valid idx parsed label sv q fb :
  get parsed "result" = Ok (VStr label) ->
  allowed_result label ->
  get parsed "score" = Ok sv ->
  ToNumber sv = Ok (Fin q) ->
  get parsed "feedbackSummary" = Ok (VStr fb) ->
  trim fb <> [] ->
  validate_rounding idx parsed
  = Ok (respond 200 (Evaluation {| result := label;
                                   score := num (clamp_score q);
                                   feedbackSummary := trim fb |})).
Proof.
  intros Hr Ha Hs Hn Hf Ht. unfold validate_rounding.
  rewrite Hr, Hs. cbn. rewrite Hn. cbn. rewrite Hf. cbn.
  apply includes_str_In in Ha. rewrite Ha. cbn.
  now rewrite (nonblank_string_text _ Ht), clamp_round.
Qed.



Lemma num_le_Fin (x y : Q) : num_le (Fin x) (Fin y) = true <-> (x <= y)%Q.
Proof.
  unfold num_le, num_compare. rewrite Qle_alt.
  destruct (x ?= y)%Q; split; congruence.
Qed.

Lemma num_le_Fin_false (x y : Q) : num_le (Fin x) (Fin y) = false <-> (y < x)%Q.
Proof.
  rewrite <- Bool.not_true_iff_false, num_le_Fin. split.
  - apply Qnot_le_lt.
  - apply Qlt_not_le.
Qed.

Lemma validate_strict_valid idx parsed label q fb :
  get parsed "result" = Ok (VStr label) ->
  allowed_result label ->
  get parsed "score" = Ok (VNum (Fin q)) ->
  get parsed "feedbackSummary" = Ok (VStr fb) ->
  fb <> [] ->
  ((0 <= q)%Q /\ (q <= 100)%Q ->
   EvaluateOpenAI.validate_strict idx parsed
   = Ok (respond 200 (Evaluation {| result := label;
                                    score := Fin q;
                                    feedbackSummary := fb |})))
  /\ ((q < 0)%Q \/ (100 < q)%Q ->
      EvaluateOpenAI.validate_strict idx parsed = Ok (fallback idx)).
Proof.
  intros Hr Ha Hs Hf Hn. unfold EvaluateOpenAI.validate_strict.
  rewrite Hr, Hs, Hf. cbn [exc_bind].
  apply includes_str_In in Ha. rewrite Ha.
  cbn [andb Number_isFinite Number_isFinite_num].
  unfold num_ge. change (num 0) with (Fin 0). change (num 100) with (Fin 100).
  split.
  - intros [H0 H1]. apply num_le_Fin in H0, H1. rewrite H0, H1. cbn [andb].
    destruct fb; [easy|reflexivity].
  - intros [H|H].
    + apply num_le_Fin_false in H. now rewrite H.
    + apply num_le_Fin_false in H. rewrite H. now rewrite Bool.andb_false_r.
Qed.

Lemma gemini_valid w req c bytes text parsed label sv q fb :
  ready (GEMINI_API_KEY w) w req c bytes ->
  bytes <> [] ->
  gemini w = GeminiText text ->
  text <> [] ->
  JSON_parse (EvaluateGemini.clean text) = Some parsed ->
  get parsed "result" = Ok (VStr label) ->
  allowed_result label ->
  get parsed "score" = Ok sv ->
  ToNumber sv = Ok (Fin q) ->
  get parsed "feedbackSummary" = Ok (VStr fb) ->
  trim fb <> [] ->
  EvaluateGemini.handler w req
  = (calls c, Ok (respond 200 (Evaluation {| result := label;
                                             score := num (clamp_score q);
                                             feedbackSummary := trim fb |}))).
Proof.
  intros R Hy G Ht J Hr Ha Hs Hn Hf Hb. rewrite (gemini_reads _ _ _ _ _ R Hy G).
  unfold EvaluateGemini.read_reply. destruct text; [easy|]. rewrite J.
  now rewrite (validate_rounding_valid _ _ _ _ _ _ Hr Ha Hs Hn Hf Hb).
Qed.

(** C4 (functional correctness), as amended.  For a reply that parses and
    holds an allowed result and a feedback string: the first Gemini variant
    (lines 229-251) coerces the score with [Number], and when it is finite
    and the feedback is not blank answers with the result, the score rounded
    to the nearest integer (ties upwards) and clamped into [0,100], and the
    trimmed feedback; the OpenAI variant (lines 434-453) answers with the
    fields as they are when the score is a number inside [0,100] and the
    feedback is not empty, and with the fallback record when the score lies
    outside [0,100]. *)
Theorem valid_reply_is_returned
        (w : World) (req : Request) (c : checked) (bytes : list N)
        (text : jsstring) (parsed : value) (label fb : jsstring) :
  text <> [] ->
  get parsed "result" = Ok (VStr label) ->
  allowed_result label ->
  get parsed "feedbackSummary" = Ok (VStr fb) ->
  (* the first Gemini variant: the score is coerced, rounded and clamped,
     the feedback trimmed *)
  (forall sv q,
     ready (GEMINI_API_KEY w) w req c bytes ->
     gemini w = GeminiText text ->
     get parsed "score" = Ok sv ->
     ToNumber sv = Ok (Fin q) ->
     trim fb <> [] ->
     let answer :=
       respond 200 (Evaluation {| result := label;
                                  score := num (clamp_score q);
                                  feedbackSummary := trim fb |}) in
     (0 <= clamp_score q <= 100)%Z
     /\ (bytes <> [] ->
         JSON_parse (EvaluateGemini.clean text) = Some parsed ->
         EvaluateGemini.handler w req = (calls c, Ok answer)))
  (* the OpenAI variant: a number inside [0,100] is returned as it is, the
     feedback as it is; a number outside is refused *)
  /\ (forall q,
        ready (OPENAI_API_KEY w) w req c bytes ->
        openai w = OpenAIContent (Some text) ->
        JSON_parse text = Some parsed ->
        get parsed "score" = Ok (VNum (Fin q)) ->
        fb <> [] ->
        ((0 <= q)%Q /\ (q <= 100)%Q ->
         EvaluateOpenAI.handler w req
         = (calls c, Ok (respond 200 (Evaluation {| result := label;
                                                    score := Fin q;
                                                    feedbackSummary := fb |}))))
        /\ ((q < 0)%Q \/ (100 < q)%Q ->
            EvaluateOpenAI.handler w req
            = (calls c, Ok (fallback (exerciseIndex c))))).
Proof.
  intros Ht Hr Ha Hf. split.
  - intros sv q R G Hs Hn Hb answer. split; [apply clamp_score_range|].
    intros Hy J. eapply gemini_valid; eassumption.
  - intros q R G J Hs Hn.
    rewrite (openai_reads _ _ _ _ _ R G).
    unfold EvaluateOpenAI.read_reply. destruct text; [easy|]. rewrite J.
    destruct (validate_strict_valid (exerciseIndex c) _ _ _ _ Hr Ha Hs Hf Hn)
      as [V1 V2].
    split; intros H.
    + now rewrite (V1 H).
    + now rewrite (V2 H).
Qed.

Lemma sample_is_ready (g : gemini_reply) (o : openai_reply) :
  ready (Some (utf16 "key")) (Sample.world g o)
    SampleEvaluation.request SampleEvaluation.fields SampleEvaluation.image.
Proof. split; [|split]; vm_compute; reflexivity. Defined.

(** An instance of C4 as amended: the score 84.5. *)
Lemma valid_reply_witness :
  let text := json_text "{'result':'partial','score':84.5,'feedbackSummary':' ok '}" in
  let w := Sample.world (GeminiText text) (OpenAIContent (Some text)) in
  let rounded :=
    respond 200 (Evaluation {| result := utf16 "partial";
                               score := num 85;
                               feedbackSummary := utf16 "ok" |}) in
  let verbatim :=
    respond 200 (Evaluation {| result := utf16 "partial";
                               score := Fin (169 # 2);
                               feedbackSummary := utf16 " ok " |}) in
  EvaluateGemini.handler w SampleEvaluation.request
  = (calls SampleEvaluation.fields, Ok rounded)
  /\ EvaluateOpenAI.handler w SampleEvaluation.request
     = (calls SampleEvaluation.fields, Ok verbatim).
Proof.
  intros text w rounded verbatim.
  pose (parsed := VObj [(utf16 "result", VStr (utf16 "partial"));
                        (utf16 "score", VNum (Fin (169 # 2)));
                        (utf16 "feedbackSummary", VStr (utf16 " ok "))]).
  assert (Ht : text <> []) by (vm_compute; discriminate).
  assert (Hr : get parsed "result" = Ok (VStr (utf16 "partial")))
    by (vm_compute; reflexivity).
  assert (Ha : allowed_result (utf16 "partial"))
    by (apply in_map; simpl; tauto).
  assert (Hf : get parsed "feedbackSummary" = Ok (VStr (utf16 " ok ")))
    by (vm_compute; reflexivity).
  destruct (valid_reply_is_returned w SampleEvaluation.request
              SampleEvaluation.fields SampleEvaluation.image
              text parsed (utf16 "partial") (utf16 " ok ") Ht Hr Ha Hf)
    as [G O].
  assert (Hs : get parsed "score" = Ok (VNum (Fin (169 # 2))))
    by (vm_compute; reflexivity).
  assert (Hn : ToNumber (VNum (Fin (169 # 2))) = Ok (Fin (169 # 2)))
    by reflexivity.
  assert (Hb : trim (utf16 " ok ") <> []) by (vm_compute; discriminate).
  assert (Hy : SampleEvaluation.image <> []) by discriminate.
  assert (J1 : JSON_parse (EvaluateGemini.clean text) = Some parsed)
    by (vm_compute; reflexivity).
  assert (J2 : JSON_parse text = Some parsed) by (vm_compute; reflexivity).
  assert (Hn' : utf16 " ok " <> []) by (vm_compute; discriminate).
  assert (Hq : (0 <= 169 # 2)%Q /\ (169 # 2 <= 100)%Q)
    by (split; vm_compute; discriminate).
  destruct (G _ _ (sample_is_ready _ _) eq_refl Hs Hn Hb) as (_ & G1).
  destruct (O _ (sample_is_ready _ _) eq_refl J2 Hs Hn') as (O1 & _).
  split; [exact (G1 Hy J1)|exact (O1 Hq)].
Defined.

(** C4, refuted as stated: the OpenAI variant refuses a valid reply whose
    score lies above 100 instead of clamping it. *)
Lemma openai_variant_refuses_score_150 :
  let text := json_text "{'result':'partial','score':150,'feedbackSummary':'ok'}" in
  let w := Sample.world GeminiRejected (OpenAIContent (Some text)) in
  let clamped :=
    respond 200 (Evaluation {| result := utf16 "partial";
                               score := num 100;
                               feedbackSummary := utf16 "ok" |}) in
  JSON_parse text = Some (VObj [(utf16 "result", VStr (utf16 "partial"));
                                (utf16 "score", VNum (num 150));
                                (utf16 "feedbackSummary", VStr (utf16 "ok"))])
  /\ EvaluateOpenAI.handler w SampleEvaluation.request
     = (calls SampleEvaluation.fields, Ok (fallback (num 2)))
  /\ fallback (num 2) <> clamped.
Proof.
  intros text w clamped. split; [|split].
  - vm_compute. reflexivity.
  - vm_compute. reflexivity.
  - intros E. vm_compute in E. discriminate E.
Qed.

(** *** A reply with one bad field, in generateExercise *)

Lemma allowed_type_truthy ty : allowed_type ty -> truthy (VStr ty) = true.
Proof.
  unfold allowed_type. intros H. apply in_map_iff in H as (a & <- & Ha).
  simpl in Ha. decompose [or] Ha; subst; try reflexivity. easy.
Qed.









(** ** Code fences (the first Gemini variant) *)

Lemma dropWhile_all p l r :
  forallb p l = true -> dropWhile p (l ++ r) = dropWhile p r.
Proof.
  induction l as [|x l IH]; simpl; [easy|].
  intros H. apply andb_prop in H as [Hx Hl]. rewrite Hx. now apply IH.
Qed.

Lemma dropWhile_head p c r : p c = false -> dropWhile p (c :: r) = c :: r.
Proof. intros H. simpl. now rewrite H. Qed.

Lemma forallb_rev {A} (p : A -> bool) l : forallb p (rev l) = forallb p l.
Proof.
  induction l as [|x l IH]; simpl; [easy|].
  rewrite forallb_app, IH. simpl. now rewrite Bool.andb_true_r, Bool.andb_comm.
Qed.

Lemma ws_not_letter c : is_ws c = true -> is_ascii_letter c = false.
Proof.
  unfold is_ws, is_ascii_letter. intros H.
  apply Bool.not_true_iff_false. intros L.
  repeat rewrite ?Bool.orb_true_iff, ?Bool.andb_true_iff, ?N.leb_le, ?N.eqb_eq in H.
  repeat rewrite ?Bool.orb_true_iff, ?Bool.andb_true_iff, ?N.leb_le, ?N.eqb_eq in L.
  lia.
Qed.

Lemma trim_trailing a m b ws :
  is_ws a = false -> is_ws b = false -> forallb is_ws ws = true ->
  trim ((a :: m ++ [b]) ++ ws) = a :: m ++ [b].
Proof.
  intros Ha Hb Hw. unfold trim, trimStart, trimEnd.
  change ((a :: m ++ [b]) ++ ws) with (a :: ((m ++ [b]) ++ ws)).
  rewrite (dropWhile_head _ _ _ Ha).
  change (a :: ((m ++ [b]) ++ ws)) with ((a :: m ++ [b]) ++ ws).
  rewrite rev_app_distr, dropWhile_all by now rewrite forallb_rev.
  change (a :: m ++ [b]) with ((a :: m) ++ [b]).
  rewrite (rev_app_distr (a :: m) [b]).
  change (rev [b] ++ rev (a :: m)) with (b :: rev (a :: m)).
  rewrite (dropWhile_head _ _ _ Hb).
  change (rev (b :: rev (a :: m))) with (rev (rev (a :: m)) ++ [b]).
  now rewrite rev_involutive.
Qed.

Lemma trim_bounded a m b :
  is_ws a = false -> is_ws b = false ->
  trim (a :: m ++ [b]) = a :: m ++ [b].
Proof.
  intros Ha Hb. rewrite <- (app_nil_r (a :: m ++ [b])) at 1.
  now apply trim_trailing.
Qed.

Lemma lastIndexOf_last s c i best :
  lastIndexOf_from (s ++ [c]) [c] i best = (i + Z.of_nat (List.length s))%Z.
Proof.
  revert i best. induction s as [|x s IH]; intros i best.
  - simpl. rewrite N.eqb_refl. simpl. lia.
  - cbn [app lastIndexOf_from]. rewrite IH. cbn [List.length]. lia.
Qed.

Lemma firstn_app_exact {A} (x y : list A) :
  firstn (List.length (x ++ y) - List.length y) (x ++ y) = x.
Proof.
  rewrite length_app, Nat.add_sub. rewrite firstn_app, Nat.sub_diag.
  rewrite firstn_all. simpl. apply app_nil_r.
Qed.

Lemma slice_whole s : slice s 0 (Z.of_nat (List.length s)) = s.
Proof.
  unfold slice. cbn [Z.ltb Z.compare].
  destruct (Z.of_nat (List.length s) <? 0)%Z eqn:E; [apply Z.ltb_lt in E; lia|].
  rewrite Z.min_id, (Z.min_l 0) by lia. rewrite Z.sub_0_r, Nat2Z.id.
  cbn [Z.to_nat skipn]. apply firstn_all.
Qed.

Lemma clean_unfold text :
  EvaluateGemini.clean text
  = between_braces
      (if startsWith (trim text) (utf16 "```")
       then trim (EvaluateGemini.replace_closing_fence
                    (EvaluateGemini.replace_opening_fence (trim text)))
       else trim text).
Proof. reflexivity. Qed.

Lemma between_braces_object inner : between_braces (braces inner) = braces inner.
Proof.
  unfold between_braces, braces.
  change (utf16 "{") with [123%N]. change (utf16 "}") with [125%N].
  change ([123%N] ++ inner ++ [125%N]) with (123%N :: inner ++ [125%N]).
  unfold indexOf, lastIndexOf. cbn [indexOf_from startsWith N.eqb Pos.eqb andb].
  change (123%N :: inner ++ [125%N]) with ((123%N :: inner) ++ [125%N]).
  rewrite lastIndexOf_last.
  change ((123%N :: inner) ++ [125%N]) with (123%N :: inner ++ [125%N]).
  cbn [Z.eqb negb andb Z.add].
  replace (0 <? Z.of_nat (List.length (123%N :: inner)))%Z with true
    by (symmetry; apply Z.ltb_lt; cbn [List.length]; lia).
  replace (Z.of_nat (List.length (123%N :: inner)) =? -1)%Z with false
    by (symmetry; apply Z.eqb_neq; lia).
  cbn [negb andb].
  replace (Z.of_nat (List.length (123%N :: inner)) + 1)%Z
    with (Z.of_nat (List.length (123%N :: inner ++ [125%N]))).
  - apply slice_whole.
  - cbn [List.length]. rewrite length_app. cbn [List.length]. lia.
Qed.

Lemma clean_braces inner : EvaluateGemini.clean (braces inner) = braces inner.
Proof.
  rewrite clean_unfold.
  assert (T : trim (braces inner) = braces inner)
    by (apply (trim_bounded 123 inner 125); reflexivity).
  rewrite T.
  change (startsWith (braces inner) (utf16 "```")) with false.
  apply between_braces_object.
Qed.

Lemma startsWith_app p r : startsWith (p ++ r) p = true.
Proof.
  induction p as [|x p IH]; simpl; [easy|]. now rewrite N.eqb_refl.
Qed.

Lemma trim_fixed s :
  dropWhile is_ws s = s -> dropWhile is_ws (rev s) = rev s -> trim s = s.
Proof.
  intros H1 H2. unfold trim, trimStart, trimEnd.
  now rewrite H1, H2, rev_involutive.
Qed.

Lemma clean_fence tag ws1 ws2 inner :
  forallb is_ascii_letter tag = true ->
  forallb is_ws ws1 = true ->
  forallb is_ws ws2 = true ->
  EvaluateGemini.clean (fence tag ws1 (braces inner) ws2) = braces inner.
Proof.
  intros Ht H1 H2. rewrite clean_unfold.
  set (B := braces inner).
  assert (HB : B = 123%N :: inner ++ [125%N]) by reflexivity.
  set (T := utf16 "```").
  assert (HT : T = [96%N; 96%N; 96%N]) by reflexivity.
  assert (F : trim (fence tag ws1 B ws2) = fence tag ws1 B ws2).
  { apply trim_fixed; unfold fence; fold T.
    - now rewrite HT.
    - rewrite !rev_app_distr, <- !app_assoc. now rewrite HT. }
  rewrite F.
  assert (S : startsWith (fence tag ws1 B ws2) T = true)
    by (unfold fence; apply startsWith_app).
  rewrite S.
  assert (O : EvaluateGemini.replace_opening_fence (fence tag ws1 B ws2)
              = B ++ ws2 ++ T).
  { unfold EvaluateGemini.replace_opening_fence. fold T. rewrite S.
    unfold fence. fold T. rewrite HT at 1. cbn [app skipn].
    rewrite (dropWhile_all _ _ _ Ht).
    assert (L : dropWhile is_ascii_letter (ws1 ++ B ++ ws2 ++ T)
                = ws1 ++ B ++ ws2 ++ T).
    { destruct ws1 as [|c ws1]; [now rewrite HB|].
      cbn [app]. apply dropWhile_head. apply ws_not_letter.
      simpl in H1. now apply andb_prop in H1 as [H1 _]. }
    rewrite L, (dropWhile_all _ _ _ H1). now rewrite HB. }
  rewrite O.
  assert (C : EvaluateGemini.replace_closing_fence (B ++ ws2 ++ T) = B ++ ws2).
  { unfold EvaluateGemini.replace_closing_fence. fold T.
    rewrite app_assoc. unfold endsWith.
    rewrite rev_app_distr, startsWith_app.
    change 3%nat with (List.length T). apply firstn_app_exact. }
  rewrite C.
  assert (E : trim (B ++ ws2) = B).
  { rewrite HB. now apply trim_trailing. }
  rewrite E. apply between_braces_object.
Qed.

Lemma ready_with_gemini key w g req c bytes :
  ready key w req c bytes -> ready key (with_gemini w g) req c bytes.
Proof. intros (R & D & B). now repeat split. Qed.

Lemma fence_nonempty tag ws1 object ws2 : fence tag ws1 object ws2 <> [].
Proof. unfold fence. change (utf16 "```") with [96%N; 96%N; 96%N]. discriminate. Qed.

Lemma braces_nonempty inner : braces inner <> [].
Proof. unfold braces. change (utf16 "{") with [123%N]. discriminate. Qed.

Lemma read_reply_fence idx tag ws1 ws2 inner :
  forallb is_ascii_letter tag = true ->
  forallb is_ws ws1 = true ->
  forallb is_ws ws2 = true ->
  EvaluateGemini.read_reply idx (fence tag ws1 (braces inner) ws2)
  = EvaluateGemini.read_reply idx (braces inner).
Proof.
  intros Ht H1 H2. unfold EvaluateGemini.read_reply.
  rewrite (clean_fence _ _ _ _ Ht H1 H2), clean_braces.
  pose proof (fence_nonempty tag ws1 (braces inner) ws2) as F.
  pose proof (braces_nonempty inner) as B.
  destruct (fence tag ws1 (braces inner) ws2); [easy|].
  destruct (braces inner); [easy|reflexivity].
Qed.

Lemma gemini_handler_reply w req t1 t2 :
  (forall idx, EvaluateGemini.read_reply idx t1 = EvaluateGemini.read_reply idx t2) ->
  EvaluateGemini.handler (with_gemini w (GeminiText t1)) req
  = EvaluateGemini.handler (with_gemini w (GeminiText t2)) req.
Proof.
  intros H. unfold EvaluateGemini.handler.
  cbn [GEMINI_API_KEY gemini with_gemini].
  destruct (read_request (GEMINI_API_KEY w) req) as [t [[r|c]|]]; try reflexivity.
  unfold bind at 1 3. cbn beta iota zeta.
  change (download (with_gemini w (GeminiText t1)) (imageUrl c))
    with (download w (imageUrl c)).
  change (download (with_gemini w (GeminiText t2)) (imageUrl c))
    with (download w (imageUrl c)).
  now rewrite (H (exerciseIndex c)).
Qed.

(** C6 (algebraic), as amended.  In the evaluateAnswer variant that cleans
    the reply (the one on [@google/generative-ai]), an object wrapped in a
    code fence (three backquotes, an optional tag of letters, white space,
    the object, white space, three backquotes) is cleaned to the object
    itself, as the bare object is; the handler answers both alike, and when
    the object is valid with the score given as the string "85" the answer
    carries the score 85. *)
Theorem fenced_object_reads_like_the_bare_object
        (w : World) (req : Request) (tag ws1 ws2 inner : jsstring) :
  forallb is_ascii_letter tag = true ->
  forallb is_ws ws1 = true ->
  forallb is_ws ws2 = true ->
  let object := braces inner in
  let fenced := fence tag ws1 object ws2 in
  EvaluateGemini.clean fenced = object
  /\ EvaluateGemini.clean object = object
  /\ EvaluateGemini.handler (with_gemini w (GeminiText fenced)) req
     = EvaluateGemini.handler (with_gemini w (GeminiText object)) req
  /\ (forall c bytes parsed label fb,
        ready (GEMINI_API_KEY w) w req c bytes ->
        bytes <> [] ->
        JSON_parse object = Some parsed ->
        get parsed "result" = Ok (VStr label) ->
        allowed_result label ->
        get parsed "score" = Ok (VStr (utf16 "85")) ->
        get parsed "feedbackSummary" = Ok (VStr fb) ->
        trim fb <> [] ->
        EvaluateGemini.handler (with_gemini w (GeminiText fenced)) req
        = (calls c,
           Ok (respond 200 (Evaluation {| result := label;
                                          score := num 85;
                                          feedbackSummary := trim fb |})))).
Proof.
  intros Ht H1 H2 object fenced.
  pose proof (clean_fence _ _ _ inner Ht H1 H2) as Cf.
  pose proof (clean_braces inner) as Cb.
  split; [exact Cf|]. split; [exact Cb|]. split.
  - apply gemini_handler_reply. intros idx. now apply read_reply_fence.
  - intros c bytes parsed label fb R Hy J Hr Ha Hs Hf Hb.
    assert (N : ToNumber (VStr (utf16 "85")) = Ok (Fin 85))
      by (vm_compute; reflexivity).
    assert (J' : JSON_parse (EvaluateGemini.clean fenced) = Some parsed)
      by (unfold fenced, object; now rewrite Cf).
    exact (gemini_valid (with_gemini w (GeminiText fenced)) req c bytes
             fenced parsed label (VStr (utf16 "85")) 85 fb
             (ready_with_gemini _ _ _ _ _ _ R) Hy eq_refl
             (fence_nonempty _ _ _ _) J' Hr Ha Hs N Hf Hb).
Qed.

(** An instance of C6 as amended: the fence of the specification. *)
Lemma fenced_object_witness :
  let inner := json_text "'result':'partial','score':'85','feedbackSummary':'ok'" in
  let fenced := fence (utf16 "json") [10%N] (braces inner) [10%N] in
  let w := Sample.world GeminiRejected OpenAIRejected in
  EvaluateGemini.clean fenced = braces inner
  /\ EvaluateGemini.handler (with_gemini w (GeminiText fenced)) SampleEvaluation.request
     = (calls SampleEvaluation.fields,
        Ok (respond 200 (Evaluation {| result := utf16 "partial";
                                       score := num 85;
                                       feedbackSummary := utf16 "ok" |}))).
Proof.
  intros inner fenced w.
  pose (parsed := VObj [(utf16 "result", VStr (utf16 "partial"));
                        (utf16 "score", VStr (utf16 "85"));
                        (utf16 "feedbackSummary", VStr (utf16 "ok"))]).
  assert (Ht : forallb is_ascii_letter (utf16 "json") = true) by reflexivity.
  assert (H1 : forallb is_ws [10%N] = true) by reflexivity.
  destruct (fenced_object_reads_like_the_bare_object w SampleEvaluation.request
              (utf16 "json") [10%N] [10%N] inner Ht H1 H1)
    as (C & _ & _ & V).
  split; [exact C|].
  assert (Hy : SampleEvaluation.image <> []) by discriminate.
  assert (J : JSON_parse (braces inner) = Some parsed) by (vm_compute; reflexivity).
  assert (Hr : get parsed "result" = Ok (VStr (utf16 "partial")))
    by (vm_compute; reflexivity).
  assert (Ha : allowed_result (utf16 "partial")) by (apply in_map; simpl; tauto).
  assert (Hs : get parsed "score" = Ok (VStr (utf16 "85")))
    by (vm_compute; reflexivity).
  assert (Hf : get parsed "feedbackSummary" = Ok (VStr (utf16 "ok")))
    by (vm_compute; reflexivity).
  assert (Hb : trim (utf16 "ok") <> []) by (vm_compute; discriminate).
  exact (V SampleEvaluation.fields SampleEvaluation.image parsed _ _
           (sample_is_ready _ _) Hy J Hr Ha Hs Hf Hb).
Defined.

(** C6, refuted as stated: the variant of lines 650-665 has no cleaning.
    The fenced reply is no JSON text; the statements that read the reply
    there (lines 651-690) answer the bare object with the score 85 and the
    fenced one with the fallback record, and the handler, whose
    [response.text()] throws before them, answers both with the fallback
    record.  The variant on OpenAI hands the reply to [JSON.parse] as it
    comes, too, and refuses a score that is a string. *)
Lemma only_one_variant_strips_the_fence :
  let inner := json_text "'result':'partial','score':'85','feedbackSummary':'ok'" in
  let object := braces inner in
  let fenced := fence (utf16 "json") [10%N] object [10%N] in
  let w g o := Sample.world g o in
  let graded :=
    respond 200 (Evaluation {| result := utf16 "partial";
                               score := num 85;
                               feedbackSummary := utf16 "ok" |}) in
  fenced = json_text ("```json" ++ LF ++
             "{'result':'partial','score':'85','feedbackSummary':'ok'}" ++ LF ++ "```")
  /\ JSON_parse fenced = None
  /\ EvaluateGenAI.read_reply (num 2) object = Ok graded
  /\ EvaluateGenAI.read_reply (num 2) fenced = Ok (fallback (num 2))
  /\ EvaluateGenAI.handler (w (GeminiText fenced) OpenAIRejected) SampleEvaluation.request
     = (calls SampleEvaluation.fields, Ok (fallback (num 2)))
  /\ EvaluateGenAI.handler (w (GeminiText object) OpenAIRejected) SampleEvaluation.request
     = (calls SampleEvaluation.fields, Ok (fallback (num 2)))
  /\ EvaluateOpenAI.handler (w GeminiRejected (OpenAIContent (Some fenced)))
       SampleEvaluation.request
     = (calls SampleEvaluation.fields, Ok (fallback (num 2)))
  /\ EvaluateOpenAI.handler (w GeminiRejected (OpenAIContent (Some object)))
       SampleEvaluation.request
     = (calls SampleEvaluation.fields, Ok (fallback (num 2)))
  /\ fallback (num 2) <> graded.
Proof.
  intros inner object fenced w graded.
  repeat match goal with |- _ /\ _ => split end.
  1-8: vm_compute; reflexivity.
  intros E. vm_compute in E. discriminate E.
Qed.

(** ** Every response evaluateAnswer does send is well formed *)

Lemma num_range z :
  (0 <= z <= 100)%Z ->
  exists q, num z = Fin q /\ (0 <= q)%Q /\ (q <= 100)%Q.
Proof.
  intros H. exists (inject_Z z). split; [reflexivity|].
  split; [change 0%Q with (inject_Z 0) | change 100%Q with (inject_Z 100)];
    rewrite <- Zle_Qle; lia.
Qed.

Lemma fallback_well_formed idx : well_formed_evaluation (fallback idx).
Proof.
  split; [reflexivity|]. eexists. split; [reflexivity|].
  unfold getFallbackEvaluation.
  repeat break_goal; cbn [result score feedbackSummary].
  all: split; [apply in_map; simpl; tauto|].
  all: split; [apply num_range; lia | cbv; discriminate].
Qed.

Lemma validate_rounding_well_formed idx parsed r :
  validate_rounding idx parsed = Ok r -> well_formed_evaluation r.
Proof.
  unfold validate_rounding, exc_bind.
  destruct (get parsed "result") as [rl|]; [|discriminate].
  destruct (get parsed "score") as [sv|]; [|discriminate].
  destruct (ToNumber sv) as [n|]; [|discriminate].
  destruct (get parsed "feedbackSummary") as [fv|]; [|discriminate].
  destruct (includes_str ALLOWED_RESULTS rl && Number_isFinite_num n) eqn:E.
  2:{ intros [= <-]. apply fallback_well_formed. }
  apply andb_prop in E as [Ei En].
  destruct rl; try (intros [= <-]; apply fallback_well_formed).
  destruct (nonblank_string fv) as [text|] eqn:Ef;
    [|intros [= <-]; apply fallback_well_formed].
  destruct n as [ | | |q]; try discriminate En.
  rewrite clamp_round. intros [= <-].
  split; [reflexivity|]. eexists. split; [reflexivity|].
  cbn [result score feedbackSummary]. split; [now apply includes_str_In|].
  split; [apply num_range, clamp_score_range|].
  now apply nonblank_string_Some in Ef.
Qed.

Lemma validate_strict_well_formed idx parsed r :
  EvaluateOpenAI.validate_strict idx parsed = Ok r -> well_formed_evaluation r.
Proof.
  unfold EvaluateOpenAI.validate_strict, exc_bind.
  destruct (get parsed "result") as [rl|]; [|discriminate].
  destruct (get parsed "score") as [sv|]; [|discriminate].
  destruct (get parsed "feedbackSummary") as [fv|]; [|discriminate].
  destruct rl; try (intros [= <-]; apply fallback_well_formed).
  destruct sv; try (intros [= <-]; apply fallback_well_formed).
  destruct fv; try (intros [= <-]; apply fallback_well_formed).
  match goal with |- (if ?b then _ else _) = _ -> _ => destruct b eqn:E end;
    [|intros [= <-]; apply fallback_well_formed].
  repeat (apply andb_prop in E as [E ?]).
  intros [= <-]. split; [reflexivity|]. eexists. split; [reflexivity|].
  cbn [result score feedbackSummary]. split; [now apply includes_str_In|].
  destruct n as [ | | |q]; try discriminate.
  split.
  - exists q. split; [reflexivity|]. split.
    + now apply (num_le_Fin 0 q).
    + now apply (num_le_Fin q 100).
  - destruct s0; [discriminate|discriminate].
Qed.

Lemma read_request_early key req t r :
  read_request key req = (t, Ok (inl r)) -> t = [] /\ evaluate_response r.
Proof.
  intros H. unfold read_request in H. run. crunch H.
  all: inversion H; subst; split; try reflexivity.
  all: try (now left).
  all: right; apply fallback_well_formed.
Qed.

Lemma or_fallback_well_formed c x :
  (forall r, x = Ok r -> well_formed_evaluation r) ->
  well_formed_evaluation (or_fallback c x).
Proof.
  intros H. destruct x; cbn; [now apply H | apply fallback_well_formed].
Qed.

Lemma evaluate_sends_well_formed w req t r :
  (EvaluateGemini.handler w req = (t, Ok r)
   \/ EvaluateOpenAI.handler w req = (t, Ok r)
   \/ EvaluateGenAI.handler w req = (t, Ok r)) ->
  evaluate_response r.
Proof.
  assert (G : forall idx text x, EvaluateGemini.read_reply idx text = Ok x ->
                                 well_formed_evaluation x).
  { intros idx text x. unfold EvaluateGemini.read_reply.
    destruct text; [intros [= <-]; apply fallback_well_formed|].
    destruct (JSON_parse _); [apply validate_rounding_well_formed|].
    intros [= <-]; apply fallback_well_formed. }
  assert (O : forall idx content x, EvaluateOpenAI.read_reply idx content = Ok x ->
                                    well_formed_evaluation x).
  { intros idx content x. unfold EvaluateOpenAI.read_reply.
    destruct content as [[|ch text]|]; try (intros [= <-]; apply fallback_well_formed).
    destruct (JSON_parse _); [apply validate_strict_well_formed|].
    intros [= <-]; apply fallback_well_formed. }
  unfold EvaluateGemini.handler, EvaluateOpenAI.handler, EvaluateGenAI.handler.
  intros [H|[H|H]].
  - destruct (read_request (GEMINI_API_KEY w) req) as [t0 [[r0|c]|]] eqn:R;
      [| |now run].
    { apply read_request_early in R as [-> R]. run. now inversion H; subst. }
    unfold download in H. run.
    destruct (fetch w (imageUrl c)) as [|[|] [[|b bs]|]]; cbn in H;
      try (inversion H; subst; right; apply fallback_well_formed).
    unfold build_prompts in H. run.
    destruct (ToString_throws (subtopicName c)); cbn in H; [discriminate|].
    destruct (ToString_throws (difficulty c)); cbn in H; [discriminate|].
    destruct (gemini w) as [|text]; cbn in H;
      [inversion H; subst; right; apply fallback_well_formed|].
    destruct (EvaluateGemini.read_reply (exerciseIndex c) text) eqn:E; cbn in H;
      inversion H; subst; right; [eapply G; eassumption|apply fallback_well_formed].
  - destruct (read_request (OPENAI_API_KEY w) req) as [t0 [[r0|c]|]] eqn:R;
      [| |now run].
    { apply read_request_early in R as [-> R]. run. now inversion H; subst. }
    unfold download in H. run.
    destruct (fetch w (imageUrl c)) as [|[|] [bytes|]]; cbn in H;
      try (inversion H; subst; right; apply fallback_well_formed).
    unfold build_prompts in H. run.
    destruct (ToString_throws (subtopicName c)); cbn in H; [discriminate|].
    destruct (ToString_throws (difficulty c)); cbn in H; [discriminate|].
    destruct (openai w) as [| |content]; cbn in H;
      try (inversion H; subst; right; apply fallback_well_formed).
    destruct (EvaluateOpenAI.read_reply (exerciseIndex c) content) eqn:E; cbn in H;
      inversion H; subst; right; [eapply O; eassumption|apply fallback_well_formed].
  - destruct (read_request (GEMINI_API_KEY w) req) as [t0 [[r0|c]|]] eqn:R;
      [| |now run].
    { apply read_request_early in R as [-> R]. run. now inversion H; subst. }
    unfold download in H. run.
    destruct (fetch w (imageUrl c)) as [|[|] [bytes|]]; cbn in H;
      try (inversion H; subst; right; apply fallback_well_formed).
    unfold build_prompts in H. run.
    destruct (ToString_throws (subtopicName c)); cbn in H; [discriminate|].
    destruct (ToString_throws (difficulty c)); cbn in H; [discriminate|].
    destruct (gemini w) as [|text]; cbn in H;
      inversion H; subst; right; apply fallback_well_formed.
Qed.

(* ===================================================================== *)
(** * Part VIII: further properties of the handlers *)
(* ===================================================================== *)

(** ** The method guard *)

(** X1 (error handling).  A request whose method is not POST is answered
    with status 405 before the body is looked at and without any external
    call, by all seven handlers: evaluateAnswer with the error text
    "Method not allowed", generateExercise with "Method Not Allowed" and the
    header [Allow: POST]. *)
Theorem other_methods_are_refused (w : World) (req : Request) :
  method req <> utf16 "POST" ->
  EvaluateGemini.handler w req = ([], Ok method_refused)
  /\ EvaluateOpenAI.handler w req = ([], Ok method_refused)
  /\ EvaluateGenAI.handler w req = ([], Ok method_refused)
  /\ GenerateContext.handler w req = ([], Ok method_not_allowed)
  /\ GenerateHint.handler w req = ([], Ok method_not_allowed)
  /\ GeneratePick.handler w req = ([], Ok method_not_allowed)
  /\ GenerateStrict.handler w req = ([], Ok method_not_allowed).
Proof.
  intros H.
  assert (E : str_eqb (method req) (utf16 "POST") = false).
  { apply Bool.not_true_iff_false. now rewrite str_eqb_eq. }
  assert (R : forall key, read_request key req = ([], Ok (inl method_refused))).
  { intros key. unfold read_request. now rewrite E. }
  unfold EvaluateGemini.handler, EvaluateOpenAI.handler, EvaluateGenAI.handler,
    GenerateContext.handler, GenerateHint.handler, GeneratePick.handler,
    GenerateStrict.handler, is_post.
  rewrite !R, E. repeat split.
Qed.

(** An instance of X1: a GET whose body is [null]. *)
Lemma other_methods_witness :
  let req := {| method := utf16 "GET"; body := VNull |} in
  let w := Sample.world GeminiRejected OpenAIRejected in
  EvaluateGemini.handler w req
  = ([], Ok method_refused)
  /\ GenerateStrict.handler w req = ([], Ok method_not_allowed).
Proof.
  intros req w.
  assert (H : method req <> utf16 "POST") by (vm_compute; discriminate).
  destruct (other_methods_are_refused w req H) as (A & _ & _ & _ & _ & _ & B).
  split; [exact A|exact B].
Defined.

(** ** evaluateAnswer: the head of the handler *)

Lemma required_text_Some v s : required_text v = Some s -> v = VStr s /\ trim s <> [].
Proof.
  unfold required_text. destruct (negb (truthy v)); [discriminate|].
  destruct v; try discriminate. destruct (trim s0) eqn:E; [discriminate|].
  intros [= <-]. split; [reflexivity|]. now rewrite E.
Qed.

Lemma read_request_trace key req : fst (read_request key req) = [].
Proof.
  unfold read_request. run. repeat break_goal; reflexivity.
Qed.

Lemma read_request_checked key req t c :
  read_request key req = (t, Ok (inr c)) ->
  t = []
  /\ get (body req) "imageUrl" = Ok (VStr (imageUrl c))
  /\ get (body req) "statement" = Ok (VStr (c_statement c))
  /\ (exists ix, get (body req) "exerciseIndex" = Ok ix
                 /\ sanitizeExerciseIndex ix = Ok (exerciseIndex c))
  /\ env_missing key = false.
Proof.
  intros H. unfold read_request in H. run. crunch H.
  inversion H; subst; clear H. cbn [imageUrl c_statement exerciseIndex].
  repeat match goal with
         | K : required_text _ = Some _ |- _ =>
             apply required_text_Some in K as [-> _]
         end.
  repeat split; try assumption; eauto.
Qed.

(** ** evaluateAnswer: the run after the head of the handler *)

Lemma gemini_normal_form w req c :
  read_request (GEMINI_API_KEY w) req = ([], Ok (inr c)) ->
  EvaluateGemini.handler w req
  = match fetch w (imageUrl c) with
    | FetchResponse true (Some (_ :: _)) =>
        after_download c
          (gemini_answer w (EvaluateGemini.read_reply (exerciseIndex c)))
    | _ => failed_download c
    end.
Proof.
  intros R. unfold EvaluateGemini.handler. rewrite R.
  unfold download, build_prompts, after_download, gemini_answer, failed_download,
    calls, or_fallback.
  run.
  destruct (fetch w (imageUrl c)) as [|[|] [[|b bs]|]]; cbn; try reflexivity.
  destruct (ToString_throws (subtopicName c)); cbn; [reflexivity|].
  destruct (ToString_throws (difficulty c)); cbn; [reflexivity|].
  destruct (gemini w) as [|text]; cbn; [reflexivity|].
  destruct (EvaluateGemini.read_reply (exerciseIndex c) text); reflexivity.
Qed.

(** In the variant on [@google/genai] the body of the [try] around the
    call always throws: the service rejects the call, or [response.text()]
    does. *)
Lemma genai_normal_form w req c :
  read_request (GEMINI_API_KEY w) req = ([], Ok (inr c)) ->
  EvaluateGenAI.handler w req
  = match fetch w (imageUrl c) with
    | FetchResponse true (Some _) => after_download c Throw
    | _ => failed_download c
    end.
Proof.
  intros R. unfold EvaluateGenAI.handler. rewrite R.
  unfold download, build_prompts, after_download, failed_download,
    calls, or_fallback.
  run.
  destruct (fetch w (imageUrl c)) as [|[|] [bytes|]]; cbn; try reflexivity.
  destruct (ToString_throws (subtopicName c)); cbn; [reflexivity|].
  destruct (ToString_throws (difficulty c)); cbn; [reflexivity|].
  destruct (gemini w) as [|text]; reflexivity.
Qed.

Lemma openai_normal_form w req c :
  read_request (OPENAI_API_KEY w) req = ([], Ok (inr c)) ->
  EvaluateOpenAI.handler w req
  = match fetch w (imageUrl c) with
    | FetchResponse true (Some _) =>
        after_download c
          (openai_answer w (EvaluateOpenAI.read_reply (exerciseIndex c)))
    | _ => failed_download c
    end.
Proof.
  intros R. unfold EvaluateOpenAI.handler. rewrite R.
  unfold download, build_prompts, after_download, openai_answer, failed_download,
    calls, or_fallback.
  run.
  destruct (fetch w (imageUrl c)) as [|[|] [bytes|]]; cbn; try reflexivity.
  destruct (ToString_throws (subtopicName c)); cbn; [reflexivity|].
  destruct (ToString_throws (difficulty c)); cbn; [reflexivity|].
  destruct (openai w) as [| |content]; try reflexivity.
  set (x := EvaluateOpenAI.read_reply (exerciseIndex c) content).
  destruct x; reflexivity.
Qed.

(** When the head of the handler does not hand over checked fields, the
    handler ends there. *)
Lemma evaluate_early w req :
  forall key (h : World -> Request -> M Response),
    (h = EvaluateGemini.handler /\ key = GEMINI_API_KEY w
     \/ h = EvaluateOpenAI.handler /\ key = OPENAI_API_KEY w
     \/ h = EvaluateGenAI.handler /\ key = GEMINI_API_KEY w) ->
    (forall r, read_request key req = ([], Ok (inl r)) -> h w req = ([], Ok r))
    /\ (read_request key req = ([], Throw) -> h w req = ([], Throw)).
Proof.
  intros key h [[-> ->]|[[-> ->]|[-> ->]]]; split.
  all: try (intros r R); try (intros R).
  all: unfold EvaluateGemini.handler, EvaluateOpenAI.handler, EvaluateGenAI.handler.
  all: rewrite R; reflexivity.
Qed.

(** ** [trim] leaves no white space at either end *)

Lemma dropWhile_idempotent p s : dropWhile p (dropWhile p s) = dropWhile p s.
Proof.
  induction s as [|x s IH]; [reflexivity|].
  simpl. destruct (p x) eqn:E; [exact IH|]. simpl. now rewrite E.
Qed.

Lemma dropWhile_stops p s :
  dropWhile p s = [] \/ exists x r, dropWhile p s = x :: r /\ p x = false.
Proof.
  induction s as [|x s IH]; [now left|].
  simpl. destruct (p x) eqn:E; [exact IH|]. right. now exists x, s.
Qed.

Lemma dropWhile_snoc p m x :
  p x = false -> dropWhile p (m ++ [x]) = dropWhile p m ++ [x].
Proof.
  intros H. induction m as [|y m IH]; simpl; [now rewrite H|].
  destruct (p y); [exact IH|reflexivity].
Qed.

Lemma trim_start_kept s : dropWhile is_ws (trim s) = trim s.
Proof.
  unfold trim, trimStart, trimEnd.
  destruct (dropWhile_stops is_ws s) as [->|(x & r & -> & Hx)]; [reflexivity|].
  change (rev (x :: r)) with (rev r ++ [x]).
  rewrite (dropWhile_snoc _ _ _ Hx), rev_app_distr.
  change (rev [x] ++ rev (dropWhile is_ws (rev r)))
    with (x :: rev (dropWhile is_ws (rev r))).
  now apply dropWhile_head.
Qed.

Lemma trim_end_kept s : dropWhile is_ws (rev (trim s)) = rev (trim s).
Proof.
  unfold trim, trimEnd. rewrite rev_involutive. apply dropWhile_idempotent.
Qed.

Lemma trim_idempotent s : trim (trim s) = trim s.
Proof. apply trim_fixed; [apply trim_start_kept | apply trim_end_kept]. Qed.

(** ** evaluateAnswer: what is sent *)

Lemma read_request_refuses key req t r :
  read_request key req = (t, Ok (inl r)) ->
  t = [] /\ (r = method_refused \/ exists idx, r = fallback idx).
Proof.
  intros H. unfold read_request in H. run. crunch H.
  all: inversion H; subst; split; try reflexivity.
  all: try (now left).
  all: right; eauto.
Qed.

Lemma fallback_graded idx :
  exists e, fallback idx = respond 200 (Evaluation e) /\ integer_graded e.
Proof.
  eexists. split; [reflexivity|].
  unfold getFallbackEvaluation.
  repeat break_goal; unfold integer_graded; cbn [result score feedbackSummary].
  all: split; [apply in_map; simpl; tauto|].
  all: split; [eexists; split; [reflexivity|lia]|].
  all: split; [cbv; discriminate | vm_compute; reflexivity].
Qed.

Lemma validate_rounding_graded idx parsed r :
  validate_rounding idx parsed = Ok r ->
  exists e, r = respond 200 (Evaluation e) /\ integer_graded e.
Proof.
  unfold validate_rounding, exc_bind.
  destruct (get parsed "result") as [rl|]; [|discriminate].
  destruct (get parsed "score") as [sv|]; [|discriminate].
  destruct (ToNumber sv) as [n|]; [|discriminate].
  destruct (get parsed "feedbackSummary") as [fv|]; [|discriminate].
  destruct (includes_str ALLOWED_RESULTS rl && Number_isFinite_num n) eqn:E.
  2:{ intros [= <-]. apply fallback_graded. }
  apply andb_prop in E as [Ei En].
  destruct rl; try (intros [= <-]; apply fallback_graded).
  destruct (nonblank_string fv) as [text|] eqn:Ef;
    [|intros [= <-]; apply fallback_graded].
  destruct n as [ | | |q]; try discriminate En.
  rewrite clamp_round. intros [= <-].
  eexists. split; [reflexivity|].
  unfold integer_graded. cbn [result score feedbackSummary].
  split; [now apply includes_str_In|].
  split; [eexists; split; [reflexivity|apply clamp_score_range]|].
  split; [now apply nonblank_string_Some in Ef | apply trim_idempotent].
Qed.

Lemma gemini_read_reply_graded idx text r :
  EvaluateGemini.read_reply idx text = Ok r ->
  exists e, r = respond 200 (Evaluation e) /\ integer_graded e.
Proof.
  unfold EvaluateGemini.read_reply.
  intros H; destruct text; try (injection H as <-; apply fallback_graded).
  destruct (JSON_parse _); [now apply validate_rounding_graded in H|].
  injection H as <-; apply fallback_graded.
Qed.

Lemma after_download_sends (P : Response -> Prop) c x t r :
  (forall idx, P (fallback idx)) ->
  (forall y, x = Ok y -> P y) ->
  after_download c x = (t, Ok r) -> P r.
Proof.
  intros Hf Hx. unfold after_download.
  destruct (_ || _); [discriminate|].
  intros [= <- <-]. destruct x; cbn; [now apply Hx | apply Hf].
Qed.

(** X2 (invariant).  Whatever the request and the services, a response the
    two Gemini variants of evaluateAnswer send is the 405 of X1 or a 200
    whose result is one of the three literals, whose score is an integer
    from 0 to 100 and whose feedback is not empty and carries no white space
    at either end. *)
Theorem gemini_variants_send_integer_scores
        (w : World) (req : Request) (t : list event) (r : Response) :
  EvaluateGemini.handler w req = (t, Ok r)
  \/ EvaluateGenAI.handler w req = (t, Ok r) ->
  r = method_refused
  \/ exists e, r = respond 200 (Evaluation e) /\ integer_graded e.
Proof.
  intros H.
  pose proof (read_request_trace (GEMINI_API_KEY w) req) as T.
  destruct (read_request (GEMINI_API_KEY w) req) as [t0 [[r0|c]|]] eqn:R;
    cbn in T; subst t0.
  - destruct (read_request_refuses _ _ _ _ R) as [_ K].
    assert (r = r0) as ->.
    { unfold EvaluateGemini.handler, EvaluateGenAI.handler in H. rewrite R in H.
      destruct H as [H|H]; now inversion H. }
    destruct K as [->|[idx ->]]; [now left|right; apply fallback_graded].
  - right.
    rewrite (gemini_normal_form _ _ _ R), (genai_normal_form _ _ _ R) in H.
    unfold failed_download in H.
    destruct H as [H|H];
      destruct (fetch w (imageUrl c)) as [|[|] [[|b bs]|]];
      try (injection H as <- <-; apply fallback_graded).
    all: refine (after_download_sends
                   (fun r => exists e, r = respond 200 (Evaluation e)
                                       /\ integer_graded e) _ _ _ _ _ _ H);
      [intros; apply fallback_graded|].
    all: try discriminate.
    all: unfold gemini_answer; destruct (gemini w); [discriminate|].
    all: intros y Hy; eapply gemini_read_reply_graded; eauto.
  - unfold EvaluateGemini.handler, EvaluateGenAI.handler in H. rewrite R in H.
    destruct H as [H|H]; discriminate H.
Qed.

(** An instance of X2: the score given as the text "84.5" is sent as 85. *)
Lemma integer_scores_witness :
  let text := json_text "{'result':'partial','score':'84.5','feedbackSummary':' ok '}" in
  let w := Sample.world (GeminiText text) OpenAIRejected in
  exists e,
    EvaluateGemini.handler w SampleEvaluation.request
    = (calls SampleEvaluation.fields, Ok (respond 200 (Evaluation e)))
    /\ integer_graded e /\ score e = num 85.
Proof.
  intros text w.
  assert (H : EvaluateGemini.handler w SampleEvaluation.request
              = (calls SampleEvaluation.fields,
                 Ok (respond 200 (Evaluation {| result := utf16 "partial";
                                                score := num 85;
                                                feedbackSummary := utf16 "ok" |}))))
    by (vm_compute; reflexivity).
  destruct (gemini_variants_send_integer_scores w SampleEvaluation.request _ _
              (or_introl H)) as [E|(e & E & G)].
  - discriminate E.
  - exists e. injection E as <-. split; [exact H|]. split; [exact G|reflexivity].
Defined.

(** ** evaluateAnswer: the external calls *)

Lemma after_download_trace c x :
  fst (after_download c x) = [FetchImage (imageUrl c)]
  \/ fst (after_download c x) = [FetchImage (imageUrl c); CallCompletion].
Proof. unfold after_download. destruct (_ || _); [now left|now right]. Qed.

(** X3 (invariant).  The external calls of a run of evaluateAnswer, whether
    it ends in a response or in an exception: none; or one fetch, of the
    [imageUrl] of the request; or that fetch followed by one call of the
    completion service.  The completion service is never called twice, and
    never before the image was fetched. *)
Theorem evaluate_fetches_then_calls (w : World) (req : Request) :
  evaluate_trace req (fst (EvaluateGemini.handler w req))
  /\ evaluate_trace req (fst (EvaluateOpenAI.handler w req))
  /\ evaluate_trace req (fst (EvaluateGenAI.handler w req)).
Proof.
  assert (K : forall key h,
             (forall r, read_request key req = ([], Ok (inl r)) -> h = ([], Ok r)) ->
             (read_request key req = ([], Throw) -> h = ([], Throw)) ->
             (forall c, read_request key req = ([], Ok (inr c)) ->
                        fst h = [FetchImage (imageUrl c)]
                        \/ fst h = [FetchImage (imageUrl c); CallCompletion]) ->
             evaluate_trace req (fst h)).
  { intros key h H1 H2 H3.
    pose proof (read_request_trace key req) as T.
    destruct (read_request key req) as [t0 [[r0|c]|]] eqn:R; cbn in T; subst t0.
    - rewrite (H1 _ eq_refl). now left.
    - right. exists (imageUrl c). split; [|exact (H3 _ eq_refl)].
      now apply read_request_checked in R.
    - rewrite (H2 eq_refl). now left. }
  split; [|split].
  - apply (K (GEMINI_API_KEY w)).
    + apply (evaluate_early w req _ EvaluateGemini.handler); auto.
    + apply (evaluate_early w req _ EvaluateGemini.handler); auto.
    + intros c R. rewrite (gemini_normal_form _ _ _ R).
      destruct (fetch w (imageUrl c)) as [|[|] [[|b bs]|]];
        try (now left). apply after_download_trace.
  - apply (K (OPENAI_API_KEY w)).
    + apply (evaluate_early w req _ EvaluateOpenAI.handler); auto.
    + apply (evaluate_early w req _ EvaluateOpenAI.handler); auto.
    + intros c R. rewrite (openai_normal_form _ _ _ R).
      destruct (fetch w (imageUrl c)) as [|[|] [bytes|]];
        try (now left). apply after_download_trace.
  - apply (K (GEMINI_API_KEY w)).
    + apply (evaluate_early w req _ EvaluateGenAI.handler); auto.
    + apply (evaluate_early w req _ EvaluateGenAI.handler); auto.
    + intros c R. rewrite (genai_normal_form _ _ _ R).
      destruct (fetch w (imageUrl c)) as [|[|] [bytes|]];
        try (now left). apply after_download_trace.
Qed.

(** X4 (error handling).  When the fetch of the image rejects, answers with
    a status that is not ok, or its body cannot be read, every variant of
    evaluateAnswer answers with the fallback record of the sanitized index
    and does not call the completion service. *)
Theorem failed_download_falls_back_without_a_completion_call
        (w : World) (req : Request) (c : checked) :
  fetch w (imageUrl c) = FetchRejected
  \/ (exists bytes, fetch w (imageUrl c) = FetchResponse false bytes)
  \/ fetch w (imageUrl c) = FetchResponse true None ->
  let answer := ([FetchImage (imageUrl c)], Ok (fallback (exerciseIndex c))) in
  (accepted (GEMINI_API_KEY w) req c ->
   EvaluateGemini.handler w req = answer /\ EvaluateGenAI.handler w req = answer)
  /\ (accepted (OPENAI_API_KEY w) req c -> EvaluateOpenAI.handler w req = answer).
Proof.
  intros F answer. split; intros R.
  - rewrite (gemini_normal_form _ _ _ R), (genai_normal_form _ _ _ R).
    destruct F as [->|[[bytes ->]| ->]]; now split.
  - rewrite (openai_normal_form _ _ _ R).
    destruct F as [->|[[bytes ->]| ->]]; reflexivity.
Qed.

(** An instance of X4: the image host answers with an error status. *)
Lemma failed_download_witness :
  let w := with_fetch (Sample.world GeminiRejected OpenAIRejected)
             (fun _ => FetchResponse false None) in
  let answer := ([FetchImage (imageUrl SampleEvaluation.fields)],
                 Ok (fallback (num 2))) in
  EvaluateGemini.handler w SampleEvaluation.request = answer
  /\ EvaluateGenAI.handler w SampleEvaluation.request = answer
  /\ EvaluateOpenAI.handler w SampleEvaluation.request = answer.
Proof.
  intros w answer.
  assert (F : fetch w (imageUrl SampleEvaluation.fields) = FetchRejected
              \/ (exists bytes, fetch w (imageUrl SampleEvaluation.fields)
                                = FetchResponse false bytes)
              \/ fetch w (imageUrl SampleEvaluation.fields) = FetchResponse true None).
  { right. left. exists None. reflexivity. }
  destruct (failed_download_falls_back_without_a_completion_call
              w SampleEvaluation.request SampleEvaluation.fields F) as [G O].
  assert (A : accepted (Some (utf16 "key")) SampleEvaluation.request
                SampleEvaluation.fields) by (vm_compute; reflexivity).
  destruct (G A) as [G1 G2].
  split; [exact G1|]. split; [exact G2|exact (O A)].
Defined.

(** X5 (edge case).  An image of zero bytes: its base64 text is empty, so
    the variant on [@google/generative-ai] takes it for missing (line 111)
    and answers with the fallback record without calling the completion
    service; the other two variants have no such test and do call it. *)
Theorem image_of_no_bytes (w : World) (req : Request) (c : checked) :
  fetch w (imageUrl c) = FetchResponse true (Some []) ->
  build_prompts c = ([], Ok tt) ->
  (accepted (GEMINI_API_KEY w) req c ->
   EvaluateGemini.handler w req
   = ([FetchImage (imageUrl c)], Ok (fallback (exerciseIndex c)))
   /\ exists r, EvaluateGenAI.handler w req = (calls c, Ok r))
  /\ (accepted (OPENAI_API_KEY w) req c ->
      exists r, EvaluateOpenAI.handler w req = (calls c, Ok r)).
Proof.
  intros F B.
  assert (T : ToString_throws (subtopicName c) || ToString_throws (difficulty c)
              = false).
  { unfold build_prompts in B. run.
    destruct (ToString_throws (subtopicName c)); [discriminate B|].
    destruct (ToString_throws (difficulty c)); [discriminate B|reflexivity]. }
  split; intros R.
  - rewrite (gemini_normal_form _ _ _ R), (genai_normal_form _ _ _ R), F.
    split; [reflexivity|]. unfold after_download. rewrite T. eauto.
  - rewrite (openai_normal_form _ _ _ R), F.
    unfold after_download. rewrite T. eauto.
Qed.

(** An instance of X5 *)
Lemma image_of_no_bytes_witness :
  let text := json_text "{'result':'partial','score':70,'feedbackSummary':'ok'}" in
  let w := with_fetch (Sample.world (GeminiText text) (OpenAIContent (Some text)))
             (fun _ => FetchResponse true (Some [])) in
  EvaluateGemini.handler w SampleEvaluation.request
  = ([FetchImage (imageUrl SampleEvaluation.fields)], Ok (fallback (num 2)))
  /\ (exists r, EvaluateGenAI.handler w SampleEvaluation.request
                = (calls SampleEvaluation.fields, Ok r))
  /\ (exists r, EvaluateOpenAI.handler w SampleEvaluation.request
                = (calls SampleEvaluation.fields, Ok r)).
Proof.
  intros text w.
  assert (F : fetch w (imageUrl SampleEvaluation.fields) = FetchResponse true (Some []))
    by reflexivity.
  assert (B : build_prompts SampleEvaluation.fields = ([], Ok tt)) by reflexivity.
  destruct (image_of_no_bytes w SampleEvaluation.request SampleEvaluation.fields F B)
    as [G O].
  assert (A : accepted (Some (utf16 "key")) SampleEvaluation.request
                SampleEvaluation.fields) by (vm_compute; reflexivity).
  destruct (G A) as [G1 G2].
  split; [exact G1|]. split; [exact G2|exact (O A)].
Defined.

(** X6 (error handling).  When the completion call rejects or its reply
    carries no text (an empty text; for OpenAI also no first choice, no
    message, a [null] content), every variant of evaluateAnswer answers with
    the fallback record of the sanitized index. *)
Theorem no_reply_falls_back (w : World) (req : Request) (c : checked) (bytes : list N) :
  fetch w (imageUrl c) = FetchResponse true (Some bytes) ->
  build_prompts c = ([], Ok tt) ->
  let answer := (calls c, Ok (fallback (exerciseIndex c))) in
  (accepted (GEMINI_API_KEY w) req c ->
   gemini w = GeminiRejected \/ gemini w = GeminiText [] ->
   (bytes <> [] -> EvaluateGemini.handler w req = answer)
   /\ EvaluateGenAI.handler w req = answer)
  /\ (accepted (OPENAI_API_KEY w) req c ->
      openai w = OpenAIRejected \/ openai w = OpenAINoMessage
      \/ openai w = OpenAIContent None \/ openai w = OpenAIContent (Some []) ->
      EvaluateOpenAI.handler w req = answer).
Proof.
  intros F B answer.
  assert (T : ToString_throws (subtopicName c) || ToString_throws (difficulty c)
              = false).
  { unfold build_prompts in B. run.
    destruct (ToString_throws (subtopicName c)); [discriminate B|].
    destruct (ToString_throws (difficulty c)); [discriminate B|reflexivity]. }
  split; intros R G.
  - rewrite (gemini_normal_form _ _ _ R), (genai_normal_form _ _ _ R), F.
    unfold after_download, gemini_answer. rewrite T.
    split.
    + intros Hb. destruct bytes; [easy|]. destruct G as [->| ->]; reflexivity.
    + reflexivity.
  - rewrite (openai_normal_form _ _ _ R), F.
    unfold after_download, openai_answer. rewrite T.
    destruct G as [->|[->|[->| ->]]]; reflexivity.
Qed.

(** An instance of X6: Gemini rejects, OpenAI replies without a message. *)
Lemma no_reply_witness :
  let w := Sample.world GeminiRejected OpenAINoMessage in
  let answer := (calls SampleEvaluation.fields, Ok (fallback (num 2))) in
  EvaluateGemini.handler w SampleEvaluation.request = answer
  /\ EvaluateGenAI.handler w SampleEvaluation.request = answer
  /\ EvaluateOpenAI.handler w SampleEvaluation.request = answer.
Proof.
  intros w answer.
  assert (F : fetch w (imageUrl SampleEvaluation.fields)
              = FetchResponse true (Some SampleEvaluation.image)) by reflexivity.
  assert (B : build_prompts SampleEvaluation.fields = ([], Ok tt)) by reflexivity.
  destruct (no_reply_falls_back w SampleEvaluation.request SampleEvaluation.fields
              SampleEvaluation.image F B) as [G O].
  assert (A : accepted (Some (utf16 "key")) SampleEvaluation.request
                SampleEvaluation.fields) by (vm_compute; reflexivity).
  assert (Hb : SampleEvaluation.image <> []) by discriminate.
  destruct (G A (or_introl eq_refl)) as [G1 G2].
  split; [exact (G1 Hb)|]. split; [exact G2|].
  exact (O A (or_intror (or_introl eq_refl))).
Defined.

(** ** evaluateAnswer: the requests that are answered *)

Lemma ToNumber_array elems :
  ToNumber (VArr elems)
  = if existsb ToString_throws elems then Throw
    else match elems with
         | [] => Ok (num 0)
         | [e] =>
             match e with
             | VUndefined | VNull => Ok (num 0)
             | VBool _ | VObj _ => Ok NaN
             | _ => ToNumber e
             end
         | _ => Ok NaN
         end.
Proof. reflexivity. Qed.

Lemma ToNumber_defined :
  forall v, ToString_throws v = false -> exists n, ToNumber v = Ok n.
Proof.
  fix IH 1. intros v H. destruct v as [ | |b|n|s|elems|fields].
  1-5: eexists; reflexivity.
  - rewrite ToNumber_array. cbn [ToString_throws] in H. rewrite H.
    destruct elems as [|e [|e' r]]; try (eexists; reflexivity).
    cbn [existsb] in H. rewrite Bool.orb_false_r in H.
    pose proof (IH e H) as He.
    destruct e; try (eexists; reflexivity); exact He.
  - cbn [ToString_throws] in H.
    change (ToNumber (VObj fields))
      with (if has_own (utf16 "toString") fields then @Throw number else Ok NaN).
    rewrite H. eexists; reflexivity.
Qed.

Lemma sanitize_defined ix :
  ToString_throws ix = false -> exists i, sanitizeExerciseIndex ix = Ok i.
Proof.
  intros H. destruct (ToNumber_defined _ H) as [n N].
  unfold sanitizeExerciseIndex, lt_num, gt_num, Math_floor. rewrite N.
  cbn [exc_bind].
  destruct (negb (truthy ix) || Number_isNaN ix); [eauto|].
  destruct (num_lt n (num 1)); [eauto|].
  destruct (num_gt n (num 3)); eauto.
Qed.

Lemma get_object fields k : exists v, get (VObj fields) k = Ok v.
Proof. unfold get. destruct (own_property (utf16 k) fields); eauto. Qed.

Lemma get_default_value v k d x :
  get v k = Ok x ->
  get_default v k d = Ok match x with VUndefined => d | _ => x end.
Proof. intros H. unfold get_default. rewrite H. now destruct x. Qed.

Lemma read_request_plain key req fields :
  body req = VObj fields ->
  (forall k v, In k converted_fields -> get (body req) k = Ok v ->
               ToString_throws v = false) ->
  get (body req) "userAnswer" <> Ok VNull ->
  (exists r, read_request key req = ([], Ok (inl r)))
  \/ exists c, read_request key req = ([], Ok (inr c))
               /\ ToString_throws (subtopicName c) = false
               /\ ToString_throws (difficulty c) = false.
Proof.
  intros B H U. unfold read_request.
  destruct (negb (str_eqb (method req) (utf16 "POST")));
    [left; eexists; reflexivity|].
  assert (G : forall k, exists v, get (body req) k = Ok v).
  { intros k. rewrite B. apply get_object. }
  destruct (G "statement"%string) as [st Es].
  destruct (G "userAnswer"%string) as [ua Eu].
  destruct (G "imageUrl"%string) as [img Ei].
  destruct (G "subtopicName"%string) as [sn En].
  destruct (G "difficulty"%string) as [df Ed].
  destruct (G "exerciseIndex"%string) as [ix Ex].
  assert (Hu : ToString_throws ua = false) by (apply (H "userAnswer"%string); simpl; tauto).
  assert (Hn : ToString_throws sn = false) by (apply (H "subtopicName"%string); simpl; tauto).
  assert (Hd : ToString_throws df = false) by (apply (H "difficulty"%string); simpl; tauto).
  assert (Hx : ToString_throws ix = false) by (apply (H "exerciseIndex"%string); simpl; tauto).
  destruct (sanitize_defined _ Hx) as [i Ez].
  set (ua' := match ua with VUndefined => VStr [] | _ => ua end).
  set (sn' := match sn with VUndefined => VStr (utf16 "Derivadas") | _ => sn end).
  set (df' := match df with VUndefined => VStr (utf16 "medium") | _ => df end).
  run.
  rewrite Es, (get_default_value _ _ (VStr []) _ Eu), Ei,
    (get_default_value _ _ (VStr (utf16 "Derivadas")) _ En),
    (get_default_value _ _ (VStr (utf16 "medium")) _ Ed), Ex, Ez.
  fold ua' sn' df'. cbn beta iota zeta.
  destruct (required_text st); [|left; eexists; reflexivity].
  destruct (required_text img); [|left; eexists; reflexivity].
  destruct (env_missing key); [left; eexists; reflexivity|].
  assert (T : toString_call_throws ua' = false).
  { unfold ua'. destruct ua; try reflexivity; try exact Hu.
    exfalso. apply U. exact Eu. }
  rewrite T. cbn beta iota zeta. right. eexists. split; [reflexivity|].
  cbn [subtopicName difficulty]. unfold sn', df'.
  split; [now destruct sn | now destruct df].
Qed.

(** X7 (error handling).  A request to evaluateAnswer is answered, by
    every variant and whatever the services do, with the 405 or a
    well-formed 200, as soon as its body is an object, its [userAnswer] is
    not [null], and none of [exerciseIndex], [userAnswer], [subtopicName]
    and [difficulty] holds an object with a member named [toString] (the
    one kind of value of a JSON body that cannot be converted to a number
    or a string). *)
Theorem evaluate_answers_plain_requests
        (w : World) (req : Request) (fields : list (jsstring * value)) :
  body req = VObj fields ->
  (forall k v, In k converted_fields -> get (body req) k = Ok v ->
               ToString_throws v = false) ->
  get (body req) "userAnswer" <> Ok VNull ->
  (exists t r, EvaluateGemini.handler w req = (t, Ok r) /\ evaluate_response r)
  /\ (exists t r, EvaluateOpenAI.handler w req = (t, Ok r) /\ evaluate_response r)
  /\ (exists t r, EvaluateGenAI.handler w req = (t, Ok r) /\ evaluate_response r).
Proof.
  intros B H U.
  assert (K : forall h : M Response, (exists t r, h = (t, Ok r)) ->
                        (forall t r, h = (t, Ok r) -> evaluate_response r) ->
                        exists t r, h = (t, Ok r) /\ evaluate_response r).
  { intros h (t & r & E) W. exists t, r. split; [exact E|]. now apply (W t). }
  assert (A : forall c x,
             ToString_throws (subtopicName c) = false ->
             ToString_throws (difficulty c) = false ->
             exists t r, after_download c x = (t, Ok r)).
  { intros c x H1 H2. unfold after_download. rewrite H1, H2. cbn. eauto. }
  split; [|split]; apply K.
  - destruct (read_request_plain (GEMINI_API_KEY w) req fields B H U)
      as [[r R]|(c & R & H1 & H2)].
    + exists [], r. unfold EvaluateGemini.handler. now rewrite R.
    + rewrite (gemini_normal_form _ _ _ R).
      destruct (fetch w (imageUrl c)) as [|[|] [[|b bs]|]];
        try (unfold failed_download; eauto); try (now apply A).
  - intros t r E. apply (evaluate_sends_well_formed w req t r). auto.
  - destruct (read_request_plain (OPENAI_API_KEY w) req fields B H U)
      as [[r R]|(c & R & H1 & H2)].
    + exists [], r. unfold EvaluateOpenAI.handler. now rewrite R.
    + rewrite (openai_normal_form _ _ _ R).
      destruct (fetch w (imageUrl c)) as [|[|] [bytes|]];
        try (unfold failed_download; eauto); try (now apply A).
  - intros t r E. apply (evaluate_sends_well_formed w req t r). auto.
  - destruct (read_request_plain (GEMINI_API_KEY w) req fields B H U)
      as [[r R]|(c & R & H1 & H2)].
    + exists [], r. unfold EvaluateGenAI.handler. now rewrite R.
    + rewrite (genai_normal_form _ _ _ R).
      destruct (fetch w (imageUrl c)) as [|[|] [bytes|]];
        try (unfold failed_download; eauto); try (now apply A).
  - intros t r E. apply (evaluate_sends_well_formed w req t r). auto.
Qed.

(** An instance of X7: the sample request, both services down *)
Lemma plain_requests_witness :
  let w := Sample.world GeminiRejected OpenAIRejected in
  exists t r, EvaluateOpenAI.handler w SampleEvaluation.request = (t, Ok r)
              /\ evaluate_response r.
Proof.
  intros w.
  pose (fields := [(utf16 "statement", VStr (utf16 "Deriva f(x) = x^2."));
                   (utf16 "imageUrl", VStr (utf16 "https://host/a.jpg"));
                   (utf16 "exerciseIndex", VNum (num 2))]).
  assert (B : body SampleEvaluation.request = VObj fields)
    by (vm_compute; reflexivity).
  assert (H : forall k v, In k converted_fields ->
                          get (body SampleEvaluation.request) k = Ok v ->
                          ToString_throws v = false).
  { intros k v [<-|[<-|[<-|[<-|[]]]]] E; vm_compute in E; injection E as <-;
      reflexivity. }
  assert (U : get (body SampleEvaluation.request) "userAnswer" <> Ok VNull)
    by (vm_compute; discriminate).
  exact (proj1 (proj2 (evaluate_answers_plain_requests
                         w SampleEvaluation.request fields B H U))).
Defined.

(** ** The index *)

Lemma Qfloor_below (q : Q) (z : Z) : (q < inject_Z z)%Q -> (Qfloor q < z)%Z.
Proof.
  intros H. rewrite Zlt_Qlt. eapply Qle_lt_trans; [apply Qfloor_le|exact H].
Qed.

Lemma Qfloor_above (q : Q) (z : Z) : (inject_Z z <= q)%Q -> (z <= Qfloor q)%Z.
Proof.
  intros H. apply Qfloor_resp_le in H. now rewrite Qfloor_Z in H.
Qed.

Lemma sanitize_on_a_comparable v q :
  truthy v = true -> ToNumber v = Ok (Fin q) ->
  sanitizeExerciseIndex v = Ok (num (Z.max 1 (Z.min 3 (Qfloor q)))).
Proof.
  intros T N. unfold sanitizeExerciseIndex. rewrite T. cbn [negb orb].
  assert (Number_isNaN v = false) as ->.
  { destruct v; try reflexivity. change (Ok n = Ok (Fin q)) in N.
    now injection N as ->. }
  unfold lt_num, gt_num, Math_floor. rewrite N. cbn [exc_bind].
  destruct (num_lt (Fin q) (num 1)) eqn:E1.
  { apply (num_lt_Fin q 1) in E1. apply (Qfloor_below q 1) in E1.
    now rewrite Z.max_l by lia. }
  apply (num_lt_Fin_false q 1) in E1. apply (Qfloor_above q 1) in E1.
  unfold num_gt. destruct (num_lt (num 3) (Fin q)) eqn:E3.
  { apply (num_lt_Fin 3 q) in E3. apply Qlt_le_weak, (Qfloor_above q 3) in E3.
    now rewrite Z.min_l, Z.max_r by lia. }
  apply (num_lt_Fin_false 3 q) in E3.
  assert (Qfloor q <= 3)%Z.
  { apply Qfloor_resp_le in E3. now change (Qfloor 3) with 3%Z in E3. }
  cbn [Math_floor_num]. now rewrite Z.min_r, Z.max_r by lia.
Qed.

Lemma sanitize_Fin q :
  sanitizeExerciseIndex (VNum (Fin q)) = Ok (num (Z.max 1 (Z.min 3 (Qfloor q)))).
Proof.
  destruct (truthy (VNum (Fin q))) eqn:T.
  - now apply sanitize_on_a_comparable.
  - unfold sanitizeExerciseIndex. rewrite T. cbn [negb orb].
    cbn [truthy Number_isNaN_num orb] in T. apply Bool.negb_false_iff in T.
    unfold num_eq, num_compare, num in T.
    destruct (q ?= inject_Z 0)%Q eqn:E; try discriminate T.
    apply Qeq_alt in E. rewrite (Qfloor_comp _ _ E), Qfloor_Z. reflexivity.
Qed.

Lemma sanitize_fixes_1_2_3 z :
  (1 <= z <= 3)%Z -> sanitizeExerciseIndex (VNum (num z)) = Ok (num z).
Proof.
  intros H. unfold num. rewrite sanitize_Fin, Qfloor_Z.
  now rewrite Z.min_r, Z.max_r by lia.
Qed.

(** X8 (invariant).  Whatever its argument, when [sanitizeExerciseIndex]
    returns, it returns 1, 2, 3 or NaN.  A result among 1, 2, 3 is a fixed
    point: sanitizing it again gives it back.  NaN comes out only for a
    truthy argument that is not a number and converts to NaN. *)
Theorem sanitize_range_and_fixed_points (v : value) (n : number) :
  sanitizeExerciseIndex v = Ok n ->
  (exists z, (1 <= z <= 3)%Z /\ n = num z
             /\ sanitizeExerciseIndex (VNum n) = Ok n)
  \/ (n = NaN /\ truthy v = true /\ ToNumber v = Ok NaN /\ typeof v <> TNumber).
Proof.
  intros H.
  assert (L : forall z, (1 <= z <= 3)%Z -> Ok (num z) = Ok n ->
              exists z, (1 <= z <= 3)%Z /\ n = num z
                        /\ sanitizeExerciseIndex (VNum n) = Ok n).
  { intros z Hz [= <-]. exists z. split; [exact Hz|]. split; [reflexivity|].
    now apply sanitize_fixes_1_2_3. }
  destruct (truthy v) eqn:T.
  2:{ left. unfold sanitizeExerciseIndex in H. rewrite T in H.
      apply (L 1%Z); [lia|exact H]. }
  destruct (ToNumber v) as [m|] eqn:N.
  2:{ assert (I : Number_isNaN v = false).
      { destruct v; try reflexivity. discriminate N. }
      unfold sanitizeExerciseIndex, lt_num in H. rewrite T, I, N in H.
      discriminate H. }
  destruct m as [ | | |q].
  - destruct (Number_isNaN v) eqn:I.
    + left. unfold sanitizeExerciseIndex in H. rewrite T, I in H.
      apply (L 1%Z); [lia|exact H].
    + right. unfold sanitizeExerciseIndex, lt_num, gt_num, Math_floor in H.
      rewrite T, I, N in H. injection H as <-.
      repeat split. intros K. destruct v; try discriminate K.
      change (Ok n = Ok NaN) in N. injection N as ->. discriminate I.
  - left. unfold sanitizeExerciseIndex, lt_num, gt_num, Math_floor in H.
    rewrite T, N in H. destruct (Number_isNaN v); cbn in H.
    + apply (L 1%Z); [lia|exact H].
    + apply (L 3%Z); [lia|exact H].
  - left. unfold sanitizeExerciseIndex, lt_num, gt_num, Math_floor in H.
    rewrite T, N in H. destruct (Number_isNaN v); cbn in H.
    + apply (L 1%Z); [lia|exact H].
    + apply (L 1%Z); [lia|exact H].
  - left. rewrite (sanitize_on_a_comparable _ _ T N) in H.
    apply (L (Z.max 1 (Z.min 3 (Qfloor q)))); [lia|exact H].
Qed.

(** An instance of X8: the text "7.2" is sanitized to 3, and 3 to 3. *)
Lemma sanitize_fixed_point_witness :
  (exists z, (1 <= z <= 3)%Z /\ num 3 = num z
             /\ sanitizeExerciseIndex (VNum (num 3)) = Ok (num 3))
  /\ sanitizeExerciseIndex (VStr (utf16 "7.2")) = Ok (num 3).
Proof.
  assert (H : sanitizeExerciseIndex (VStr (utf16 "7.2")) = Ok (num 3))
    by (vm_compute; reflexivity).
  destruct (sanitize_range_and_fixed_points _ _ H) as [K|(K & _)].
  - split; [exact K|exact H].
  - discriminate K.
Defined.

(** X9 (invariant).  On finite numbers [sanitizeExerciseIndex] preserves the
    order: a larger index never gets a smaller sanitized index. *)
Theorem sanitize_is_monotone (p q : Q) :
  (p <= q)%Q ->
  exists a b,
    sanitizeExerciseIndex (VNum (Fin p)) = Ok (num a)
    /\ sanitizeExerciseIndex (VNum (Fin q)) = Ok (num b)
    /\ (1 <= a <= b)%Z /\ (b <= 3)%Z.
Proof.
  intros H. apply Qfloor_resp_le in H.
  exists (Z.max 1 (Z.min 3 (Qfloor p))), (Z.max 1 (Z.min 3 (Qfloor q))).
  rewrite !sanitize_Fin. repeat split; lia.
Qed.

(** An instance of X9: 1.5 and 2.25 *)
Lemma sanitize_monotone_witness :
  exists a b,
    sanitizeExerciseIndex (VNum (Fin (3 # 2))) = Ok (num a)
    /\ sanitizeExerciseIndex (VNum (Fin (9 # 4))) = Ok (num b)
    /\ (1 <= a <= b)%Z /\ (b <= 3)%Z.
Proof.
  assert (H : (3 # 2 <= 9 # 4)%Q) by (vm_compute; discriminate).
  exact (sanitize_is_monotone _ _ H).
Defined.

(** X10 (composition).  The fallback record of a numeric index, as the
    handlers compute it with [sanitizeExerciseIndex] and then
    [getFallbackEvaluation] or [localFallback]: the record of index 1 for
    every number below 2, that of index 2 from 2 up to 3, that of index 3
    from 3 on. *)
Theorem fallback_follows_the_integer_part (q : Q) :
  exists i,
    sanitizeExerciseIndex (VNum (Fin q)) = Ok i
    /\ ((q < 2)%Q ->
        getFallbackEvaluation (Some i) = getFallbackEvaluation (Some (num 1))
        /\ localFallback i = localFallback (num 1))
    /\ ((2 <= q)%Q -> (q < 3)%Q ->
        getFallbackEvaluation (Some i) = getFallbackEvaluation (Some (num 2))
        /\ localFallback i = localFallback (num 2))
    /\ ((3 <= q)%Q ->
        getFallbackEvaluation (Some i) = getFallbackEvaluation (Some (num 3))
        /\ localFallback i = localFallback (num 3)).
Proof.
  exists (num (Z.max 1 (Z.min 3 (Qfloor q)))).
  split; [apply sanitize_Fin|].
  split; [|split].
  - intros H. apply (Qfloor_below q 2) in H.
    now replace (Z.max 1 (Z.min 3 (Qfloor q))) with 1%Z by lia.
  - intros H2 H3. apply (Qfloor_above q 2) in H2. apply (Qfloor_below q 3) in H3.
    now replace (Z.max 1 (Z.min 3 (Qfloor q))) with 2%Z by lia.
  - intros H. apply (Qfloor_above q 3) in H.
    now replace (Z.max 1 (Z.min 3 (Qfloor q))) with 3%Z by lia.
Qed.

(** An instance of X10: the index 2.7 gets the record of index 2. *)
Lemma fallback_integer_part_witness :
  exists i,
    sanitizeExerciseIndex (VNum (Fin (27 # 10))) = Ok i
    /\ getFallbackEvaluation (Some i) = getFallbackEvaluation (Some (num 2))
    /\ localFallback i = localFallback (num 2).
Proof.
  destruct (fallback_follows_the_integer_part (27 # 10)) as (i & E & _ & H & _).
  exists i. split; [exact E|].
  assert (H2 : (2 <= 27 # 10)%Q) by (vm_compute; discriminate).
  assert (H3 : (27 # 10 < 3)%Q) by (vm_compute; reflexivity).
  exact (H H2 H3).
Defined.

(** ** generateExercise: every run ends in a response *)

Lemma clamping_run_trace prep reader reply :
  fst (clamping_run prep reader reply)
  = fst prep ++ match snd prep with
                | Ok _ => [CallCompletion]
                | Throw => []
                end.
Proof.
  unfold clamping_run, clamping_attempt.
  destruct prep as [t [[i h]|]]; run; [|reflexivity].
  destruct (raw_content_cases reply) as [E|[raw E]]; rewrite E; cbn.
  - now rewrite app_nil_r.
  - destruct (reader (localFallback i) h raw); cbn; now rewrite app_nil_r.
Qed.

Lemma prepare_hint_trace body : fst (GenerateHint.prepare body) = [].
Proof. unfold GenerateHint.prepare. run. repeat break_goal; reflexivity. Qed.

Lemma prepare_pick_trace w body : fst (GeneratePick.prepare w body) = [].
Proof. unfold GeneratePick.prepare. run. repeat break_goal; reflexivity. Qed.

Lemma prepare_strict_trace body : fst (GenerateStrict.prepare body) = [].
Proof. unfold GenerateStrict.prepare. run. repeat break_goal; reflexivity. Qed.

Lemma fetchSubtopicContext_trace w body :
  GenerateContext.fetchSubtopicContext w body = ([], Throw)
  \/ exists q, fst (GenerateContext.fetchSubtopicContext w body) = [QuerySubtopics q].
Proof.
  unfold GenerateContext.fetchSubtopicContext. run.
  destruct (get body "subtopicId") as [id|]; [|now left].
  destruct (get body "subtopicName") as [name|]; [|now left].
  right.
  exists (if truthy id then ById id
          else if truthy name then ByName name else Unfiltered).
  cbn. repeat break_goal; reflexivity.
Qed.

Lemma prepare_context_trace w body :
  GenerateContext.prepare w body = ([], Throw)
  \/ exists q, fst (GenerateContext.prepare w body) = [QuerySubtopics q].
Proof.
  unfold GenerateContext.prepare. run.
  destruct (get body "exerciseIndex") as [ix|]; cbn beta iota zeta; [|now left].
  destruct (sanitizeExerciseIndex ix) as [i|]; cbn beta iota zeta; [|now left].
  destruct (get body "difficulty") as [d|]; cbn beta iota zeta; [|now left].
  destruct (fetchSubtopicContext_trace w body) as [E|[q E]].
  - left. now rewrite E.
  - right. exists q.
    destruct (GenerateContext.fetchSubtopicContext w body) as [t x].
    cbn in E. subst t. repeat break_goal; reflexivity.
Qed.

Lemma handler_strict_trace w req :
  generate_calls (fst (GenerateStrict.handler w req)).
Proof.
  unfold GenerateStrict.handler, GenerateStrict.attempt.
  destruct (is_post req); cbn [negb]; [|now left].
  pose proof (prepare_strict_trace (body req)) as T.
  destruct (GenerateStrict.prepare (body req)) as [t [[r|n]|]]; cbn in T; subst t; run.
  1,3: now left.
  right. destruct (openai w) as [ | |[[|ch s]|]]; cbn; try reflexivity.
  all: match goal with
       | |- context [GenerateStrict.read_reply ?n ?raw] =>
           destruct (GenerateStrict.read_reply n raw)
       end; reflexivity.
Qed.

(** X11 (error handling).  Every run of a generateExercise handler ends in
    a response, never in an exception: the 405 of X1, a 200 with a statement
    that is not empty and a type among the four, or, in the variant that
    validates the index, its 400.  The completion service is called at most
    once; the variant with the subtopic store queries the store at most
    once, and before that call. *)
Theorem generate_handlers_always_answer (w : World) (req : Request) :
  (exists t r, GenerateContext.handler w req = (t, Ok r)
               /\ generate_response r /\ context_calls t)
  /\ (exists t r, GenerateHint.handler w req = (t, Ok r)
                  /\ generate_response r /\ generate_calls t)
  /\ (exists t r, GeneratePick.handler w req = (t, Ok r)
                  /\ generate_response r /\ generate_calls t)
  /\ (exists t r, GenerateStrict.handler w req = (t, Ok r)
                  /\ (generate_response r \/ r = GenerateStrict.bad_request)
                  /\ generate_calls t).
Proof.
  split; [|split; [|split]].
  - destruct (handler_context_total w req) as (t & r & E & H).
    exists t, r. split; [exact E|]. split; [exact H|].
    replace t with (fst (GenerateContext.handler w req)) by now rewrite E.
    unfold GenerateContext.handler.
    destruct (is_post req); cbn [negb]; [|now left].
    change (try_catch (GenerateContext.attempt w req)
              (ret (exercise (localFallback (num 1)))))
      with (clamping_run (GenerateContext.prepare w (body req))
              GenerateContext.read_reply (openai w)).
    rewrite clamping_run_trace.
    destruct (prepare_context_trace w (body req)) as [T|[q T]]; rewrite T.
    + now left.
    + right. exists q. destruct (snd _); [now right|now left].
  - destruct (handler_hint_total w req) as (t & r & E & H).
    exists t, r. split; [exact E|]. split; [exact H|].
    replace t with (fst (GenerateHint.handler w req)) by now rewrite E.
    unfold GenerateHint.handler.
    destruct (is_post req); cbn [negb]; [|now left].
    change (try_catch (GenerateHint.attempt w req)
              (ret (exercise (localFallback (num 1)))))
      with (clamping_run (GenerateHint.prepare (body req))
              GenerateHint.read_reply (openai w)).
    rewrite clamping_run_trace, prepare_hint_trace.
    destruct (snd _); [now right|now left].
  - destruct (handler_pick_total w req) as (t & r & E & H).
    exists t, r. split; [exact E|]. split; [exact H|].
    replace t with (fst (GeneratePick.handler w req)) by now rewrite E.
    unfold GeneratePick.handler.
    destruct (is_post req); cbn [negb]; [|now left].
    change (try_catch (GeneratePick.attempt w req)
              (ret (exercise (localFallback (num 1)))))
      with (clamping_run (GeneratePick.prepare w (body req))
              GenerateContext.read_reply (openai w)).
    rewrite clamping_run_trace, prepare_pick_trace.
    destruct (snd _); [now right|now left].
  - destruct (handler_strict_total w req) as (t & r & E & H).
    exists t, r. split; [exact E|]. split; [exact H|].
    replace t with (fst (GenerateStrict.handler w req)) by now rewrite E.
    apply handler_strict_trace.
Qed.

(** ** generateExercise: the statement *)

Lemma clamping_sends (P : Response -> Prop) prep reader reply t r :
  P (exercise (localFallback (num 1))) ->
  (forall i h raw x, reader (localFallback i) h raw = Ok x -> P x) ->
  clamping_run prep reader reply = (t, Ok r) -> P r.
Proof.
  intros H1 H2. unfold clamping_run, clamping_attempt.
  destruct prep as [t0 [[i h]|]]; run.
  2:{ now intros [= <- <-]. }
  destruct (raw_content_cases reply) as [E|[raw E]]; rewrite E; cbn.
  { now intros [= <- <-]. }
  destruct (reader (localFallback i) h raw) eqn:R; cbn; intros [= <- <-].
  - eapply H2; eassumption.
  - exact H1.
Qed.

Lemma localFallback_trimmed i :
  trim (statement (localFallback i)) = statement (localFallback i).
Proof. unfold localFallback. repeat break_goal; vm_compute; reflexivity. Qed.

Lemma repaired_statement_trimmed parsed fb s :
  trim (statement fb) = statement fb ->
  repaired_statement parsed fb = Ok s -> trim s = s.
Proof.
  unfold repaired_statement, exc_bind. intros Hfb.
  destruct (get parsed "statement"); [|discriminate].
  destruct (nonblank_string a); intros [= <-]; [apply trim_idempotent|exact Hfb].
Qed.

Lemma readers_trim i h raw x :
  GenerateContext.read_reply (localFallback i) h raw = Ok x
  \/ GenerateHint.read_reply (localFallback i) h raw = Ok x ->
  trimmed_exercise x.
Proof.
  assert (F : trimmed_exercise (exercise (localFallback i))).
  { eexists. split; [reflexivity|].
    split; [apply localFallback_statement|apply localFallback_trimmed]. }
  unfold GenerateContext.read_reply, GenerateHint.read_reply, exc_bind.
  intros [H|H]; destruct (JSON_parse raw) as [parsed|];
    try (injection H as <-; exact F).
  all: destruct (repaired_statement parsed _) as [s|] eqn:Es; [|discriminate].
  all: destruct (get parsed "exerciseType") as [ty|]; [|discriminate].
  all: injection H as <-; eexists; split; [reflexivity|]; cbn [statement].
  all: split; [eapply repaired_statement_nonempty; [|exact Es];
               apply localFallback_statement
              |eapply repaired_statement_trimmed; [|exact Es];
               apply localFallback_trimmed].
Qed.

(** X12 (invariant).  In the three variants of generateExercise that clamp
    the index, the statement of every exercise sent is not empty and has no
    white space at either end, whether it comes from the reply or from a
    fallback record. *)
Theorem clamping_variants_send_trimmed_statements
        (w : World) (req : Request) (t : list event) (r : Response) :
  In (t, Ok r) [GenerateContext.handler w req; GenerateHint.handler w req;
                GeneratePick.handler w req] ->
  r = method_not_allowed \/ trimmed_exercise r.
Proof.
  assert (F : trimmed_exercise (exercise (localFallback (num 1)))).
  { eexists. split; [reflexivity|].
    split; [apply localFallback_statement|apply localFallback_trimmed]. }
  intros H. destruct (is_post req) eqn:P.
  - right. rewrite handler_context_shape, handler_hint_shape, handler_pick_shape in H
      by exact P.
    destruct H as [H|[H|[H|[]]]]; revert H.
    all: apply clamping_sends; [exact F|].
    all: intros i h raw x Hx; apply (readers_trim i h raw); auto.
  - left. unfold GenerateContext.handler, GenerateHint.handler, GeneratePick.handler in H.
    rewrite P in H. destruct H as [H|[H|[H|[]]]]; now inversion H.
Qed.

(** An instance of X12: the reply pads its statement with blanks. *)
Lemma trimmed_statement_witness :
  let text := json_text "{'statement':'  Deriva x^2.  ','exerciseType':'mixed_rules'}" in
  let w := Sample.world GeminiRejected (OpenAIContent (Some text)) in
  let req := Sample.post "{'subtopicName':'Derivadas','exerciseIndex':1}" in
  GenerateHint.handler w req
  = ([CallCompletion],
     Ok (exercise {| statement := utf16 "Deriva x^2.";
                     exerciseType := utf16 "mixed_rules" |}))
  /\ trimmed_exercise (exercise {| statement := utf16 "Deriva x^2.";
                                   exerciseType := utf16 "mixed_rules" |}).
Proof.
  intros text w req.
  assert (H : GenerateHint.handler w req
              = ([CallCompletion],
                 Ok (exercise {| statement := utf16 "Deriva x^2.";
                                 exerciseType := utf16 "mixed_rules" |})))
    by (vm_compute; reflexivity).
  split; [exact H|].
  destruct (clamping_variants_send_trimmed_statements w req [CallCompletion]
              (exercise {| statement := utf16 "Deriva x^2.";
                           exerciseType := utf16 "mixed_rules" |})) as [E|E].
  - right. left. exact H.
  - discriminate E.
  - exact E.
Defined.

Lemma readers_accept fb h raw parsed s ty :
  JSON_parse raw = Some parsed ->
  get parsed "statement" = Ok (VStr s) -> trim s <> [] ->
  get parsed "exerciseType" = Ok (VStr ty) -> allowed_type ty ->
  GenerateContext.read_reply fb h raw
  = Ok (exercise {| statement := trim s; exerciseType := ty |})
  /\ GenerateHint.read_reply fb h raw
     = Ok (exercise {| statement := trim s; exerciseType := ty |}).
Proof.
  intros J Hs Ht Hy Ha.
  unfold GenerateContext.read_reply, GenerateHint.read_reply, repaired_statement.
  rewrite J, Hs. cbn [exc_bind]. rewrite (nonblank_string_text _ Ht), Hy.
  cbn [exc_bind]. rewrite (allowed_type_truthy _ Ha).
  apply includes_str_In in Ha. now rewrite Ha.
Qed.

Lemma strict_reader_accepts n raw parsed s ty :
  JSON_parse raw = Some parsed ->
  get parsed "statement" = Ok (VStr s) -> trim s <> [] ->
  get parsed "exerciseType" = Ok (VStr ty) -> allowed_type ty ->
  GenerateStrict.read_reply n raw
  = Ok (exercise {| statement := s; exerciseType := ty |}).
Proof.
  intros J Hs Ht Hy Ha. unfold GenerateStrict.read_reply.
  rewrite J, Hs. cbn [exc_bind]. rewrite (nonblank_string_text _ Ht), Hy.
  cbn [exc_bind]. rewrite (allowed_type_truthy _ Ha).
  apply includes_str_In in Ha. now rewrite Ha.
Qed.

(** X13 (functional correctness).  A reply that parses and holds a
    statement that is not blank and a type among the four is what the
    handler sends: with the statement trimmed in the three variants that
    clamp the index, with the statement as it is in the variant that
    validates the index. *)
Theorem valid_exercise_is_returned
        (w : World) (req : Request) (raw : jsstring) (parsed : value)
        (s ty : jsstring) :
  is_post req = true ->
  JSON_parse raw = Some parsed ->
  get parsed "statement" = Ok (VStr s) -> trim s <> [] ->
  get parsed "exerciseType" = Ok (VStr ty) -> allowed_type ty ->
  (raw_content (openai w) = ([], Ok raw) ->
   let answer t :=
     ((t ++ [CallCompletion])%list,
      Ok (exercise {| statement := trim s; exerciseType := ty |})) in
   forall t i h,
     (GenerateContext.prepare w (body req) = (t, Ok (i, h)) ->
      GenerateContext.handler w req = answer t)
     /\ (GenerateHint.prepare (body req) = (t, Ok (i, h)) ->
         GenerateHint.handler w req = answer t)
     /\ (GeneratePick.prepare w (body req) = (t, Ok (i, h)) ->
         GeneratePick.handler w req = answer t))
  /\ (GenerateStrict.raw_content_unguarded (openai w) = ([], Ok raw) ->
      forall n,
        GenerateStrict.prepare (body req) = ([], Ok (inr n)) ->
        GenerateStrict.handler w req
        = ([CallCompletion],
           Ok (exercise {| statement := s; exerciseType := ty |}))).
Proof.
  intros P J Hs Ht Hy Ha. split.
  - intros R answer t i h.
    destruct (readers_accept (localFallback i) h _ _ _ _ J Hs Ht Hy Ha) as [C H].
    split; [|split]; intros E.
    + rewrite handler_context_shape by easy.
      rewrite (clamping_reads _ GenerateContext.read_reply _ _ _ _ _ E R).
      now rewrite C.
    + rewrite handler_hint_shape by easy.
      rewrite (clamping_reads _ GenerateHint.read_reply _ _ _ _ _ E R).
      now rewrite H.
    + rewrite handler_pick_shape by easy.
      rewrite (clamping_reads _ GenerateContext.read_reply _ _ _ _ _ E R).
      now rewrite C.
  - intros R n E. rewrite (strict_reads w req _ _ P E R).
    now rewrite (strict_reader_accepts n _ _ _ _ J Hs Ht Hy Ha).
Qed.

(** An instance of X13 *)
Lemma valid_exercise_witness :
  let text := json_text "{'statement':' Deriva x^2. ','exerciseType':'mixed_rules'}" in
  let w := Sample.world GeminiRejected (OpenAIContent (Some text)) in
  let req := Sample.post "{'subtopicName':'Derivadas','exerciseIndex':1}" in
  GenerateHint.handler w req
  = ([CallCompletion],
     Ok (exercise {| statement := trim (utf16 " Deriva x^2. ");
                     exerciseType := utf16 "mixed_rules" |}))
  /\ GenerateStrict.handler w req
     = ([CallCompletion],
        Ok (exercise {| statement := utf16 " Deriva x^2. ";
                        exerciseType := utf16 "mixed_rules" |})).
Proof.
  intros text w req.
  pose (parsed := VObj [(utf16 "statement", VStr (utf16 " Deriva x^2. "));
                        (utf16 "exerciseType", VStr (utf16 "mixed_rules"))]).
  assert (P : is_post req = true) by reflexivity.
  assert (J : JSON_parse text = Some parsed) by (vm_compute; reflexivity).
  assert (Hs : get parsed "statement" = Ok (VStr (utf16 " Deriva x^2. ")))
    by (vm_compute; reflexivity).
  assert (Ht : trim (utf16 " Deriva x^2. ") <> []) by (vm_compute; discriminate).
  assert (Hy : get parsed "exerciseType" = Ok (VStr (utf16 "mixed_rules")))
    by (vm_compute; reflexivity).
  assert (Ha : allowed_type (utf16 "mixed_rules")) by (apply in_map; simpl; tauto).
  destruct (valid_exercise_is_returned w req text parsed _ _ P J Hs Ht Hy Ha)
    as [C S].
  assert (R : raw_content (openai w) = ([], Ok text)) by (vm_compute; reflexivity).
  assert (R' : GenerateStrict.raw_content_unguarded (openai w) = ([], Ok text))
    by (vm_compute; reflexivity).
  assert (Q : GenerateHint.prepare (body req)
              = ([], Ok (num 1, utf16 "basic_procedural")))
    by (vm_compute; reflexivity).
  assert (Q' : GenerateStrict.prepare (body req) = ([], Ok (inr (num 1))))
    by (vm_compute; reflexivity).
  split.
  - exact (proj1 (proj2 (C R [] (num 1) (utf16 "basic_procedural"))) Q).
  - exact (S R' (num 1) Q').
Defined.

(** ** A reply without content *)







(** ** A reply that is [null] *)

Lemma readers_on_null fb h raw :
  JSON_parse raw = Some VNull ->
  GenerateContext.read_reply fb h raw = Throw
  /\ GenerateHint.read_reply fb h raw = Throw.
Proof.
  intros J. unfold GenerateContext.read_reply, GenerateHint.read_reply,
    repaired_statement. rewrite J. split; reflexivity.
Qed.

(** X15 (edge case).  A reply that parses to [null] (the text "null"):
    reading [parsed.statement] throws, and the [catch] of the handler sends
    the fallback record of index 1, not that of the request's index as for
    a reply that does not parse.  In the variant that validates the index
    a reply that does not parse ends in that [catch] too. *)
Theorem null_reply_gets_the_first_fallback
        (w : World) (req : Request) (raw : jsstring) :
  is_post req = true ->
  (JSON_parse raw = Some VNull ->
   raw_content (openai w) = ([], Ok raw) ->
   forall t i h,
     let answer :=
       ((t ++ [CallCompletion])%list, Ok (exercise (localFallback (num 1)))) in
     (GenerateContext.prepare w (body req) = (t, Ok (i, h)) ->
      GenerateContext.handler w req = answer)
     /\ (GenerateHint.prepare (body req) = (t, Ok (i, h)) ->
         GenerateHint.handler w req = answer)
     /\ (GeneratePick.prepare w (body req) = (t, Ok (i, h)) ->
         GeneratePick.handler w req = answer))
  /\ (JSON_parse raw = None \/ JSON_parse raw = Some VNull ->
      GenerateStrict.raw_content_unguarded (openai w) = ([], Ok raw) ->
      forall n,
        GenerateStrict.prepare (body req) = ([], Ok (inr n)) ->
        GenerateStrict.handler w req
        = ([CallCompletion], Ok (exercise (GenerateStrict.localFallback (num 1))))).
Proof.
  intros P. split.
  - intros J R t i h answer.
    destruct (readers_on_null (localFallback i) h raw J) as [C H].
    split; [|split]; intros E.
    + rewrite handler_context_shape by easy.
      rewrite (clamping_reads _ GenerateContext.read_reply _ _ _ _ _ E R).
      now rewrite C.
    + rewrite handler_hint_shape by easy.
      rewrite (clamping_reads _ GenerateHint.read_reply _ _ _ _ _ E R).
      now rewrite H.
    + rewrite handler_pick_shape by easy.
      rewrite (clamping_reads _ GenerateContext.read_reply _ _ _ _ _ E R).
      now rewrite C.
  - intros J R n E. rewrite (strict_reads w req _ _ P E R).
    unfold GenerateStrict.read_reply. destruct J as [->| ->]; reflexivity.
Qed.

(** An instance of X15: index 3 *)
Lemma null_reply_witness :
  let w := Sample.world GeminiRejected (OpenAIContent (Some (utf16 "null"))) in
  let req := Sample.post "{'subtopicName':'Derivadas','difficulty':'hard','exerciseIndex':3}" in
  GenerateHint.handler w req
  = ([CallCompletion], Ok (exercise (localFallback (num 1))))
  /\ GenerateStrict.handler w req
     = ([CallCompletion], Ok (exercise (GenerateStrict.localFallback (num 1)))).
Proof.
  intros w req.
  assert (P : is_post req = true) by reflexivity.
  destruct (null_reply_gets_the_first_fallback w req (utf16 "null") P) as [C S].
  assert (J : JSON_parse (utf16 "null") = Some VNull) by (vm_compute; reflexivity).
  assert (R : raw_content (openai w) = ([], Ok (utf16 "null")))
    by (vm_compute; reflexivity).
  assert (R' : GenerateStrict.raw_content_unguarded (openai w)
               = ([], Ok (utf16 "null"))) by (vm_compute; reflexivity).
  assert (Q : GenerateHint.prepare (body req)
              = ([], Ok (num 3, utf16 "exam_multi_step")))
    by (vm_compute; reflexivity).
  assert (Q' : GenerateStrict.prepare (body req) = ([], Ok (inr (num 3))))
    by (vm_compute; reflexivity).
  split.
  - exact (proj1 (proj2 (C J R [] (num 3) (utf16 "exam_multi_step"))) Q).
  - exact (S (or_intror J) R' (num 3) Q').
Defined.

(** ** The exam-style hint *)

(** X16 (invariant).  The type hint "exam_multi_step" is only ever chosen
    for the third exercise: by [pickExerciseType] of generateExercise.ts
    only when the index is 3; by [pickExerciseType] of evaluateAnswer.ts
    only when moreover the difficulty is "hard"; by
    [chooseExerciseTypeHint] exactly when the index is neither 1 nor 2 and
    the difficulty is "hard". *)
Theorem exam_style_is_kept_for_the_third_exercise :
  (forall w name d i,
     GenerateContext.pickExerciseType w name d i = Ok (utf16 "exam_multi_step") ->
     num_eq i (num 3) = true)
  /\ (forall w s d i,
        GeneratePick.pickExerciseType w s d i = utf16 "exam_multi_step" ->
        num_eq i (num 3) = true /\ strict_eq d (VStr (utf16 "hard")) = true)
  /\ (forall i d,
        GenerateHint.chooseExerciseTypeHint i d = utf16 "exam_multi_step"
        <-> num_eq i (num 1) = false /\ num_eq i (num 2) = false
            /\ strict_eq d (VStr (utf16 "hard")) = true).
Proof.
  split; [|split].
  - intros w name d i. unfold GenerateContext.pickExerciseType.
    repeat break_goal; intros H;
      first [reflexivity | assumption | exfalso; vm_compute in H; discriminate H].
  - intros w s d i. unfold GeneratePick.pickExerciseType.
    repeat break_goal; intros H;
      first [now split | exfalso; vm_compute in H; discriminate H].
  - intros i d. unfold GenerateHint.chooseExerciseTypeHint.
    destruct (num_eq i (num 1)); [|destruct (num_eq i (num 2));
      [|destruct (strict_eq d (VStr (utf16 "hard")))]].
    all: split; [intros H|intros (H1 & H2 & H3)]; try discriminate.
    all: first [now repeat split | exfalso; vm_compute in H; discriminate H].
Qed.

(** An instance of X16 *)
Lemma exam_style_witness :
  GenerateHint.chooseExerciseTypeHint (num 3) (VStr (utf16 "hard"))
  = utf16 "exam_multi_step"
  /\ GenerateHint.chooseExerciseTypeHint (num 2) (VStr (utf16 "hard"))
     <> utf16 "exam_multi_step".
Proof.
  destruct exam_style_is_kept_for_the_third_exercise as (_ & _ & H).
  split.
  - apply (proj2 (H (num 3) (VStr (utf16 "hard")))).
    repeat split; vm_compute; reflexivity.
  - intros E. apply (proj1 (H (num 2) (VStr (utf16 "hard")))) in E.
    destruct E as (_ & E & _). vm_compute in E. discriminate E.
Defined.

(** ** A subtopic name that is not a text *)

Lemma trimmed_or_not_a_text v d : not_a_text v -> trimmed_or v d = Throw.
Proof. destruct v; simpl; tauto. Qed.

(** X17 (edge case).  In the two variants that read
    [subtopicName?.trim()], a subtopic name that is a number, a boolean, an
    array or an object has no [trim] to call: the handler answers with the
    fallback record of index 1, whatever the index of the request, and does
    not call the completion service. *)
Theorem subtopic_that_is_not_a_text_gets_the_first_fallback
        (w : World) (req : Request) (name : value) :
  is_post req = true ->
  get (body req) "subtopicName" = Ok name ->
  not_a_text name ->
  GenerateHint.handler w req = ([], Ok (exercise (localFallback (num 1))))
  /\ GeneratePick.handler w req = ([], Ok (exercise (localFallback (num 1)))).
Proof.
  intros P G N.
  destruct (get_defined _ _ _ "difficulty" G) as [df D].
  destruct (get_defined _ _ _ "exerciseIndex" G) as [ix I].
  pose proof (trimmed_or_not_a_text name "Derivadas" N) as T.
  unfold GenerateHint.handler, GeneratePick.handler,
    GenerateHint.attempt, GeneratePick.attempt,
    GenerateHint.prepare, GeneratePick.prepare.
  rewrite P, G, D, I. run.
  destruct (sanitizeExerciseIndex ix); cbn beta iota zeta; rewrite ?T;
    split; reflexivity.
Qed.

(** An instance of X17: the subtopic name 7, index 3 *)
Lemma subtopic_not_a_text_witness :
  let w := Sample.world GeminiRejected
             (OpenAIContent (Some (json_text "{'statement':'Deriva x^2.'}"))) in
  let req := Sample.post "{'subtopicName':7,'difficulty':'hard','exerciseIndex':3}" in
  GenerateHint.handler w req = ([], Ok (exercise (localFallback (num 1))))
  /\ GeneratePick.handler w req = ([], Ok (exercise (localFallback (num 1)))).
Proof.
  intros w req.
  assert (P : is_post req = true) by reflexivity.
  assert (G : get (body req) "subtopicName" = Ok (VNum (num 7)))
    by (vm_compute; reflexivity).
  exact (subtopic_that_is_not_a_text_gets_the_first_fallback w req _ P G I).
Defined.

(** ** The subtopic store *)

(** X18 (edge case).  The variant with the subtopic store calls
    [toLowerCase] on the subtopic label.  When the store gives no context
    and the [subtopicName] of the body is truthy but not a string (a
    number, [true], an array, an object), that call throws: the handler
    answers with the fallback record of index 1 and does not call the
    completion service. *)
Theorem context_variant_needs_a_text_to_lower
        (w : World) (req : Request) (name : value) (t : list event) :
  is_post req = true ->
  get (body req) "subtopicName" = Ok name ->
  not_a_text name -> truthy name = true ->
  GenerateContext.fetchSubtopicContext w (body req) = (t, Ok None) ->
  exists t', GenerateContext.handler w req
             = (t', Ok (exercise (localFallback (num 1))))
             /\ ~ In CallCompletion t'.
Proof.
  intros P G N T F.
  assert (Ht : ~ In CallCompletion t).
  { destruct (fetchSubtopicContext_trace w (body req)) as [E|[q E]];
      rewrite F in E; [discriminate E|]. cbn in E. subst t.
    intros [K|[]]. discriminate K. }
  destruct (get_defined _ _ _ "difficulty" G) as [df D].
  destruct (get_defined _ _ _ "exerciseIndex" G) as [ix I].
  assert (K : forall d i, GenerateContext.pickExerciseType w name d i = Throw).
  { intros d i. unfold GenerateContext.pickExerciseType, or_else. rewrite T.
    destruct name; simpl in N; tauto. }
  unfold GenerateContext.handler, GenerateContext.attempt, GenerateContext.prepare.
  assert (L : or_else (or_else VUndefined name)
                (VStr (utf16 "Subtema de derivadas")) = name).
  { unfold or_else. cbn [truthy]. now rewrite T. }
  rewrite P, I, D, F, G. run. cbn [GenerateContext.ctx_field truthy andb].
  destruct (sanitizeExerciseIndex ix) as [i|]; cbn beta iota zeta.
  - rewrite L, K. cbn beta iota zeta. rewrite ?app_nil_r.
    eexists. split; [reflexivity|exact Ht].
  - exists []. split; [reflexivity|easy].
Qed.

(** An instance of X18: the subtopic name 7, index 3 *)
Lemma context_variant_witness :
  let w := Sample.world GeminiRejected
             (OpenAIContent (Some (json_text "{'statement':'Deriva x^2.'}"))) in
  let req := Sample.post "{'subtopicName':7,'difficulty':'hard','exerciseIndex':3}" in
  exists t', GenerateContext.handler w req
             = (t', Ok (exercise (localFallback (num 1))))
             /\ ~ In CallCompletion t'.
Proof.
  intros w req.
  assert (P : is_post req = true) by reflexivity.
  assert (G : get (body req) "subtopicName" = Ok (VNum (num 7)))
    by (vm_compute; reflexivity).
  assert (T : truthy (VNum (num 7)) = true) by reflexivity.
  assert (F : GenerateContext.fetchSubtopicContext w (body req)
              = ([QuerySubtopics (ByName (VNum (num 7)))], Ok None))
    by (vm_compute; reflexivity).
  exact (context_variant_needs_a_text_to_lower w req _ _ P G I T F).
Defined.

Lemma fetch_without_row w body id name :
  get body "subtopicId" = Ok id ->
  get body "subtopicName" = Ok name ->
  (exists data error,
      supabase w (query_of id name) = SupabaseResult data error
      /\ (truthy error = true \/ truthy data = false)) ->
  GenerateContext.fetchSubtopicContext w body
  = ([QuerySubtopics (query_of id name)], Ok None).
Proof.
  intros Hi Hn (data & error & E & H).
  unfold GenerateContext.fetchSubtopicContext. rewrite Hi, Hn. run.
  fold (query_of id name). rewrite E.
  destruct H as [->| H]; [reflexivity|].
  destruct (truthy error); [reflexivity|]. now rewrite H.
Qed.

Lemma context_handler_by_fetch w w' req :
  openai w' = openai w -> toLowerCase w' = toLowerCase w ->
  GenerateContext.fetchSubtopicContext w' (body req)
  = GenerateContext.fetchSubtopicContext w (body req) ->
  GenerateContext.handler w' req = GenerateContext.handler w req.
Proof.
  intros O L F.
  unfold GenerateContext.handler, GenerateContext.attempt, GenerateContext.prepare,
    GenerateContext.pickExerciseType.
  now rewrite O, L, F.
Qed.

(** X19 (error handling).  The subtopic store, queried by id when the body
    has a truthy [subtopicId], else by name, else without filter.  When the
    query rejects, the handler answers with the fallback record of index 1
    and does not call the completion service.  When it reports an error or
    no row, [fetchSubtopicContext] yields no context and the handler goes on
    exactly as with a store that has no row. *)
Theorem store_failures_do_not_fail_the_request
        (w : World) (req : Request) (id name : value) :
  is_post req = true ->
  get (body req) "subtopicId" = Ok id ->
  get (body req) "subtopicName" = Ok name ->
  let q := query_of id name in
  (supabase w q = SupabaseRejected ->
   exists t, GenerateContext.handler w req
             = (t, Ok (exercise (localFallback (num 1))))
             /\ (t = [] \/ t = [QuerySubtopics q]))
  /\ (forall data error,
        supabase w q = SupabaseResult data error ->
        truthy error = true \/ truthy data = false ->
        GenerateContext.fetchSubtopicContext w (body req)
        = ([QuerySubtopics q], Ok None)
        /\ GenerateContext.handler w req
           = GenerateContext.handler
               (with_supabase w (fun _ => SupabaseResult VNull VNull)) req).
Proof.
  intros P Hi Hn q. split.
  - intros E.
    assert (F : GenerateContext.fetchSubtopicContext w (body req)
                = ([QuerySubtopics q], Throw)).
    { unfold GenerateContext.fetchSubtopicContext. rewrite Hi, Hn. run.
      fold (query_of id name). fold q. now rewrite E. }
    unfold GenerateContext.handler, GenerateContext.attempt, GenerateContext.prepare.
    rewrite P, F. run.
    destruct (get (body req) "exerciseIndex") as [ix|]; cbn beta iota zeta;
      [|eexists; split; [reflexivity|now left]].
    destruct (sanitizeExerciseIndex ix) as [i|]; cbn beta iota zeta;
      [|eexists; split; [reflexivity|now left]].
    destruct (get (body req) "difficulty") as [d|]; cbn beta iota zeta;
      [|eexists; split; [reflexivity|now left]].
    eexists; split; [reflexivity|now right].
  - intros data error E H.
    assert (F : GenerateContext.fetchSubtopicContext w (body req)
                = ([QuerySubtopics q], Ok None)).
    { apply fetch_without_row; eauto. }
    split; [exact F|]. symmetry. apply context_handler_by_fetch; try reflexivity.
    rewrite F. apply fetch_without_row; try assumption.
    exists VNull, VNull. split; [reflexivity|now right].
Qed.

(** An instance of X19: the query rejects; the store reports an error. *)
Lemma store_failures_witness :
  let base := Sample.world GeminiRejected (OpenAIContent None) in
  let req := Sample.post "{'subtopicName':'Derivadas','exerciseIndex':3}" in
  let q := ByName (VStr (utf16 "Derivadas")) in
  (exists t, GenerateContext.handler
               (with_supabase base (fun _ => SupabaseRejected)) req
             = (t, Ok (exercise (localFallback (num 1))))
             /\ (t = [] \/ t = [QuerySubtopics q]))
  /\ GenerateContext.fetchSubtopicContext
       (with_supabase base (fun _ => SupabaseResult VNull (VStr (utf16 "timeout"))))
       (body req)
     = ([QuerySubtopics q], Ok None).
Proof.
  intros base req q.
  assert (P : is_post req = true) by reflexivity.
  assert (Hi : get (body req) "subtopicId" = Ok VUndefined)
    by (vm_compute; reflexivity).
  assert (Hn : get (body req) "subtopicName" = Ok (VStr (utf16 "Derivadas")))
    by (vm_compute; reflexivity).
  split.
  - destruct (store_failures_do_not_fail_the_request
                (with_supabase base (fun _ => SupabaseRejected)) req _ _ P Hi Hn)
      as [R _].
    exact (R eq_refl).
  - destruct (store_failures_do_not_fail_the_request
                (with_supabase base
                   (fun _ => SupabaseResult VNull (VStr (utf16 "timeout"))))
                req _ _ P Hi Hn) as [_ E].
    exact (proj1 (E VNull (VStr (utf16 "timeout")) eq_refl (or_introl eq_refl))).
Defined.

(** ** The test of the validating variant *)

Lemma index_accepted_iff ix :
  GenerateStrict.index_rejected ix = false
  <-> exists n, ix = VNum n
                /\ (n = NaN \/ exists q, n = Fin q /\ (1 <= q)%Q /\ (q <= 3)%Q).
Proof.
  unfold GenerateStrict.index_rejected. split.
  - destruct ix; try discriminate. intros H. exists n. split; [reflexivity|].
    apply Bool.orb_false_iff in H as [H1 H3]. unfold num_gt in H3.
    destruct n as [ | | |q]; try discriminate; [now left|right].
    exists q. split; [reflexivity|]. split.
    + now apply (num_lt_Fin_false q 1).
    + now apply (num_lt_Fin_false 3 q).
  - intros (n & -> & [->|(q & -> & H1 & H3)]); [reflexivity|].
    apply Bool.orb_false_iff. unfold num_gt. split.
    + now apply (num_lt_Fin_false q 1).
    + now apply (num_lt_Fin_false 3 q).
Qed.

(** X20 (error handling).  In the variant that validates the index, a POST
    whose body is an object is answered with the 400 and no external call
    exactly when the test of lines 959-963 rejects the index; the test lets
    through the numbers from 1 to 3, fractions included, (and NaN, which no
    JSON body can hold) and nothing else: a numeric text such as "2" is
    rejected. *)
Theorem strict_variant_answers_400_on_the_type_and_bounds_test
        (w : World) (req : Request) (sn df ix : value) :
  is_post req = true ->
  get (body req) "subtopicName" = Ok sn ->
  get (body req) "difficulty" = Ok df ->
  get (body req) "exerciseIndex" = Ok ix ->
  (GenerateStrict.handler w req = ([], Ok GenerateStrict.bad_request)
   <-> GenerateStrict.index_rejected ix = true)
  /\ (GenerateStrict.index_rejected ix = false
      <-> exists n, ix = VNum n
                    /\ (n = NaN
                        \/ exists q, n = Fin q /\ (1 <= q)%Q /\ (q <= 3)%Q))
  /\ status GenerateStrict.bad_request = 400%Z.
Proof.
  intros P S D I. split; [|split; [apply index_accepted_iff|reflexivity]].
  split.
  - intros H. destruct (GenerateStrict.index_rejected ix) eqn:R; [reflexivity|].
    exfalso.
    destruct (prepare_strict_cases (body req)) as [[t E]|[E|(n & E & _)]].
    + pose proof (prepare_strict_trace (body req)) as T. rewrite E in T.
      cbn in T. subst t.
      unfold GenerateStrict.handler, GenerateStrict.attempt in H.
      rewrite P, E in H. run. injection H as H. discriminate H.
    + unfold GenerateStrict.prepare in E. run. rewrite S, D, I in E.
      cbn beta iota zeta in E. rewrite R in E.
      destruct ix; try discriminate R. crunch E.
    + destruct (strict_accepts w req n P E) as (r & K & _).
      rewrite K in H. discriminate H.
  - intros R. eapply strict_rejects; eassumption.
Qed.

(** An instance of X20: the index given as the text "2" *)
Lemma strict_400_witness :
  let w := Sample.world GeminiRejected OpenAIRejected in
  let req := Sample.post "{'subtopicName':'Derivadas','exerciseIndex':'2'}" in
  GenerateStrict.handler w req = ([], Ok GenerateStrict.bad_request).
Proof.
  intros w req.
  assert (P : is_post req = true) by reflexivity.
  assert (S : get (body req) "subtopicName" = Ok (VStr (utf16 "Derivadas")))
    by (vm_compute; reflexivity).
  assert (D : get (body req) "difficulty" = Ok VUndefined)
    by (vm_compute; reflexivity).
  assert (I : get (body req) "exerciseIndex" = Ok (VStr (utf16 "2")))
    by (vm_compute; reflexivity).
  destruct (strict_variant_answers_400_on_the_type_and_bounds_test
              w req _ _ _ P S D I) as [H _].
  apply (proj2 H). reflexivity.
Defined.

(** ** Prose around the object (the first Gemini variant) *)

Lemma dropWhile_app_stop p l c r :
  p c = false -> dropWhile p (l ++ c :: r) = dropWhile p l ++ c :: r.
Proof.
  intros H. induction l as [|x l IH]; simpl; [now rewrite H|].
  destruct (p x); [exact IH|reflexivity].
Qed.

Lemma forallb_dropWhile {q} p (s : jsstring) :
  forallb q s = true -> forallb q (dropWhile p s) = true.
Proof.
  induction s as [|x s IH]; [easy|]. intros H. simpl.
  destruct (p x); [|exact H]. simpl in H. apply andb_prop in H as [_ H]. now apply IH.
Qed.

Lemma trim_around a m b pre post :
  is_ws a = false -> is_ws b = false ->
  trim (pre ++ (a :: m ++ [b]) ++ post)
  = trimStart pre ++ (a :: m ++ [b]) ++ trimEnd post.
Proof.
  intros Ha Hb. unfold trim, trimEnd at 1, trimStart.
  change (pre ++ (a :: m ++ [b]) ++ post) with (pre ++ a :: ((m ++ [b]) ++ post)).
  rewrite (dropWhile_app_stop _ _ _ _ Ha).
  replace (dropWhile is_ws pre ++ a :: (m ++ [b]) ++ post)
    with ((dropWhile is_ws pre ++ a :: m) ++ b :: post)
    by (rewrite <- !app_assoc; reflexivity).
  rewrite rev_app_distr. change (rev (b :: post)) with (rev post ++ [b]).
  rewrite <- app_assoc. change ([b] ++ rev (dropWhile is_ws pre ++ a :: m))
    with (b :: rev (dropWhile is_ws pre ++ a :: m)).
  rewrite (dropWhile_app_stop _ _ _ _ Hb).
  rewrite rev_app_distr. change (rev (b :: rev (dropWhile is_ws pre ++ a :: m)))
    with (rev (rev (dropWhile is_ws pre ++ a :: m)) ++ [b]).
  rewrite rev_involutive. unfold trimEnd.
  repeat (rewrite <- ?app_assoc; cbn [app]). reflexivity.
Qed.

Lemma startsWith_one (x y : N) s : startsWith (y :: s) [x] = (x =? y)%N.
Proof. simpl. apply Bool.andb_true_r. Qed.

Lemma indexOf_from_skip x a r i :
  lacks x a = true ->
  indexOf_from (a ++ x :: r) [x] i = (i + Z.of_nat (List.length a))%Z.
Proof.
  revert i. induction a as [|y a IH]; intros i H.
  - cbn [app indexOf_from]. rewrite startsWith_one, N.eqb_refl. cbn. lia.
  - simpl in H. apply andb_prop in H as [Hy H].
    cbn [app indexOf_from]. rewrite startsWith_one.
    apply Bool.negb_true_iff in Hy. rewrite N.eqb_sym, Hy.
    rewrite (IH _ H). cbn [List.length]. lia.
Qed.

Lemma lastIndexOf_from_none x c i best :
  lacks x c = true -> lastIndexOf_from c [x] i best = best.
Proof.
  revert i. induction c as [|y c IH]; intros i H; [reflexivity|].
  simpl in H. apply andb_prop in H as [Hy H].
  cbn [lastIndexOf_from]. rewrite startsWith_one.
  apply Bool.negb_true_iff in Hy. rewrite N.eqb_sym, Hy. now apply IH.
Qed.

Lemma lastIndexOf_from_last x s c i best :
  lacks x c = true ->
  lastIndexOf_from (s ++ x :: c) [x] i best = (i + Z.of_nat (List.length s))%Z.
Proof.
  intros H. revert i best. induction s as [|y s IH]; intros i best.
  - cbn [app lastIndexOf_from]. rewrite startsWith_one, N.eqb_refl.
    rewrite (lastIndexOf_from_none _ _ _ _ H). cbn. lia.
  - cbn [app lastIndexOf_from]. rewrite IH. cbn [List.length]. lia.
Qed.

Lemma slice_middle (a b c : jsstring) :
  slice (a ++ b ++ c) (Z.of_nat (List.length a))
        (Z.of_nat (List.length a) + Z.of_nat (List.length b)) = b.
Proof.
  unfold slice. rewrite !length_app.
  replace (Z.of_nat (List.length a) <? 0)%Z with false
    by (symmetry; apply Z.ltb_ge; lia).
  replace (Z.of_nat (List.length a) + Z.of_nat (List.length b) <? 0)%Z with false
    by (symmetry; apply Z.ltb_ge; lia).
  rewrite !Z.min_l by lia.
  replace (Z.of_nat (List.length a) + Z.of_nat (List.length b)
           - Z.of_nat (List.length a))%Z
    with (Z.of_nat (List.length b)) by lia.
  rewrite !Nat2Z.id, skipn_app, skipn_all, Nat.sub_diag. cbn [skipn app].
  rewrite firstn_app, firstn_all, Nat.sub_diag. cbn [firstn]. apply app_nil_r.
Qed.

Lemma between_braces_inside a inner c :
  lacks 123 a = true -> lacks 125 c = true ->
  between_braces (a ++ braces inner ++ c) = braces inner.
Proof.
  intros Ha Hc. unfold between_braces, braces.
  change (utf16 "{") with [123%N]. change (utf16 "}") with [125%N].
  set (text := a ++ ([123%N] ++ inner ++ [125%N]) ++ c).
  assert (F : indexOf text [123%N] = Z.of_nat (List.length a)).
  { unfold indexOf, text. cbn [app].
    now rewrite (indexOf_from_skip _ _ _ _ Ha). }
  assert (L : lastIndexOf text [125%N]
              = (Z.of_nat (List.length a) + Z.of_nat (List.length inner) + 1)%Z).
  { unfold lastIndexOf, text.
    replace (a ++ ([123%N] ++ inner ++ [125%N]) ++ c)
      with ((a ++ 123%N :: inner) ++ 125%N :: c)
      by (rewrite <- !app_assoc; reflexivity).
    rewrite (lastIndexOf_from_last _ _ _ _ _ Hc), length_app.
    cbn [List.length]. lia. }
  rewrite F, L.
  replace (Z.of_nat (List.length a) =? -1)%Z with false
    by (symmetry; apply Z.eqb_neq; lia).
  replace (Z.of_nat (List.length a) + Z.of_nat (List.length inner) + 1 =? -1)%Z
    with false by (symmetry; apply Z.eqb_neq; lia).
  replace (Z.of_nat (List.length a)
           <? Z.of_nat (List.length a) + Z.of_nat (List.length inner) + 1)%Z
    with true by (symmetry; apply Z.ltb_lt; lia).
  cbn [negb andb].
  replace (Z.of_nat (List.length a) + Z.of_nat (List.length inner) + 1 + 1)%Z
    with (Z.of_nat (List.length a)
          + Z.of_nat (List.length ([123%N] ++ inner ++ [125%N])))%Z
    by (rewrite !length_app; cbn [List.length]; lia).
  apply slice_middle.
Qed.

Lemma lacks_trimStart x s : lacks x s = true -> lacks x (trimStart s) = true.
Proof. apply forallb_dropWhile. Qed.

Lemma lacks_trimEnd x s : lacks x s = true -> lacks x (trimEnd s) = true.
Proof.
  intros H. unfold trimEnd, lacks. rewrite forallb_rev.
  apply forallb_dropWhile. now rewrite forallb_rev.
Qed.

Lemma clean_prose pre inner post :
  lacks 123 pre = true -> lacks 125 post = true ->
  startsWith (trim (pre ++ braces inner ++ post)) (utf16 "```") = false ->
  EvaluateGemini.clean (pre ++ braces inner ++ post) = braces inner.
Proof.
  intros Hpre Hpost F. rewrite clean_unfold, F.
  assert (T : trim (pre ++ braces inner ++ post)
              = trimStart pre ++ braces inner ++ trimEnd post)
    by (apply (trim_around 123 inner 125); reflexivity).
  rewrite T. apply between_braces_inside;
    [now apply lacks_trimStart | now apply lacks_trimEnd].
Qed.

(** X21 (functional correctness).  In the variant that cleans the reply,
    text before the first opening brace and after the last closing brace is
    dropped: a reply that wraps an object in prose (and does not open with a
    code fence) is cleaned to the object and answered as the bare object
    is. *)
Theorem prose_around_the_object_is_dropped
        (w : World) (req : Request) (pre inner post : jsstring) :
  lacks 123 pre = true ->
  lacks 125 post = true ->
  let text := pre ++ braces inner ++ post in
  startsWith (trim text) (utf16 "```") = false ->
  EvaluateGemini.clean text = braces inner
  /\ EvaluateGemini.handler (with_gemini w (GeminiText text)) req
     = EvaluateGemini.handler (with_gemini w (GeminiText (braces inner))) req.
Proof.
  intros Hpre Hpost text F.
  pose proof (clean_prose _ _ _ Hpre Hpost F) as C. fold text in C.
  split; [exact C|].
  apply gemini_handler_reply. intros idx. unfold EvaluateGemini.read_reply.
  rewrite C, clean_braces.
  assert (N : text <> []).
  { unfold text, braces. change (utf16 "{") with [123%N].
    destruct pre; discriminate. }
  pose proof (braces_nonempty inner) as B.
  destruct text; [easy|]. destruct (braces inner); [easy|reflexivity].
Qed.

(** An instance of X21 *)
Lemma prose_witness :
  let inner := json_text "'result':'partial','score':70,'feedbackSummary':'ok'" in
  let text := utf16 "Here is my evaluation: " ++ braces inner ++ utf16 " Good luck!" in
  let w := Sample.world GeminiRejected OpenAIRejected in
  EvaluateGemini.clean text = braces inner
  /\ EvaluateGemini.handler (with_gemini w (GeminiText text)) SampleEvaluation.request
     = EvaluateGemini.handler (with_gemini w (GeminiText (braces inner)))
         SampleEvaluation.request.
Proof.
  intros inner text w.
  assert (H1 : lacks 123 (utf16 "Here is my evaluation: ") = true)
    by (vm_compute; reflexivity).
  assert (H2 : lacks 125 (utf16 " Good luck!") = true) by (vm_compute; reflexivity).
  assert (F : startsWith (trim text) (utf16 "```") = false)
    by (vm_compute; reflexivity).
  exact (prose_around_the_object_is_dropped w SampleEvaluation.request
           _ inner _ H1 H2 F).
Defined.

(** ** The MIME type sent with the image *)

Lemma first_segment_lacks sep s : lacks sep (EvaluateImage.first_segment sep s) = true.
Proof.
  unfold EvaluateImage.first_segment, lacks.
  induction s as [|x s IH]; [reflexivity|]. simpl.
  destruct (negb (x =? sep)%N) eqn:E; [|reflexivity].
  destruct (span _ s). simpl in *. now rewrite E.
Qed.

Lemma first_segment_app sep a r :
  lacks sep a = true ->
  EvaluateImage.first_segment sep (a ++ r) = a ++ EvaluateImage.first_segment sep r.
Proof.
  unfold EvaluateImage.first_segment, lacks. induction a as [|x a IH]; [easy|].
  intros H. simpl in H. apply andb_prop in H as [Hx H].
  cbn [app span]. rewrite Hx. specialize (IH H).
  destruct (span _ (a ++ r)). destruct (span _ r). simpl in *. now rewrite IH.
Qed.

Lemma first_segment_stop sep r : EvaluateImage.first_segment sep (sep :: r) = [].
Proof. unfold EvaluateImage.first_segment. simpl. now rewrite N.eqb_refl. Qed.

Lemma startsWith_split s p :
  startsWith s p = true -> exists r, s = p ++ r.
Proof.
  revert s. induction p as [|x p IH]; intros s H; [now exists s|].
  destruct s as [|y s]; [discriminate|]. simpl in H.
  apply andb_prop in H as [E H]. apply N.eqb_eq in E. subst.
  destruct (IH _ H) as [r ->]. now exists r.
Qed.

Lemma mimeType_of_a_header c r :
  EvaluateImage.mimeType (Some (c :: r))
  = if startsWith (c :: r) (utf16 "image/")
    then EvaluateImage.first_segment 59 (c :: r)
    else utf16 "image/jpeg".
Proof. reflexivity. Qed.

(** X22 (invariant).  The MIME type sent with the image always begins with
    "image/" and holds no semicolon: a content type that begins with
    "image/" is cut at its first semicolon, any other, or none, is replaced
    by "image/jpeg". *)
Theorem mime_type_is_a_bare_image_type (contentType : option jsstring) :
  startsWith (EvaluateImage.mimeType contentType) (utf16 "image/") = true
  /\ lacks 59 (EvaluateImage.mimeType contentType) = true
  /\ (forall subtype params,
        lacks 59 subtype = true ->
        EvaluateImage.mimeType
          (Some (utf16 "image/" ++ subtype ++ 59%N :: params))
        = utf16 "image/" ++ subtype).
Proof.
  assert (I : lacks 59 (utf16 "image/") = true) by reflexivity.
  split; [|split].
  - unfold EvaluateImage.mimeType.
    destruct contentType as [[|c h]|]; try reflexivity.
    destruct (startsWith (c :: h) (utf16 "image/")) eqn:E; [|reflexivity].
    destruct (startsWith_split _ _ E) as [r ->].
    rewrite (first_segment_app _ _ _ I). apply startsWith_app.
  - unfold EvaluateImage.mimeType.
    destruct (startsWith _ (utf16 "image/")); [apply first_segment_lacks|reflexivity].
  - intros subtype params H.
    change (utf16 "image/" ++ subtype ++ 59%N :: params)
      with (105%N :: (utf16 "mage/" ++ subtype ++ 59%N :: params)).
    rewrite mimeType_of_a_header.
    change (105%N :: (utf16 "mage/" ++ subtype ++ 59%N :: params))
      with (utf16 "image/" ++ subtype ++ 59%N :: params).
    rewrite startsWith_app.
    rewrite (first_segment_app _ _ _ I), (first_segment_app _ _ _ H).
    now rewrite first_segment_stop, app_nil_r.
Qed.

(** An instance of X22 *)
Lemma mime_type_witness :
  EvaluateImage.mimeType (Some (utf16 "image/png; charset=binary")) = utf16 "image/png"
  /\ EvaluateImage.mimeType (Some (utf16 "text/html")) = utf16 "image/jpeg"
  /\ EvaluateImage.mimeType None = utf16 "image/jpeg".
Proof.
  destruct (mime_type_is_a_bare_image_type None) as (_ & _ & H).
  assert (L : lacks 59 (utf16 "png") = true) by reflexivity.
  split; [exact (H (utf16 "png") (utf16 " charset=binary") L)|].
  split; reflexivity.
Defined.
